(** * pyspcwebgw: the SPC Web Gateway client ([pyspcwebgw/__init__.py])

    A shallow embedding of [SpcWebGateway]: the resource fetcher
    [_async_get_data], the initial load [async_load_parameters], the command
    dispatcher [change_mode] and the event router [_async_ws_handler]; the
    properties [info], [areas] and [zones]; [start] and [stop], as the calls
    they make on the stream client.

    Python values are decoded JSON; the gateway, its two registries, the
    [Area] and [Zone] objects (a store of objects addressed by reference, since
    a zone is shared between its area's [zones] list and the zone registry),
    the log, the requests sent and the callbacks scheduled are threaded
    through a state-and-exception monad.  Coroutines are run to completion:
    an [await] is a call.

    The file imports [Area], [Zone], [AreaMode] and [async_request] from
    modules that are not among the sources.  What the code needs of them is
    either a parameter (the class [Entities]: the supported SIA codes, the
    snapshots the constructors and [update] compute) or a definition marked
    as modelled from the spec. *)

From Stdlib Require Import ZArith.
From stdpp Require Import base list strings.

Open Scope string_scope.
Open Scope list_scope.

(** ** Python values *)

(** A decoded JSON document (non-integer numbers are left out). *)
#[local] Set Warnings "-register-all".
Inductive pyval : Type :=
| PNone
| PBool (b : bool)
| PInt (z : Z)
| PStr (s : string)
| PList (l : list pyval)
| PDict (kv : list (string * pyval)).

(** The exceptions the modelled code can raise.  [Stuck] is not a Python
    exception: it marks a reference with no object, or an object of the wrong
    class, behind it, which no run from a gateway built by [__init__] can
    produce. *)
Inductive exc : Type :=
| KeyError | TypeError | IndexError | AttributeError | Stuck.

Inductive result (A : Type) : Type :=
| Ok (a : A)
| Raise (e : exc).
Arguments Ok {A} a.
Arguments Raise {A} e.

Definition is_ok {A} (r : result A) : bool :=
  match r with Ok _ => true | Raise _ => false end.

Definition rbind {A B} (r : result A) (f : A -> result B) : result B :=
  match r with
  | Ok a => f a
  | Raise e => Raise e
  end.

Declare Scope py_scope.
Delimit Scope py_scope with py.
Notation "x <-? r ;; k" := (rbind r (fun x => k))
  (at level 100, r at next level, right associativity) : py_scope.
Open Scope py_scope.

(** [bool(v)]: [None], [False], [0], the empty string, list and dict are falsy. *)
Definition truthy (v : pyval) : bool :=
  match v with
  | PNone => false
  | PBool b => b
  | PInt z => negb (z =? 0)%Z
  | PStr s => negb (String.eqb s "")
  | PList l => match l with [] => false | _ => true end
  | PDict kv => match kv with [] => false | _ => true end
  end.

Fixpoint assoc {V : Type} (k : string) (kv : list (string * V)) : option V :=
  match kv with
  | [] => None
  | (k', v) :: rest => if String.eqb k k' then Some v else assoc k rest
  end.

(** [v[k]] for a string [k]: a dict without the key raises [KeyError], any
    other value raises [TypeError]. *)
Definition getitem (v : pyval) (k : string) : result pyval :=
  match v with
  | PDict kv => match assoc k kv with Some x => Ok x | None => Raise KeyError end
  | _ => Raise TypeError
  end.

(** [isinstance(v, list)] *)
Definition is_list (v : pyval) : bool :=
  match v with PList _ => true | _ => false end.

(** [v[0]], used by the source on lists only. *)
Definition first_item (v : pyval) : result pyval :=
  match v with
  | PList (x :: _) => Ok x
  | PList [] => Raise IndexError
  | PDict _ => Raise KeyError
  | PStr s => match s with
              | EmptyString => Raise IndexError
              | String c _ => Ok (PStr (String c EmptyString))
              end
  | _ => Raise TypeError
  end.

(** [for x in v]: the items of a list, the keys of a dict, the characters of a
    string; anything else is not iterable. *)
Fixpoint chars (s : string) : list pyval :=
  match s with
  | EmptyString => []
  | String c rest => PStr (String c EmptyString) :: chars rest
  end.

Definition py_iter (v : pyval) : result (list pyval) :=
  match v with
  | PList l => Ok l
  | PDict kv => Ok (map (fun p => PStr (fst p)) kv)
  | PStr s => Ok (chars s)
  | _ => Raise TypeError
  end.

(** [a == b].  [True == 1] and [False == 0]; lists compare item by item,
    dicts key by key whatever the order. *)
Fixpoint py_eq (a b : pyval) {struct a} : bool :=
  match a, b with
  | PNone, PNone => true
  | PBool x, PBool y => Bool.eqb x y
  | PBool x, PInt y => ((if x then 1 else 0) =? y)%Z
  | PInt x, PBool y => (x =? (if y then 1 else 0))%Z
  | PInt x, PInt y => (x =? y)%Z
  | PStr x, PStr y => String.eqb x y
  | PList xs, PList ys =>
      (fix go (xs ys : list pyval) {struct xs} : bool :=
         match xs, ys with
         | [], [] => true
         | x :: xs', y :: ys' => py_eq x y && go xs' ys'
         | _, _ => false
         end) xs ys
  | PDict xs, PDict ys =>
      Nat.eqb (length xs) (length ys) &&
      (fix go (xs : list (string * pyval)) {struct xs} : bool :=
         match xs with
         | [] => true
         | (k, x) :: xs' =>
             match assoc k ys with
             | Some y => py_eq x y && go xs'
             | None => false
             end
         end) xs
  | _, _ => false
  end.

(** [v in codes] for a tuple of strings. *)
Definition py_in (v : pyval) (codes : list string) : bool :=
  existsb (fun c => py_eq v (PStr c)) codes.

(** ** Dictionaries keyed by entity id *)

(** What a hashable JSON value is as a dict key: [True] and [1] are the same
    key, lists and dicts are unhashable. *)
Inductive key : Type :=
| KNone
| KInt (z : Z)
| KStr (s : string).

#[global] Instance key_eq_dec : EqDecision key.
Proof. solve_decision. Defined.

Definition hash_key (v : pyval) : result key :=
  match v with
  | PNone => Ok KNone
  | PBool b => Ok (KInt (if b then 1 else 0))
  | PInt z => Ok (KInt z)
  | PStr s => Ok (KStr s)
  | PList _ | PDict _ => Raise TypeError
  end.

(** A Python dict keeps insertion order: an association list without
    repeated keys. *)
Definition dict (V : Type) : Type := list (key * V).

Fixpoint dict_get {V : Type} (d : dict V) (k : key) : option V :=
  match d with
  | [] => None
  | (k', v) :: rest => if decide (k = k') then Some v else dict_get rest k
  end.

(** [d[k] = v]: an existing key keeps its position, a new one goes last. *)
Fixpoint dict_set {V : Type} (k : key) (v : V) (d : dict V) : dict V :=
  match d with
  | [] => [(k, v)]
  | (k', v') :: rest =>
      if decide (k = k') then (k', v) :: rest else (k', v') :: dict_set k v rest
  end.

(** [d.update(other)] *)
Definition dict_update {V : Type} (d other : dict V) : dict V :=
  fold_left (fun acc p => dict_set (fst p) (snd p) acc) other d.

(** [d.values()] *)
Definition dict_values {V : Type} (d : dict V) : list V := map snd d.

Definition dict_keys {V : Type} (d : dict V) : list key := map fst d.

(** ** The gateway and its world *)

Definition addr : Type := nat.

(** Modelled from the spec: the classes [Area] and [Zone] live in [area.py]
    and [zone.py], which are not among the sources.  An entity has an
    identity [id], a mutable status snapshot, and an Area owns the list of
    its zones while a Zone refers back to its area. *)
Record Area : Type := mkArea {
  area_id : pyval;
  area_state : pyval;
  area_zones : list addr }.

Record Zone : Type := mkZone {
  zone_id : pyval;
  zone_state : pyval;
  zone_area : addr }.

Inductive obj : Type :=
| OArea (a : Area)
| OZone (z : Zone).

Inductive http_method : Type := GET | PUT.

(** A request: [urljoin(api_url, template.format( *args))] is kept as its
    three parts, the method beside it. *)
Record request : Type := mkRequest {
  req_method : http_method;
  req_base : string;
  req_template : string;
  req_args : list pyval }.

Inductive log_entry : Type :=
| DebugSiaCode (sia_code spc_id : pyval)
| DebugNotInterested (sia_code : pyval)
| ErrorUnregistered (spc_id : pyval).

Definition is_error (e : log_entry) : bool :=
  match e with ErrorUnregistered _ => true | _ => false end.

(** A task made by [asyncio.create_task(self._async_callback(entity))]. *)
Record task : Type := mkTask {
  task_callback : string;
  task_entity : addr }.

(** The attributes [__init__] sets (the loop and the session are opaque
    handles and are left out). *)
Record SpcWebGateway : Type := mkGateway {
  _api_url : string;
  _ws_url : string;
  _info : pyval;
  _areas : dict addr;
  _zones : dict addr;
  _websocket : bool;
  _async_callback : option string }.

Definition __init__ (api_url ws_url : string) (async_callback : option string)
  : SpcWebGateway :=
  {| _api_url := api_url; _ws_url := ws_url; _info := PNone;
     _areas := []; _zones := []; _websocket := false;
     _async_callback := async_callback |}.

(** The world a coroutine runs in.  [net n r] is the body the gateway
    answers to request [r] when [n] requests were sent before it. *)
Record world : Type := mkWorld {
  gw : SpcWebGateway;
  heap : list obj;
  net : nat -> request -> pyval;
  sent : list request;
  logged : list log_entry;
  scheduled : list task }.

Definition set_gw (g : SpcWebGateway) (w : world) : world :=
  {| gw := g; heap := heap w; net := net w; sent := sent w;
     logged := logged w; scheduled := scheduled w |}.

Definition set_heap (h : list obj) (w : world) : world :=
  {| gw := gw w; heap := h; net := net w; sent := sent w;
     logged := logged w; scheduled := scheduled w |}.

(** The world after one request, one log entry, one task scheduled. *)
Definition sent_one (r : request) (w : world) : world :=
  {| gw := gw w; heap := heap w; net := net w; sent := sent w ++ [r];
     logged := logged w; scheduled := scheduled w |}.

Definition logged_one (e : log_entry) (w : world) : world :=
  {| gw := gw w; heap := heap w; net := net w; sent := sent w;
     logged := logged w ++ [e]; scheduled := scheduled w |}.

Definition scheduled_one (t : task) (w : world) : world :=
  {| gw := gw w; heap := heap w; net := net w; sent := sent w;
     logged := logged w; scheduled := scheduled w ++ [t] |}.

(** ** The monad: state with exceptions *)

Definition M (A : Type) : Type := world -> result A * world.

Definition ret {A} (a : A) : M A := fun w => (Ok a, w).

Definition raise {A} (e : exc) : M A := fun w => (Raise e, w).

Definition bind {A B} (m : M A) (f : A -> M B) : M B :=
  fun w => match m w with
           | (Ok a, w') => f a w'
           | (Raise e, w') => (Raise e, w')
           end.

Definition lift {A} (r : result A) : M A := fun w => (r, w).

Definition get_gw : M SpcWebGateway := fun w => (Ok (gw w), w).

Definition put_gw (g : SpcWebGateway) : M unit := fun w => (Ok tt, set_gw g w).

Definition get_heap : M (list obj) := fun w => (Ok (heap w), w).

Definition put_heap (h : list obj) : M unit := fun w => (Ok tt, set_heap h w).

Notation "x <- m ;; k" := (bind m (fun x => k))
  (at level 100, m at next level, right associativity) : py_scope.
Notation "m ;;; k" := (bind m (fun _ => k))
  (at level 100, right associativity) : py_scope.
Open Scope py_scope.

(** [_LOGGER.debug(...)] and [_LOGGER.error(...)] *)
Definition log (e : log_entry) : M unit :=
  fun w => (Ok tt, logged_one e w).

(** Modelled from the spec: [utils.async_request] is not among the sources.
    It sends the request and returns the decoded body, or a falsy value when
    the transport fails (it does not raise). *)
Definition async_request (r : request) : M pyval :=
  fun w => (Ok (net w (length (sent w)) r), sent_one r w).

(** ** The resource fetcher *)

(** The url [_async_get_data] builds: the test on [id] is its truth value. *)
Definition data_url (api_url resource : string) (id : pyval) : request :=
  if truthy id
  then mkRequest GET api_url "spc/{}/{}" [PStr resource; id]
  else mkRequest GET api_url "spc/{}" [PStr resource].

(** [data['data'][resource]] *)
Definition payload (resource : string) (data : pyval) : result pyval :=
  envelope <-? getitem data "data" ;;
  getitem envelope resource.

(** What [_async_get_data] does with the body [data] it received, test by
    test as the source has them. *)
Definition normalize (resource : string) (id data : pyval) : result pyval :=
  if negb (truthy data) then Ok (PBool false)
  else
    single_list <-? (if truthy id
                     then p <-? payload resource data ;; Ok (is_list p)
                     else Ok false) ;;
    if single_list then
      p <-? payload resource data ;; first_item p
    else if truthy id then
      payload resource data
    else
      p <-? payload resource data ;;
      if is_list p then
        p' <-? payload resource data ;;
        items <-? py_iter p' ;;
        Ok (PList items)
      else payload resource data.

Definition _async_get_data (resource : string) (id : pyval) : M pyval :=
  g <- get_gw ;;
  data <- async_request (data_url (_api_url g) resource id) ;;
  lift (normalize resource id data).

(** ** The entity classes *)

(** The parts of [area.py] and [zone.py] the sources do not hold, taken as
    parameters: the two tuples of supported SIA codes, what a constructor
    makes of a record as the entity's first status snapshot, what
    [update(data, sia_code)] makes of a snapshot (either may raise), and
    the text [str()] gives for the [Zone] object behind a reference, which
    is what [format] puts in a url for it. *)
Class Entities : Type := {
  Area_SUPPORTED_SIA_CODES : list string;
  Zone_SUPPORTED_SIA_CODES : list string;
  area_init : pyval -> result pyval;
  zone_init : pyval -> result pyval;
  area_update : pyval -> pyval -> pyval -> result pyval;
  zone_update : pyval -> pyval -> pyval -> result pyval;
  zone_str : addr -> Zone -> string }.

(** Modelled from the spec: [const.AreaMode] is not among the sources; its
    members are the four modes the spec names and [change_mode] maps. *)
Inductive AreaMode : Type := UNSET | PART_SET_A | PART_SET_B | FULL_SET.

Definition AREA_MODE_COMMAND_MAP (m : AreaMode) : string :=
  match m with
  | UNSET => "unset"
  | PART_SET_A => "set_a"
  | PART_SET_B => "set_b"
  | FULL_SET => "set"
  end.

(** The [new_mode] argument: an [AreaMode] member or any other value. *)
Inductive mode_arg : Type :=
| IsMode (m : AreaMode)
| NotMode (v : pyval).

(** The [area] argument: an object, given by reference, or a raw id. *)
Inductive area_arg : Type :=
| AreaObj (r : addr)
| AreaRaw (v : pyval).

Definition obj_id (o : obj) : pyval :=
  match o with
  | OArea a => area_id a
  | OZone z => zone_id z
  end.

Definition alloc (o : obj) : M addr :=
  fun w => (Ok (length (heap w)), set_heap (heap w ++ [o]) w).

Definition deref (r : addr) : M obj :=
  fun w => match heap w !! r with
           | Some o => (Ok o, w)
           | None => (Raise Stuck, w)
           end.

(** [entity.id] *)
Definition entity_id (r : addr) : M pyval :=
  o <- deref r ;; ret (obj_id o).

(** [asyncio.create_task(self._async_callback(entity))] *)
Definition create_task (t : task) : M task :=
  fun w => (Ok t, scheduled_one t w).

Definition set_info (info : pyval) (g : SpcWebGateway) : SpcWebGateway :=
  {| _api_url := _api_url g; _ws_url := _ws_url g; _info := info;
     _areas := _areas g; _zones := _zones g; _websocket := _websocket g;
     _async_callback := _async_callback g |}.

Definition set_areas (d : dict addr) (g : SpcWebGateway) : SpcWebGateway :=
  {| _api_url := _api_url g; _ws_url := _ws_url g; _info := _info g;
     _areas := d; _zones := _zones g; _websocket := _websocket g;
     _async_callback := _async_callback g |}.

Definition set_zones (d : dict addr) (g : SpcWebGateway) : SpcWebGateway :=
  {| _api_url := _api_url g; _ws_url := _ws_url g; _info := _info g;
     _areas := _areas g; _zones := d; _websocket := _websocket g;
     _async_callback := _async_callback g |}.

Section Gateway.
Context {E : Entities}.

(** Modelled from the spec: the constructors are not among the sources.
    [Area(self, spc_area)] takes the entity's identity from the record's
    [id] and its first snapshot from [area_init]; the new area owns no zone
    yet. *)
Definition new_Area (spc_area : pyval) : M addr :=
  id <- lift (getitem spc_area "id") ;;
  st <- lift (area_init spc_area) ;;
  alloc (OArea (mkArea id st [])).

(** Modelled from the spec: [Zone(area, spc_zone)], likewise, with the
    reference back to [area]. *)
Definition new_Zone (area : addr) (spc_zone : pyval) : M addr :=
  id <- lift (getitem spc_zone "id") ;;
  st <- lift (zone_init spc_zone) ;;
  alloc (OZone (mkZone id st area)).

(** [area.zones = area_zones] *)
Definition set_area_zones (area : addr) (area_zones : list addr) : M unit :=
  o <- deref area ;;
  match o with
  | OArea a =>
      h <- get_heap ;;
      put_heap (<[area := OArea (mkArea (area_id a) (area_state a) area_zones)]> h)
  | OZone _ => raise Stuck
  end.

(** [entity.update(data, sia_code)] *)
Definition entity_update (r : addr) (data sia_code : pyval) : M unit :=
  o <- deref r ;;
  match o with
  | OArea a =>
      st <- lift (area_update (area_state a) data sia_code) ;;
      h <- get_heap ;;
      put_heap (<[r := OArea (mkArea (area_id a) st (area_zones a))]> h)
  | OZone z =>
      st <- lift (zone_update (zone_state z) data sia_code) ;;
      h <- get_heap ;;
      put_heap (<[r := OZone (mkZone (zone_id z) st (zone_area z))]> h)
  end.

(** ** The initial load *)

(** [[Zone(area, z) for z in zones if z['area'] == spc_area['id']]] *)
Fixpoint zones_of_area (area : addr) (spc_area : pyval) (zones : list pyval)
  : M (list addr) :=
  match zones with
  | [] => ret []
  | z :: rest =>
      za <- lift (getitem z "area") ;;
      ai <- lift (getitem spc_area "id") ;;
      if py_eq za ai then
        zr <- new_Zone area z ;;
        rs <- zones_of_area area spc_area rest ;;
        ret (zr :: rs)
      else zones_of_area area spc_area rest
  end.

(** [{z.id: z for z in area_zones}] *)
Fixpoint zone_dict (area_zones : list addr) (acc : dict addr) : M (dict addr) :=
  match area_zones with
  | [] => ret acc
  | z :: rest =>
      zid <- entity_id z ;;
      k <- lift (hash_key zid) ;;
      zone_dict rest (dict_set k z acc)
  end.

(** The body of [for spc_area in areas]. *)
Definition load_area (zones spc_area : pyval) : M unit :=
  area <- new_Area spc_area ;;
  zs <- lift (py_iter zones) ;;
  area_zones <- zones_of_area area spc_area zs ;;
  set_area_zones area area_zones ;;;
  aid <- entity_id area ;;
  k <- lift (hash_key aid) ;;
  g <- get_gw ;;
  put_gw (set_areas (dict_set k area (_areas g)) g) ;;;
  d <- zone_dict area_zones [] ;;
  g' <- get_gw ;;
  put_gw (set_zones (dict_update (_zones g') d) g').

Fixpoint load_areas (zones : pyval) (areas : list pyval) : M unit :=
  match areas with
  | [] => ret tt
  | spc_area :: rest => load_area zones spc_area ;;; load_areas zones rest
  end.

Definition async_load_parameters : M bool :=
  info <- _async_get_data "panel" PNone ;;
  g <- get_gw ;;
  put_gw (set_info info g) ;;;
  zones <- _async_get_data "zone" PNone ;;
  areas <- _async_get_data "area" PNone ;;
  if negb (truthy zones) || negb (truthy areas) then ret false
  else
    l <- lift (py_iter areas) ;;
    load_areas zones l ;;;
    ret true.

(** ** The command dispatcher *)

Definition change_mode (area : area_arg) (new_mode : mode_arg) : M pyval :=
  match new_mode with
  | NotMode _ => raise TypeError
  | IsMode m =>
      area_id <- match area with
                 | AreaObj r =>
                     o <- deref r ;;
                     match o with
                     | OArea a => ret (area_id a)
                     | OZone z =>
                         (* no [Area]: the object itself goes into the url *)
                         ret (PStr (zone_str r z))
                     end
                 | AreaRaw v => ret v
                 end ;;
      g <- get_gw ;;
      async_request (mkRequest PUT (_api_url g) "spc/area/{area_id}/{command}"
                       [area_id; PStr (AREA_MODE_COMMAND_MAP m)])
  end.

(** ** The event router *)

(** The body of [for entity in entities], with [tasks] as it stands. *)
Fixpoint refresh (resource : string) (sia_code : pyval)
    (entities : list (option addr)) (tasks : list task) : M (list task) :=
  match entities with
  | [] => ret tasks
  | entity :: rest =>
      match entity with
      | None => raise AttributeError
      | Some r =>
          id <- entity_id r ;;
          data <- _async_get_data resource id ;;
          entity_update r data sia_code ;;;
          g <- get_gw ;;
          tasks' <- match _async_callback g with
                    | Some cb => t <- create_task (mkTask cb r) ;; ret (tasks ++ [t])
                    | None => ret tasks
                    end ;;
          refresh resource sia_code rest tasks'
      end
  end.

(** [self._areas.get(spc_id, None)]: the key is hashed first. *)
Definition registry_get (d : dict addr) (spc_id : pyval) : M (option addr) :=
  k <- lift (hash_key spc_id) ;; ret (dict_get d k).

(** Lines 106 to 120: the entities a code and an address name, with their
    resource kind; [None] when the code is of no interest. *)
Definition classify (spc_id sia_code : pyval)
  : M (option (list (option addr) * string)) :=
  g <- get_gw ;;
  if py_in sia_code Area_SUPPORTED_SIA_CODES then
    e <- registry_get (_areas g) spc_id ;; ret (Some ([e], "area"))
  else if py_in sia_code Zone_SUPPORTED_SIA_CODES then
    e <- registry_get (_zones g) spc_id ;; ret (Some ([e], "zone"))
  else if py_in sia_code ["CL"; "OP"] then
    (* workaround: refresh all areas *)
    ret (Some (map Some (dict_values (_areas g)), "area"))
  else
    log (DebugNotInterested sia_code) ;;; ret None.

(** Lines 106 to 135. *)
Definition dispatch (spc_id sia_code : pyval) : M (option (list task)) :=
  target <- classify spc_id sia_code ;;
  match target with
  | None => ret None
  | Some (entities, resource) =>
      match entities with
      | [] => log (ErrorUnregistered spc_id) ;;; ret None
      | _ => tasks <- refresh resource sia_code entities [] ;; ret (Some tasks)
      end
  end.

Definition _async_ws_handler (data : pyval) : M (option (list task)) :=
  d <- lift (getitem data "data") ;;
  sia_message <- lift (getitem d "sia") ;;
  spc_id <- lift (getitem sia_message "sia_address") ;;
  sia_code <- lift (getitem sia_message "sia_code") ;;
  log (DebugSiaCode sia_code spc_id) ;;;
  dispatch spc_id sia_code.

End Gateway.

(** ** The load as a plan

    What [load_area] does when nothing raises, in two steps: what the
    records say (which addresses play no part in), and the objects and
    registry entries that installs. *)

Record area_plan : Type := mkAreaPlan {
  ap_id : pyval;
  ap_state : pyval;
  ap_zones : list (pyval * pyval);
  ap_key : key;
  ap_zone_keys : list key }.

(** [hash] of each id, in order. *)
Fixpoint hash_keys (ids : list pyval) : result (list key) :=
  match ids with
  | [] => Ok []
  | id :: rest =>
      k <-? hash_key id ;;
      ks <-? hash_keys rest ;;
      Ok (k :: ks)
  end.

Section Plan.
Context {E : Entities}.

(** The id and first snapshot of each zone the comprehension keeps. *)
Fixpoint plan_zones (spc_area : pyval) (zones : list pyval)
  : result (list (pyval * pyval)) :=
  match zones with
  | [] => Ok []
  | z :: rest =>
      za <-? getitem z "area" ;;
      ai <-? getitem spc_area "id" ;;
      if py_eq za ai then
        id <-? getitem z "id" ;;
        st <-? zone_init z ;;
        rs <-? plan_zones spc_area rest ;;
        Ok ((id, st) :: rs)
      else plan_zones spc_area rest
  end.

Definition plan_area (zones spc_area : pyval) : result area_plan :=
  id <-? getitem spc_area "id" ;;
  st <-? area_init spc_area ;;
  zs <-? py_iter zones ;;
  zl <-? plan_zones spc_area zs ;;
  k <-? hash_key id ;;
  ks <-? hash_keys (map fst zl) ;;
  Ok (mkAreaPlan id st zl k ks).

Fixpoint plan_areas (zones : pyval) (areas : list pyval)
  : result (list area_plan) :=
  match areas with
  | [] => Ok []
  | spc_area :: rest =>
      p <-? plan_area zones spc_area ;;
      ps <-? plan_areas zones rest ;;
      Ok (p :: ps)
  end.

End Plan.

(** The objects of a plan installed at address [n]: the area at [n], its
    zones behind it. *)
Definition plan_objs (n : addr) (p : area_plan) : list obj :=
  OArea (mkArea (ap_id p) (ap_state p) (seq (S n) (length (ap_zones p)))) ::
  map (fun z => OZone (mkZone (fst z) (snd z) n)) (ap_zones p).

(** The dict [{z.id: z for z in area_zones}] of a plan installed at [n]. *)
Definition plan_zone_dict (n : addr) (p : area_plan) : dict addr :=
  dict_update [] (zip (ap_zone_keys p) (seq (S n) (length (ap_zone_keys p)))).

Definition install (p : area_plan) (w : world) : world :=
  let n := length (heap w) in
  {| gw := set_zones (dict_update (_zones (gw w)) (plan_zone_dict n p))
             (set_areas (dict_set (ap_key p) n (_areas (gw w))) (gw w));
     heap := heap w ++ plan_objs n p;
     net := net w; sent := sent w; logged := logged w;
     scheduled := scheduled w |}.

Fixpoint install_all (ps : list area_plan) (w : world) : world :=
  match ps with
  | [] => w
  | p :: rest => install_all rest (install p w)
  end.

(** ** Views of the registry

    What an entity holds, read through the store: a zone's id and snapshot
    with the id of the area it refers back to; an area's id and snapshot with
    the views of the zones it owns. *)

Definition zone_view (h : list obj) (r : addr) : option (pyval * pyval * pyval) :=
  match h !! r with
  | Some (OZone z) =>
      match h !! zone_area z with
      | Some (OArea a) => Some (zone_id z, zone_state z, area_id a)
      | _ => None
      end
  | _ => None
  end.

Fixpoint zone_views (h : list obj) (rs : list addr)
  : option (list (pyval * pyval * pyval)) :=
  match rs with
  | [] => Some []
  | r :: rest =>
      match zone_view h r, zone_views h rest with
      | Some v, Some vs => Some (v :: vs)
      | _, _ => None
      end
  end.

Definition area_view (h : list obj) (r : addr)
  : option (pyval * pyval * list (pyval * pyval * pyval)) :=
  match h !! r with
  | Some (OArea a) =>
      match zone_views h (area_zones a) with
      | Some vs => Some (area_id a, area_state a, vs)
      | None => None
      end
  | _ => None
  end.

(** The registries as a reader sees them: each key, in dict order, with the
    view of the entity it looks up. *)
Definition areas_view (w : world) :=
  map (fun k => (k, match dict_get (_areas (gw w)) k with
                    | Some r => area_view (heap w) r
                    | None => None
                    end))
      (dict_keys (_areas (gw w))).

Definition zones_view (w : world) :=
  map (fun k => (k, match dict_get (_zones (gw w)) k with
                    | Some r => zone_view (heap w) r
                    | None => None
                    end))
      (dict_keys (_zones (gw w))).

(** The same views read off a plan. *)
Definition plan_zone_views (p : area_plan) : list (pyval * pyval * pyval) :=
  map (fun z => (fst z, snd z, ap_id p)) (ap_zones p).

Definition plan_area_view (p : area_plan)
  : pyval * pyval * list (pyval * pyval * pyval) :=
  (ap_id p, ap_state p, plan_zone_views p).

(** The value the last write to [k] in a list of writes leaves. *)
Fixpoint last_write {V : Type} (o : list (key * V)) (k : key) : option V :=
  match o with
  | [] => None
  | (k', v) :: rest =>
      match last_write rest k with
      | Some v' => Some v'
      | None => if decide (k = k') then Some v else None
      end
  end.

(** The last plan registered under the area key [k], and the view of the
    last zone registered under the zone key [k]. *)
Definition last_plan (ps : list area_plan) (k : key) : option area_plan :=
  last_write (map (fun p => (ap_key p, p)) ps) k.

Definition last_zone (ps : list area_plan) (k : key)
  : option (pyval * pyval * pyval) :=
  last_write (concat (map (fun p => zip (ap_zone_keys p) (plan_zone_views p)) ps)) k.

(** The body the gateway answers to the [i]-th fetch of a load from [w]. *)
Definition load_body (i : nat) (resource : string) (w : world) : pyval :=
  net w (length (sent w) + i) (data_url (_api_url (gw w)) resource PNone).

(** What the three fetches of a load from [w] return: the panel info, the
    zones and the areas. *)
Definition fetch_all (w : world) : result (pyval * pyval * pyval) :=
  info <-? normalize "panel" PNone (load_body 0 "panel" w) ;;
  zones <-? normalize "zone" PNone (load_body 1 "zone" w) ;;
  areas <-? normalize "area" PNone (load_body 2 "area" w) ;;
  Ok (info, zones, areas).

(** The world after the three fetches. *)
Definition fetched (info : pyval) (w : world) : world :=
  {| gw := set_info info (gw w);
     heap := heap w;
     net := net w;
     sent := sent w ++ [data_url (_api_url (gw w)) "panel" PNone;
                        data_url (_api_url (gw w)) "zone" PNone;
                        data_url (_api_url (gw w)) "area" PNone];
     logged := logged w;
     scheduled := scheduled w |}.

(** What a load from [w] comes to: the panel info, and the plans to install
    unless the load fails. *)
Definition load_outcome {E : Entities} (w : world)
  : result (pyval * option (list area_plan)) :=
  f <-? fetch_all w ;;
  if negb (truthy (snd (fst f))) || negb (truthy (snd f)) then Ok (fst (fst f), None)
  else
    l <-? py_iter (snd f) ;;
    ps <-? plan_areas (snd (fst f)) l ;;
    Ok (fst (fst f), Some ps).

(** Records a load goes through: a zone has an [area] and a hashable [id],
    an area has a hashable [id], and the constructors take them. *)
Definition wf_zone {E : Entities} (z : pyval) : bool :=
  is_ok (getitem z "area") &&
  is_ok (id <-? getitem z "id" ;; hash_key id) &&
  is_ok (zone_init z).

Definition wf_area {E : Entities} (a : pyval) : bool :=
  is_ok (id <-? getitem a "id" ;; hash_key id) &&
  is_ok (area_init a).

(** ** A sample instance of the entity classes

    The witnesses and counterexamples below run the model with these: the
    constructors keep the record as the snapshot, and [update] keeps the
    fetched data beside the code that triggered the refresh. *)
Definition sample_entities : Entities :=
  {| Area_SUPPORTED_SIA_CODES := ["CG"; "NL"; "OG"; "BV"];
     Zone_SUPPORTED_SIA_CODES := ["ZO"; "ZC"; "BA"; "BR"];
     area_init := fun spc_area => Ok spc_area;
     zone_init := fun spc_zone => Ok spc_zone;
     area_update := fun _ data sia_code => Ok (PList [data; sia_code]);
     zone_update := fun _ data sia_code => Ok (PList [data; sia_code]);
     zone_str := fun _ _ => "<pyspcwebgw.zone.Zone object>" |}.

(** A response body with [payload] under [data[resource]]. *)
Definition body_of (resource : string) (payload : pyval) : pyval :=
  PDict [("status", PStr "success"); ("data", PDict [(resource, payload)])].

(** A push message. *)
Definition sia (spc_id sia_code : pyval) : pyval :=
  PDict [("data", PDict [("sia", PDict [("sia_address", spc_id);
                                        ("sia_code", sia_code)])])].

(** [data] carries [data.sia] with the address [spc_id] and the code
    [sia_code]. *)
Definition push_message (data spc_id sia_code : pyval) : Prop :=
  exists d m,
    getitem data "data" = Ok d /\ getitem d "sia" = Ok m /\
    getitem m "sia_address" = Ok spc_id /\ getitem m "sia_code" = Ok sia_code.

(** The body the gateway answers to the next fetch of [resource], [id]. *)
Definition next_body (resource : string) (id : pyval) (w : world) : pyval :=
  net w (length (sent w)) (data_url (_api_url (gw w)) resource id).

(** A gateway as [__init__] leaves it, with callback [cb], in a world whose
    gateway answers every request with [body]. *)
Definition fresh_world (cb : option string) (body : pyval) : world :=
  mkWorld (__init__ "http://gw/" "ws://gw/" cb) [] (fun _ _ => body) [] [] [].

(** One task per entity when a callback is configured, none otherwise. *)
Definition callback_tasks (g : SpcWebGateway) (refs : list addr) : list task :=
  match _async_callback g with
  | Some cb => map (mkTask cb) refs
  | None => []
  end.

(** The area [a] as the [i]-th refresh of a run of the router from [w]
    leaves it: its record fetched by the [i]-th request from [w] on, applied
    by [update] with the code [sia_code]. *)
Definition refreshed_area {E : Entities} (w : world) (sia_code : pyval)
    (i : nat) (a : Area) : result Area :=
  data <-? normalize "area" (area_id a)
             (net w (length (sent w) + i)
                (data_url (_api_url (gw w)) "area" (area_id a))) ;;
  st <-? area_update (area_state a) data sia_code ;;
  Ok (mkArea (area_id a) st (area_zones a)).

(** The world after one turn of the router's loop on the area at [r]: one
    request sent, the object at [r] replaced by [a'], the callback scheduled
    when there is one. *)
Definition area_refreshed (r : addr) (a a' : Area) (w : world) : world :=
  {| gw := gw w;
     heap := <[r := OArea a']> (heap w);
     net := net w;
     sent := sent w ++ [data_url (_api_url (gw w)) "area" (area_id a)];
     logged := logged w;
     scheduled := scheduled w ++ callback_tasks (gw w) [r] |}.

(** What a run of the router's loop over the areas [refs] from [w] to [w']
    has done: every area of [refs] stands refreshed in the store, nothing
    else in the store has changed, one request per area was sent, in the
    order of [refs], and the callbacks of [callback_tasks] were scheduled. *)
Definition areas_refreshed {E : Entities} (sia_code : pyval)
    (refs : list addr) (w w' : world) : Prop :=
  gw w' = gw w /\ net w' = net w /\
  scheduled w' = scheduled w ++ callback_tasks (gw w) refs /\
  (exists reqs,
     sent w' = sent w ++ reqs /\ length reqs = length refs /\
     forall i r a,
       refs !! i = Some r -> heap w !! r = Some (OArea a) ->
       reqs !! i = Some (data_url (_api_url (gw w)) "area" (area_id a))) /\
  (forall i r a a',
     refs !! i = Some r -> heap w !! r = Some (OArea a) ->
     refreshed_area w sia_code i a = Ok a' ->
     heap w' !! r = Some (OArea a')) /\
  (forall r, r ∉ refs -> heap w' !! r = heap w !! r).

(** Every area of [refs] is in the store and its fetch and update come
    through. *)
Definition areas_refreshable {E : Entities} (sia_code : pyval)
    (refs : list addr) (w : world) : Prop :=
  forall i r, refs !! i = Some r ->
    exists a a', heap w !! r = Some (OArea a) /\
                 refreshed_area w sia_code i a = Ok a'.

(** A world as a load leaves it: areas 10 and 20 at references 0 and 1,
    zone 1 of area 10 at reference 2; a request for a zone is answered with
    a zone record, any other with a one-record area list. *)
Definition loaded_world (cb : option string) : world :=
  {| gw := {| _api_url := "http://gw/"; _ws_url := "ws://gw/";
              _info := PDict [("type", PStr "SPC")];
              _areas := [(KInt 10, 0); (KInt 20, 1)];
              _zones := [(KInt 1, 2)];
              _websocket := true;
              _async_callback := cb |};
     heap := [OArea (mkArea (PInt 10) (PDict [("mode", PInt 0)]) [2]);
              OArea (mkArea (PInt 20) (PDict [("mode", PInt 0)]) []);
              OZone (mkZone (PInt 1) (PDict [("input", PInt 0)]) 0)];
     net := fun _ r =>
              match req_args r with
              | PStr "zone" :: _ => body_of "zone" (PDict [("input", PInt 1)])
              | _ => body_of "area" (PList [PDict [("mode", PInt 3)]])
              end;
     sent := []; logged := []; scheduled := [] |}.

(** The records of the round trip: zones 1 and 2 of area 10, and area 10. *)
Definition zone_1 : pyval := PDict [("id", PInt 1); ("area", PInt 10)].
Definition zone_2 : pyval := PDict [("id", PInt 2); ("area", PInt 10)].
Definition area_10 : pyval := PDict [("id", PInt 10); ("name", PStr "Home")].

(** A body that answers the three fetches of a load. *)
Definition load_answer (zones areas : pyval) : pyval :=
  PDict [("status", PStr "success");
         ("data", PDict [("panel", PDict [("type", PStr "SPC")]);
                         ("zone", zones); ("area", areas)])].

(** A gateway before its first load, answered with the records of the
    round trip. *)
Definition unloaded_world : world :=
  fresh_world (Some "cb") (load_answer (PList [zone_1; zone_2]) (PList [area_10])).

(** The world after one load of [unloaded_world], and after a second. *)
Definition loaded_once : world :=
  Eval vm_compute in
    snd (@async_load_parameters sample_entities unloaded_world).

Definition loaded_twice : world :=
  Eval vm_compute in
    snd (@async_load_parameters sample_entities loaded_once).

(** A plan made from a record holds the record's id under its hash, and its
    zone keys are the hashes of its zones' ids. *)
Definition plan_of {E : Entities} (zones spc_area : pyval) (p : area_plan) : Prop :=
  getitem spc_area "id" = Ok (ap_id p) /\
  area_init spc_area = Ok (ap_state p) /\
  hash_key (ap_id p) = Ok (ap_key p) /\
  hash_keys (map fst (ap_zones p)) = Ok (ap_zone_keys p) /\
  exists zs, py_iter zones = Ok zs /\ plan_zones spc_area zs = Ok (ap_zones p).

(** The zone [z] as a refresh by the next request from [w] leaves it. *)
Definition refreshed_zone {E : Entities} (w : world) (sia_code : pyval)
    (z : Zone) : result Zone :=
  data <-? normalize "zone" (zone_id z)
             (net w (length (sent w))
                (data_url (_api_url (gw w)) "zone" (zone_id z))) ;;
  st <-? zone_update (zone_state z) data sia_code ;;
  Ok (mkZone (zone_id z) st (zone_area z)).

(** Every registered reference leads to an entity the store can show in
    full: an area with its zones, a zone with its area. *)
Definition registry_resolves (w : world) : Prop :=
  (forall k r, dict_get (_areas (gw w)) k = Some r ->
     is_Some (area_view (heap w) r)) /\
  (forall k r, dict_get (_zones (gw w)) k = Some r ->
     is_Some (zone_view (heap w) r)).

(** ** The public properties and the stream *)

(** The properties [info], [areas] and [zones]: each returns the attribute
    itself. *)
Definition info : M pyval := g <- get_gw ;; ret (_info g).

Definition areas : M (dict addr) := g <- get_gw ;; ret (_areas g).

Definition zones : M (dict addr) := g <- get_gw ;; ret (_zones g).

Definition set_websocket (ws : bool) (g : SpcWebGateway) : SpcWebGateway :=
  {| _api_url := _api_url g; _ws_url := _ws_url g; _info := _info g;
     _areas := _areas g; _zones := _zones g; _websocket := ws;
     _async_callback := _async_callback g |}.

(** Modelled from the spec: [websocket.AIOWSClient] is not among the
    sources.  What the gateway does with its clients is kept as a list of
    calls: client [c] made for a url (with the router as its callback),
    started, stopped.  Clients are numbered as they are made. *)
Inductive ws_call : Type :=
| WsNew (c : nat) (url : string)
| WsStart (c : nat)
| WsStop (c : nat).

Definition is_new (e : ws_call) : bool :=
  match e with WsNew _ _ => true | _ => false end.

(** The number of clients made so far. *)
Definition ws_clients (calls : list ws_call) : nat :=
  length (List.filter is_new calls).

(** The gateway with the calls made on its clients.  [_websocket] is the
    client made last when it is set: [start] is the one place that makes a
    client, and it stores it there. *)
Definition stream : Type := SpcWebGateway * list ws_call.

(** [start]: a new client replaces whatever [_websocket] held, and is
    started. *)
Definition start (s : stream) : stream :=
  let c := ws_clients (snd s) in
  (set_websocket true (fst s),
   snd s ++ [WsNew c (_ws_url (fst s)); WsStart c]).

(** [stop]: [self._websocket.stop()] raises [AttributeError] on [None];
    otherwise the client is stopped and the attribute reset. *)
Definition stop (s : stream) : result stream :=
  if _websocket (fst s)
  then Ok (set_websocket false (fst s),
           snd s ++ [WsStop (ws_clients (snd s) - 1)])
  else Raise AttributeError.

(** ** What runs keep *)

(** The zone at [r] is among the zones of the area it refers back to. *)
Definition zone_owned (h : list obj) (r : addr) : Prop :=
  exists z a,
    h !! r = Some (OZone z) /\ h !! zone_area z = Some (OArea a) /\
    r ∈ area_zones a.

(** The ids of the zone records whose [area] equals [ai], in list order:
    what the comprehension of the load keeps for an area of id [ai]. *)
Fixpoint zone_ids_of (ai : pyval) (zl : list pyval) : list pyval :=
  match zl with
  | [] => []
  | z :: rest =>
      match getitem z "area", getitem z "id" with
      | Ok za, Ok zid =>
          if py_eq za ai then zid :: zone_ids_of ai rest else zone_ids_of ai rest
      | _, _ => zone_ids_of ai rest
      end
  end.

(** Every key of a registry leads to an entity of the registry's class
    whose id is that key. *)
Definition registry_consistent (w : world) : Prop :=
  (forall k r, dict_get (_areas (gw w)) k = Some r ->
     exists a, heap w !! r = Some (OArea a) /\ hash_key (area_id a) = Ok k) /\
  (forall k r, dict_get (_zones (gw w)) k = Some r ->
     exists z, heap w !! r = Some (OZone z) /\ hash_key (zone_id z) = Ok k).

(** An entity without its snapshot: its class, its id and its links. *)
Definition obj_frame (o : obj) : obj :=
  match o with
  | OArea a => OArea (mkArea (area_id a) PNone (area_zones a))
  | OZone z => OZone (mkZone (zone_id z) PNone (zone_area z))
  end.

(** [m] takes every world to one that [R] relates to it, whether it returns
    or raises. *)
Definition preserves {A} (R : world -> world -> Prop) (m : M A) : Prop :=
  forall w, R w (snd (m w)).

(** The gateway object, the network and the entities, snapshots apart, are
    the same. *)
Definition same_registry (w w' : world) : Prop :=
  gw w' = gw w /\ net w' = net w /\
  map obj_frame (heap w') = map obj_frame (heap w).

Definition same_log (w w' : world) : Prop := logged w' = logged w.

(** What the router logs after the debug line of a message, by the class of
    its code. *)
Definition router_log {E : Entities} (g : SpcWebGateway)
    (spc_id sia_code : pyval) : list log_entry :=
  if py_in sia_code Area_SUPPORTED_SIA_CODES then []
  else if py_in sia_code Zone_SUPPORTED_SIA_CODES then []
  else if py_in sia_code ["CL"; "OP"] then
    match _areas g with
    | [] => [ErrorUnregistered spc_id]
    | _ => []
    end
  else [DebugNotInterested sia_code].

(** ** More sample worlds *)

(** A gateway before its first load whose panel request fails while the
    zones and the areas are answered. *)
Definition panel_down_world : world :=
  mkWorld (__init__ "http://gw/" "ws://gw/" None) []
    (fun _ r => match req_args r with
                | PStr "panel" :: _ => PBool false
                | _ => load_answer (PList [zone_1; zone_2]) (PList [area_10])
                end) [] [] [].

Definition panel_down_loaded : world :=
  Eval vm_compute in
    snd (@async_load_parameters sample_entities panel_down_world).

(** The registry of [loaded_world] (areas 10 and 20, zone 1), about to be
    loaded again from a panel that lists area 10 only. *)
Definition stale_world : world :=
  mkWorld (gw (loaded_world None)) (heap (loaded_world None))
    (fun _ _ => load_answer (PList [zone_1; zone_2]) (PList [area_10])) [] [] [].

Definition stale_loaded : world :=
  Eval vm_compute in snd (@async_load_parameters sample_entities stale_world).

(** Two area records with the same id. *)
Definition area_10b : pyval := PDict [("id", PInt 10); ("name", PStr "Office")].

Definition twin_world : world :=
  fresh_world None
    (load_answer (PList [zone_1; zone_2]) (PList [area_10; area_10b])).

Definition twin_loaded : world :=
  Eval vm_compute in snd (@async_load_parameters sample_entities twin_world).

(** An area list whose second record has no [id]. *)
Definition bad_record_world : world :=
  fresh_world None
    (load_answer (PList [zone_1]) (PList [area_10; PDict [("name", PStr "Shed")]])).

(** The registry of [loaded_world] with a gateway that answers nothing. *)
Definition offline_world : world :=
  mkWorld (gw (loaded_world (Some "cb"))) (heap (loaded_world (Some "cb")))
    (fun _ _ => PBool false) [] [] [].

(** The registry of [loaded_world] with a gateway whose bodies have no
    [data] envelope. *)
Definition no_envelope_world : world :=
  mkWorld (gw (loaded_world (Some "cb"))) (heap (loaded_world (Some "cb")))
    (fun _ _ => PDict [("status", PStr "success")]) [] [] [].

(** A gateway before its first load, answered with two areas. *)
Definition area_20 : pyval := PDict [("id", PInt 20); ("name", PStr "Garage")].

Definition two_area_world : world :=
  fresh_world None
    (load_answer (PList [zone_1; zone_2]) (PList [area_10; area_20])).

Definition two_area_loaded : world :=
  Eval vm_compute in
    snd (@async_load_parameters sample_entities two_area_world).

(** The registry of [loaded_world] with a gateway that answers the first
    request and then sends bodies without a [data] envelope. *)
Definition flaky_world : world :=
  mkWorld (gw (loaded_world (Some "cb"))) (heap (loaded_world (Some "cb")))
    (fun n _ => match n with
                | 0 => body_of "area" (PList [PDict [("mode", PInt 3)]])
                | _ => PDict [("status", PStr "error")]
                end) [] [] [].

(** * Properties *)

(** ** Running the monad *)

Lemma bind_ok {A B} (m : M A) (f : A -> M B) w a w' :
  m w = (Ok a, w') -> bind m f w = f a w'.
Proof. intros H. unfold bind. now rewrite H. Qed.

Lemma bind_lift_ok {A B} (r : result A) (f : A -> M B) w a :
  r = Ok a -> bind (lift r) f w = f a w.
Proof. intros ->. reflexivity. Qed.

Lemma bind_lift_Ok {A B} (a : A) (f : A -> M B) w :
  bind (lift (Ok a)) f w = f a w.
Proof. reflexivity. Qed.

Lemma sia_push_message spc_id sia_code :
  push_message (sia spc_id sia_code) spc_id sia_code.
Proof. unfold push_message, sia. eexists _, _. repeat split; reflexivity. Qed.

Lemma get_data_run resource id w :
  _async_get_data resource id w =
  (normalize resource id (next_body resource id w),
   sent_one (data_url (_api_url (gw w)) resource id) w).
Proof. reflexivity. Qed.

(** ** The resource fetcher *)

Lemma normalize_falsy resource id data :
  truthy data = false -> normalize resource id data = Ok (PBool false).
Proof. intros H. unfold normalize. now rewrite H. Qed.

Lemma normalize_payload resource id data p :
  truthy data = true -> payload resource data = Ok p ->
  normalize resource id data =
  if truthy id then (if is_list p then first_item p else Ok p) else Ok p.
Proof.
  intros Ht Hp. unfold normalize. rewrite Ht, Hp. cbn.
  destruct (truthy id); cbn.
  - destruct (is_list p); reflexivity.
  - destruct p; reflexivity.
Qed.

Lemma getitem_raises v k e : getitem v k = Raise e -> e = KeyError \/ e = TypeError.
Proof.
  destruct v; cbn; try (intros [= <-]; now right).
  destruct (assoc k kv); [discriminate|]. intros [= <-]. now left.
Qed.

Lemma payload_raises resource data e :
  payload resource data = Raise e -> e = KeyError \/ e = TypeError.
Proof.
  unfold payload. destruct (getitem data "data") as [env|e'] eqn:H; cbn [rbind].
  - apply getitem_raises.
  - intros [= <-]. eapply getitem_raises, H.
Qed.

Lemma normalize_raises resource id data e :
  truthy data = true -> payload resource data = Raise e ->
  normalize resource id data = Raise e.
Proof.
  intros Ht Hp. unfold normalize. rewrite Ht, Hp. cbn. now destruct (truthy id).
Qed.

(** C2, as the code has it: a body that is truthy and has no [data] envelope,
    or an envelope without the resource key, makes the fetcher raise
    [KeyError]; a single-item fetch whose payload is an empty list raises
    [IndexError]. *)
Lemma get_data_malformed_envelope_raises :
  fst (_async_get_data "area" PNone
         (fresh_world None (PDict [("status", PStr "success")])))
    = Raise KeyError /\
  fst (_async_get_data "area" PNone
         (fresh_world None (PDict [("data", PDict [("zone", PList [])])])))
    = Raise KeyError /\
  fst (_async_get_data "area" (PInt 1)
         (fresh_world None (body_of "area" (PList []))))
    = Raise IndexError.
Proof. repeat split; reflexivity. Qed.

(** C2, amended: the fetcher returns [False] whenever [async_request] hands
    it a falsy body (a failed transport call), and returns a value without
    raising whenever the body carries [data[resource]] (for a fetch with a
    truthy id whose payload is a list, a non-empty list).  Every other body
    makes it raise: whatever [data['data'][resource]] raises on a truthy
    body, which is [KeyError] where a dict lacks the key ([data] in the
    body, the resource kind in the envelope) and [TypeError] where the body
    or the envelope is no dict; and [IndexError] for a fetch with a truthy id
    whose payload is the empty list. *)
Theorem get_data_absent_or_enveloped resource id w :
  (truthy (next_body resource id w) = false ->
   fst (_async_get_data resource id w) = Ok (PBool false)) /\
  (forall p,
     truthy (next_body resource id w) = true ->
     payload resource (next_body resource id w) = Ok p ->
     (truthy id = true -> p <> PList []) ->
     exists v, fst (_async_get_data resource id w) = Ok v) /\
  (forall e,
     truthy (next_body resource id w) = true ->
     payload resource (next_body resource id w) = Raise e ->
     fst (_async_get_data resource id w) = Raise e /\
     (e = KeyError \/ e = TypeError)) /\
  (forall kv,
     next_body resource id w = PDict kv -> kv <> [] ->
     assoc "data" kv = None ->
     fst (_async_get_data resource id w) = Raise KeyError) /\
  (forall kv d,
     next_body resource id w = PDict kv ->
     assoc "data" kv = Some (PDict d) -> assoc resource d = None ->
     fst (_async_get_data resource id w) = Raise KeyError) /\
  (forall kv env,
     next_body resource id w = PDict kv ->
     assoc "data" kv = Some env -> (forall d, env <> PDict d) ->
     fst (_async_get_data resource id w) = Raise TypeError) /\
  (truthy (next_body resource id w) = true ->
   (forall kv, next_body resource id w <> PDict kv) ->
   fst (_async_get_data resource id w) = Raise TypeError) /\
  (truthy (next_body resource id w) = true -> truthy id = true ->
   payload resource (next_body resource id w) = Ok (PList []) ->
   fst (_async_get_data resource id w) = Raise IndexError).
Proof.
  rewrite get_data_run. cbn [fst].
  assert (Hdict : forall kv, next_body resource id w = PDict kv ->
            forall env, assoc "data" kv = Some env ->
            truthy (next_body resource id w) = true).
  { intros kv -> env Henv. destruct kv; [discriminate|reflexivity]. }
  split; [apply normalize_falsy|].
  split.
  { intros p Ht Hp Hne. rewrite (normalize_payload _ _ _ p Ht Hp).
    destruct (truthy id); [|eauto].
    destruct p as [| | | |[|x l]|]; cbn; eauto.
    now destruct Hne. }
  split.
  { intros e Ht Hp. split; [now apply normalize_raises|].
    eapply payload_raises, Hp. }
  split.
  { intros kv Hb Hne Hnone. apply normalize_raises.
    - rewrite Hb. now destruct kv.
    - rewrite Hb. unfold payload. cbn [getitem]. now rewrite Hnone. }
  split.
  { intros kv d Hb Henv Hnone. apply normalize_raises.
    - exact (Hdict kv Hb _ Henv).
    - rewrite Hb. unfold payload. cbn [getitem]. rewrite Henv. cbn [rbind getitem].
      now rewrite Hnone. }
  split.
  { intros kv env Hb Henv Hnd. apply normalize_raises.
    - exact (Hdict kv Hb _ Henv).
    - rewrite Hb. unfold payload. cbn [getitem]. rewrite Henv. cbn [rbind].
      destruct env; try reflexivity. now destruct (Hnd kv0). }
  split.
  { intros Ht Hnd. apply normalize_raises; [exact Ht|].
    unfold payload. destruct (next_body resource id w); try reflexivity.
    now destruct (Hnd kv). }
  intros Ht Hid Hp. now rewrite (normalize_payload _ _ _ _ Ht Hp), Hid.
Qed.

Lemma get_data_absent_or_enveloped_witness :
  fst (_async_get_data "zone" PNone (fresh_world None (PBool false)))
    = Ok (PBool false) /\
  (exists v,
     fst (_async_get_data "area" (PInt 3)
            (fresh_world None (body_of "area" (PList [PDict [("id", PInt 3)]]))))
       = Ok v) /\
  fst (_async_get_data "area" PNone
         (fresh_world None (PDict [("status", PStr "success")])))
    = Raise KeyError.
Proof.
  split; [|split].
  - apply (proj1 (get_data_absent_or_enveloped "zone" PNone
                    (fresh_world None (PBool false)))).
    reflexivity.
  - apply (proj1 (proj2 (get_data_absent_or_enveloped "area" (PInt 3)
                    (fresh_world None
                       (body_of "area" (PList [PDict [("id", PInt 3)]])))))
             (PList [PDict [("id", PInt 3)]])).
    + reflexivity.
    + reflexivity.
    + intros _. discriminate.
  - apply (proj1 (proj2 (proj2 (proj2 (get_data_absent_or_enveloped "area" PNone
                    (fresh_world None (PDict [("status", PStr "success")]))))))
             [("status", PStr "success")]).
    + reflexivity.
    + discriminate.
    + reflexivity.
Defined.

(** C7, as the code has it: an id that is falsy is an id all the same, and
    its fetch returns a list payload whole: the source tests [if id], so the
    single-item branch is not taken.  And a list payload with no element has
    no first element to return. *)
Lemma single_item_fetch_falsy_id :
  payload "area" (body_of "area" (PList [PDict [("id", PInt 0)]]))
    = Ok (PList [PDict [("id", PInt 0)]]) /\
  fst (_async_get_data "area" (PInt 0)
         (fresh_world None (body_of "area" (PList [PDict [("id", PInt 0)]]))))
    = Ok (PList [PDict [("id", PInt 0)]]) /\
  fst (_async_get_data "area" (PStr "")
         (fresh_world None (body_of "area" (PList [PDict [("id", PStr "")]]))))
    = Ok (PList [PDict [("id", PStr "")]]) /\
  fst (_async_get_data "area" (PInt 7)
         (fresh_world None (body_of "area" (PList []))))
    = Raise IndexError.
Proof. repeat split; reflexivity. Qed.

(** C7, amended: a fetch with an id that is truthy (the source's test is
    [if id]) sends the single-item request; a list payload with a first
    element yields that element, a payload that is no list is returned as it
    is. *)
Theorem single_item_fetch resource id w p :
  truthy id = true ->
  truthy (next_body resource id w) = true ->
  payload resource (next_body resource id w) = Ok p ->
  let w' := sent_one (mkRequest GET (_api_url (gw w)) "spc/{}/{}"
                        [PStr resource; id]) w in
  (forall x rest, p = PList (x :: rest) ->
     _async_get_data resource id w = (Ok x, w')) /\
  (is_list p = false -> _async_get_data resource id w = (Ok p, w')).
Proof.
  intros Hid Ht Hp w'. rewrite get_data_run.
  rewrite (normalize_payload _ _ _ p Ht Hp), Hid.
  subst w'. unfold data_url. rewrite Hid. split.
  - intros x rest ->. reflexivity.
  - intros ->. reflexivity.
Qed.

Lemma single_item_fetch_witness :
  _async_get_data "area" (PInt 3)
    (fresh_world None (body_of "area" (PList [PDict [("id", PInt 3)]])))
  = (Ok (PDict [("id", PInt 3)]),
     sent_one (mkRequest GET "http://gw/" "spc/{}/{}" [PStr "area"; PInt 3])
       (fresh_world None (body_of "area" (PList [PDict [("id", PInt 3)]])))).
Proof.
  apply (proj1 (single_item_fetch "area" (PInt 3)
                  (fresh_world None
                     (body_of "area" (PList [PDict [("id", PInt 3)]])))
                  (PList [PDict [("id", PInt 3)]])
                  eq_refl eq_refl eq_refl)
           (PDict [("id", PInt 3)]) [] eq_refl).
Defined.

(** ** Entities in the store *)

Section Router.
Context {E : Entities}.

Lemma deref_run r w o :
  heap w !! r = Some o -> deref r w = (Ok o, w).
Proof. intros H. unfold deref. now rewrite H. Qed.

Lemma entity_id_run r w o :
  heap w !! r = Some o -> entity_id r w = (Ok (obj_id o), w).
Proof. intros H. unfold entity_id. now rewrite (bind_ok _ _ _ _ _ (deref_run _ _ _ H)). Qed.

Lemma entity_update_sent r data sia_code w :
  sent (snd (entity_update r data sia_code w)) = sent w /\
  scheduled (snd (entity_update r data sia_code w)) = scheduled w /\
  logged (snd (entity_update r data sia_code w)) = logged w /\
  gw (snd (entity_update r data sia_code w)) = gw w /\
  net (snd (entity_update r data sia_code w)) = net w.
Proof.
  unfold entity_update, bind, deref.
  destruct (heap w !! r) as [[a|z]|]; cbn; [| |tauto].
  - unfold lift. destruct (area_update _ _ _); cbn; tauto.
  - unfold lift. destruct (zone_update _ _ _); cbn; tauto.
Qed.

(** What [update] leaves in the store at [r]. *)
Lemma entity_update_area r data sia_code w a st :
  heap w !! r = Some (OArea a) ->
  area_update (area_state a) data sia_code = Ok st ->
  entity_update r data sia_code w =
  (Ok tt, set_heap (<[r := OArea (mkArea (area_id a) st (area_zones a))]> (heap w)) w).
Proof.
  intros H Hu. unfold entity_update.
  rewrite (bind_ok _ _ _ _ _ (deref_run _ _ _ H)).
  now rewrite (bind_lift_ok _ _ _ _ Hu).
Qed.

Lemma entity_update_zone r data sia_code w z st :
  heap w !! r = Some (OZone z) ->
  zone_update (zone_state z) data sia_code = Ok st ->
  entity_update r data sia_code w =
  (Ok tt, set_heap (<[r := OZone (mkZone (zone_id z) st (zone_area z))]> (heap w)) w).
Proof.
  intros H Hu. unfold entity_update.
  rewrite (bind_ok _ _ _ _ _ (deref_run _ _ _ H)).
  now rewrite (bind_lift_ok _ _ _ _ Hu).
Qed.

(** The requests one turn of the router's loop sends: the fetch of the
    entity's id, whatever comes of the update and the callback. *)
Lemma refresh_one_sent resource sia_code r o tasks w :
  heap w !! r = Some o ->
  sent (snd (refresh resource sia_code [Some r] tasks w)) =
  sent w ++ [data_url (_api_url (gw w)) resource (obj_id o)].
Proof.
  intros H. cbn [refresh].
  rewrite (bind_ok _ _ _ _ _ (entity_id_run _ _ _ H)).
  unfold bind at 1. rewrite get_data_run.
  destruct (normalize _ _ _) as [data|e]; [|reflexivity].
  set (w1 := sent_one _ w).
  destruct (entity_update_sent r data sia_code w1) as (Hs & _ & _ & Hg & _).
  unfold bind at 1.
  destruct (entity_update r data sia_code w1) as [[[]|e] w2]; cbn in *; [|now rewrite Hs].
  unfold bind, get_gw. cbn. rewrite Hg.
  destruct (_async_callback (gw w)); cbn; exact Hs.
Qed.

End Router.

(** C6: [change_mode] with a [new_mode] that is no [AreaMode] raises
    [TypeError] and leaves the world as it was: no request is sent. *)
Theorem change_mode_rejects_unrecognized {E : Entities} area v w :
  change_mode area (NotMode v) w = (Raise TypeError, w) /\
  sent (snd (change_mode area (NotMode v) w)) = sent w.
Proof. split; reflexivity. Qed.

(** C10: an id that is falsy (the integer [0], the empty string, ...) is
    fetched as no id at all: the collection request is sent and a list
    payload comes back whole; so the router's refresh of an entity whose id
    is falsy sends the collection request, never the single-item one. *)
Theorem falsy_id_fetches_collection {E : Entities} resource id w :
  truthy id = false ->
  _async_get_data resource id w = _async_get_data resource PNone w /\
  sent (snd (_async_get_data resource id w)) =
    sent w ++ [mkRequest GET (_api_url (gw w)) "spc/{}" [PStr resource]] /\
  (forall items,
     truthy (next_body resource PNone w) = true ->
     payload resource (next_body resource PNone w) = Ok (PList items) ->
     fst (_async_get_data resource id w) = Ok (PList items)) /\
  (forall sia_code r o tasks,
     heap w !! r = Some o -> obj_id o = id ->
     sent (snd (refresh resource sia_code [Some r] tasks w)) =
       sent w ++ [mkRequest GET (_api_url (gw w)) "spc/{}" [PStr resource]]).
Proof.
  intros Hid.
  assert (Hurl : data_url (_api_url (gw w)) resource id =
                 mkRequest GET (_api_url (gw w)) "spc/{}" [PStr resource])
    by (unfold data_url; now rewrite Hid).
  assert (Hn : forall data, normalize resource id data = normalize resource PNone data)
    by (intros data; unfold normalize; now rewrite Hid).
  repeat split.
  - rewrite !get_data_run. unfold next_body. rewrite Hurl, Hn. reflexivity.
  - rewrite get_data_run. cbn. now rewrite Hurl.
  - intros items Ht Hp. rewrite get_data_run. cbn [fst].
    unfold next_body in *. rewrite Hurl, Hn.
    change (data_url (_api_url (gw w)) resource PNone)
      with (mkRequest GET (_api_url (gw w)) "spc/{}" [PStr resource]) in Ht, Hp.
    now rewrite (normalize_payload _ _ _ _ Ht Hp).
  - intros sia_code r o tasks Hr Ho.
    rewrite (refresh_one_sent _ _ _ _ _ _ Hr), Ho. now rewrite Hurl.
Qed.

Lemma falsy_id_fetches_collection_witness :
  fst (_async_get_data "area" (PInt 0)
         (fresh_world None (body_of "area" (PList [PDict [("id", PInt 0)]]))))
  = Ok (PList [PDict [("id", PInt 0)]]).
Proof.
  apply (proj1 (proj2 (proj2 (@falsy_id_fetches_collection sample_entities
           "area" (PInt 0)
           (fresh_world None (body_of "area" (PList [PDict [("id", PInt 0)]])))
           eq_refl)))
         [PDict [("id", PInt 0)]]); reflexivity.
Defined.

(** ** The event router *)

Section RouterProperties.
Context {E : Entities}.

Lemma ws_handler_run data spc_id sia_code w :
  push_message data spc_id sia_code ->
  _async_ws_handler data w =
  dispatch spc_id sia_code (logged_one (DebugSiaCode sia_code spc_id) w).
Proof.
  intros (d & m & H1 & H2 & H3 & H4). unfold _async_ws_handler.
  rewrite (bind_lift_ok _ _ _ _ H1), (bind_lift_ok _ _ _ _ H2).
  rewrite (bind_lift_ok _ _ _ _ H3), (bind_lift_ok _ _ _ _ H4).
  reflexivity.
Qed.

Lemma registry_get_run d spc_id k w :
  hash_key spc_id = Ok k -> registry_get d spc_id w = (Ok (dict_get d k), w).
Proof. intros H. unfold registry_get. now rewrite (bind_lift_ok _ _ _ _ H). Qed.

(** How the router classifies a message. *)
Lemma classify_area spc_id sia_code k w :
  py_in sia_code Area_SUPPORTED_SIA_CODES = true ->
  hash_key spc_id = Ok k ->
  classify spc_id sia_code w =
  (Ok (Some ([dict_get (_areas (gw w)) k], "area")), w).
Proof.
  intros Ha Hk. unfold classify, bind at 1, get_gw. rewrite Ha.
  now rewrite (bind_ok _ _ _ _ _ (registry_get_run _ _ _ _ Hk)).
Qed.

Lemma classify_zone spc_id sia_code k w :
  py_in sia_code Area_SUPPORTED_SIA_CODES = false ->
  py_in sia_code Zone_SUPPORTED_SIA_CODES = true ->
  hash_key spc_id = Ok k ->
  classify spc_id sia_code w =
  (Ok (Some ([dict_get (_zones (gw w)) k], "zone")), w).
Proof.
  intros Ha Hz Hk. unfold classify, bind at 1, get_gw. rewrite Ha, Hz.
  now rewrite (bind_ok _ _ _ _ _ (registry_get_run _ _ _ _ Hk)).
Qed.

Lemma classify_user_mode_change spc_id sia_code w :
  py_in sia_code Area_SUPPORTED_SIA_CODES = false ->
  py_in sia_code Zone_SUPPORTED_SIA_CODES = false ->
  py_in sia_code ["CL"; "OP"] = true ->
  classify spc_id sia_code w =
  (Ok (Some (map Some (dict_values (_areas (gw w))), "area")), w).
Proof.
  intros Ha Hz Hc. unfold classify, bind at 1, get_gw. now rewrite Ha, Hz, Hc.
Qed.

(** A code of the Area set (resp. the Zone set) with an address that is no
    key of the registry: the target is the one-item list [[None]], which is
    truthy, so the test [if not entities] does not fire and the loop's
    [entity.id] raises. *)
Lemma dispatch_unregistered spc_id sia_code k w :
  hash_key spc_id = Ok k ->
  (py_in sia_code Area_SUPPORTED_SIA_CODES = true /\
   dict_get (_areas (gw w)) k = None) \/
  (py_in sia_code Area_SUPPORTED_SIA_CODES = false /\
   py_in sia_code Zone_SUPPORTED_SIA_CODES = true /\
   dict_get (_zones (gw w)) k = None) ->
  dispatch spc_id sia_code w = (Raise AttributeError, w).
Proof.
  intros Hk [[Ha Hn]|(Ha & Hz & Hn)]; unfold dispatch.
  - rewrite (bind_ok _ _ _ _ _ (classify_area _ _ _ _ Ha Hk)), Hn. reflexivity.
  - rewrite (bind_ok _ _ _ _ _ (classify_zone _ _ _ _ Ha Hz Hk)), Hn. reflexivity.
Qed.

Lemma refreshed_area_inv w sia_code i a a' :
  refreshed_area w sia_code i a = Ok a' ->
  exists data st,
    normalize "area" (area_id a)
      (net w (length (sent w) + i)
         (data_url (_api_url (gw w)) "area" (area_id a))) = Ok data /\
    area_update (area_state a) data sia_code = Ok st /\
    a' = mkArea (area_id a) st (area_zones a).
Proof.
  unfold refreshed_area, rbind. intros H.
  destruct (normalize _ _ _) as [data|] eqn:Hn; [|discriminate].
  destruct (area_update _ _ _) as [st|] eqn:Hu; [|discriminate].
  exists data, st. injection H as <-. repeat split. exact Hu.
Qed.

(** One turn of the loop on a registered area whose fetch and update come
    through. *)
Lemma refresh_area_step sia_code r rest tasks w a a' :
  heap w !! r = Some (OArea a) ->
  refreshed_area w sia_code 0 a = Ok a' ->
  refresh "area" sia_code (Some r :: rest) tasks w =
  refresh "area" sia_code rest (tasks ++ callback_tasks (gw w) [r])
    (area_refreshed r a a' w).
Proof.
  intros Hr Ha. apply refreshed_area_inv in Ha as (data & st & Hn & Hu & ->).
  rewrite Nat.add_0_r in Hn.
  cbn [refresh].
  rewrite (bind_ok _ _ _ _ _ (entity_id_run _ _ _ Hr)). cbn [obj_id].
  unfold bind at 1. rewrite get_data_run. unfold next_body. rewrite Hn.
  unfold bind at 1.
  rewrite (entity_update_area r data sia_code (sent_one _ w) a st Hr Hu).
  unfold bind at 1, get_gw. cbn [gw set_heap sent_one].
  unfold area_refreshed, callback_tasks.
  destruct (_async_callback (gw w)) as [cb|]; cbn.
  - reflexivity.
  - now rewrite !app_nil_r.
Qed.

Lemma callback_tasks_cons g r refs :
  callback_tasks g (r :: refs) = callback_tasks g [r] ++ callback_tasks g refs.
Proof. unfold callback_tasks. now destruct (_async_callback g). Qed.

Lemma callback_tasks_nil g : callback_tasks g [] = [].
Proof. unfold callback_tasks. now destruct (_async_callback g). Qed.

Lemma refreshed_area_next r a a' w sia_code i b :
  refreshed_area (area_refreshed r a a' w) sia_code i b =
  refreshed_area w sia_code (S i) b.
Proof.
  unfold refreshed_area, area_refreshed. cbn [sent net gw].
  rewrite length_app. cbn [length].
  now replace (length (sent w) + 1 + i) with (length (sent w) + S i) by lia.
Qed.

(** The loop over registered areas, all of them distinct objects. *)
Lemma refresh_all_areas sia_code refs : forall tasks w,
  NoDup refs ->
  areas_refreshable sia_code refs w ->
  exists w',
    refresh "area" sia_code (map Some refs) tasks w =
      (Ok (tasks ++ callback_tasks (gw w) refs), w') /\
    logged w' = logged w /\
    areas_refreshed sia_code refs w w'.
Proof.
  induction refs as [|r refs IH]; intros tasks w Hnd Hok.
  - exists w. cbn [map refresh]. rewrite callback_tasks_nil, app_nil_r.
    split; [reflexivity|]. split; [reflexivity|]. unfold areas_refreshed.
    rewrite callback_tasks_nil, app_nil_r. repeat split.
    + exists []. rewrite app_nil_r. repeat split. intros i r a Hi. discriminate.
    + intros i r a a' Hi. discriminate.
  - apply NoDup_cons in Hnd as [Hr Hnd].
    destruct (Hok 0 r eq_refl) as (a & a' & Ha & Ha').
    cbn [map]. rewrite (refresh_area_step _ _ _ _ _ _ _ Ha Ha').
    set (w1 := area_refreshed r a a' w).
    assert (Hne : forall i r', refs !! i = Some r' -> r <> r').
    { intros i r' Hi ->. apply Hr. eapply list_elem_of_lookup_2, Hi. }
    assert (Hh1 : forall r', r <> r' -> heap w1 !! r' = heap w !! r').
    { intros r' Hn. apply list_lookup_insert_ne, Hn. }
    destruct (IH (tasks ++ callback_tasks (gw w) [r]) w1 Hnd) as (w' & Hrun & Hlog & Hw').
    { intros i r' Hi. destruct (Hok (S i) r' Hi) as (b & b' & Hb & Hb').
      exists b, b'. rewrite (Hh1 _ (Hne _ _ Hi)). split; [exact Hb|].
      unfold w1. now rewrite refreshed_area_next. }
    exists w'. split.
    { rewrite Hrun. change (gw w1) with (gw w).
      now rewrite (callback_tasks_cons _ r refs), app_assoc. }
    split; [exact Hlog|].
    destruct Hw' as (Hg & Hn & Hs & (reqs & Hq & Hlen & Hreqs) & Hup & Hfr).
    unfold areas_refreshed. repeat split.
    + exact Hg.
    + exact Hn.
    + rewrite Hs. cbn [w1 area_refreshed scheduled gw].
      now rewrite (callback_tasks_cons _ r refs), app_assoc.
    + exists (data_url (_api_url (gw w)) "area" (area_id a) :: reqs).
      repeat split.
      * rewrite Hq. cbn [w1 area_refreshed sent]. now rewrite <- app_assoc.
      * cbn [length]. now rewrite Hlen.
      * intros [|i] r' b Hi Hb.
        -- injection Hi as <-. rewrite Ha in Hb. now injection Hb as <-.
        -- cbn in Hi. cbn. apply (Hreqs i r' b Hi).
           now rewrite (Hh1 _ (Hne _ _ Hi)).
    + intros [|i] r' b b' Hi Hb Hb'.
      * injection Hi as <-. rewrite Ha in Hb. injection Hb as <-.
        rewrite Ha' in Hb'. injection Hb' as <-.
        rewrite (Hfr _ Hr). apply list_lookup_insert_eq.
        now apply lookup_lt_Some in Ha.
      * cbn in Hi. apply (Hup i r' b b' Hi).
        -- now rewrite (Hh1 _ (Hne _ _ Hi)).
        -- unfold w1. now rewrite refreshed_area_next.
    + intros r' Hr'. apply not_elem_of_cons in Hr' as [Hn' Hr'].
      rewrite (Hfr _ Hr'). apply Hh1. congruence.
Qed.

Lemma areas_refreshed_nil sia_code w : areas_refreshed sia_code [] w w.
Proof.
  unfold areas_refreshed. rewrite callback_tasks_nil, app_nil_r. repeat split.
  - exists []. rewrite app_nil_r. repeat split. intros i r a Hi. discriminate.
  - intros i r a a' Hi. discriminate.
Qed.

Lemma areas_refreshed_cons sia_code r a a' refs w w' :
  heap w !! r = Some (OArea a) ->
  refreshed_area w sia_code 0 a = Ok a' ->
  r ∉ refs ->
  areas_refreshed sia_code refs (area_refreshed r a a' w) w' ->
  areas_refreshed sia_code (r :: refs) w w'.
Proof.
  intros Ha Ha' Hr (Hg & Hn & Hs & (reqs & Hq & Hlen & Hreqs) & Hup & Hfr).
  set (w1 := area_refreshed r a a' w) in *.
  assert (Hne : forall i r', refs !! i = Some r' -> r <> r').
  { intros i r' Hi ->. apply Hr. eapply list_elem_of_lookup_2, Hi. }
  assert (Hh1 : forall r', r <> r' -> heap w1 !! r' = heap w !! r').
  { intros r' Hn'. apply list_lookup_insert_ne, Hn'. }
  unfold areas_refreshed. repeat split.
  - exact Hg.
  - exact Hn.
  - rewrite Hs. cbn [w1 area_refreshed scheduled gw].
    now rewrite (callback_tasks_cons _ r refs), app_assoc.
  - exists (data_url (_api_url (gw w)) "area" (area_id a) :: reqs).
    repeat split.
    + rewrite Hq. cbn [w1 area_refreshed sent]. now rewrite <- app_assoc.
    + cbn [length]. now rewrite Hlen.
    + intros [|i] r' b Hi Hb.
      * injection Hi as <-. rewrite Ha in Hb. now injection Hb as <-.
      * cbn in Hi. cbn. apply (Hreqs i r' b Hi).
        now rewrite (Hh1 _ (Hne _ _ Hi)).
  - intros [|i] r' b b' Hi Hb Hb'.
    + injection Hi as <-. rewrite Ha in Hb. injection Hb as <-.
      rewrite Ha' in Hb'. injection Hb' as <-.
      rewrite (Hfr _ Hr). apply list_lookup_insert_eq.
      now apply lookup_lt_Some in Ha.
    + cbn in Hi. apply (Hup i r' b b' Hi).
      * now rewrite (Hh1 _ (Hne _ _ Hi)).
      * unfold w1. now rewrite refreshed_area_next.
  - intros r' Hr'. apply not_elem_of_cons in Hr' as [Hn' Hr'].
    rewrite (Hfr _ Hr'). apply Hh1. congruence.
Qed.

(** A turn of the loop whose fetch or update raises: the request is sent,
    the store is as it was. *)
Lemma refresh_area_raises sia_code r rest tasks w a e :
  heap w !! r = Some (OArea a) ->
  refreshed_area w sia_code 0 a = Raise e ->
  refresh "area" sia_code (Some r :: rest) tasks w =
  (Raise e, sent_one (data_url (_api_url (gw w)) "area" (area_id a)) w).
Proof.
  intros Hr Ha. unfold refreshed_area in Ha. rewrite Nat.add_0_r in Ha.
  cbn [refresh].
  rewrite (bind_ok _ _ _ _ _ (entity_id_run _ _ _ Hr)). cbn [obj_id].
  unfold bind at 1. rewrite get_data_run. unfold next_body.
  destruct (normalize _ _ _) as [data|e']; cbn [rbind] in Ha;
    [|now injection Ha as ->].
  destruct (area_update _ _ _) as [st|e'] eqn:Hu; cbn [rbind] in Ha; [discriminate|].
  injection Ha as ->.
  unfold bind at 1, entity_update.
  rewrite (bind_ok _ _ _ _ _ (deref_run r (sent_one _ w) _ Hr)).
  unfold bind, lift. now rewrite Hu.
Qed.

Lemma refresh_aborts sia_code r a rest e refs : forall tasks w,
  NoDup refs -> r ∉ refs ->
  areas_refreshable sia_code refs w ->
  heap w !! r = Some (OArea a) ->
  refreshed_area w sia_code (length refs) a = Raise e ->
  exists w1,
    areas_refreshed sia_code refs w w1 /\ logged w1 = logged w /\
    heap w1 !! r = Some (OArea a) /\
    refresh "area" sia_code (map Some (refs ++ r :: rest)) tasks w =
      (Raise e, sent_one (data_url (_api_url (gw w)) "area" (area_id a)) w1).
Proof.
  induction refs as [|r0 refs IH]; intros tasks w Hnd Hr Hok Ha He.
  - exists w. split; [apply areas_refreshed_nil|]. split; [reflexivity|].
    split; [exact Ha|]. cbn [app map]. now apply refresh_area_raises.
  - apply NoDup_cons in Hnd as [Hr0 Hnd].
    apply not_elem_of_cons in Hr as [Hne Hr].
    destruct (Hok 0 r0 eq_refl) as (a0 & a0' & Ha0 & Ha0').
    cbn [app map]. rewrite (refresh_area_step _ _ _ _ _ _ _ Ha0 Ha0').
    set (w1 := area_refreshed r0 a0 a0' w).
    assert (Hh1 : forall r', r0 <> r' -> heap w1 !! r' = heap w !! r').
    { intros r' Hn. apply list_lookup_insert_ne, Hn. }
    destruct (IH (tasks ++ callback_tasks (gw w) [r0]) w1 Hnd Hr)
      as (w2 & Hw2 & Hlog & Hra & Hrun).
    + intros i r' Hi. destruct (Hok (S i) r' Hi) as (b & b' & Hb & Hb').
      exists b, b'. rewrite Hh1.
      * split; [exact Hb|]. unfold w1. now rewrite refreshed_area_next.
      * intros ->. apply Hr0. eapply list_elem_of_lookup_2, Hi.
    + rewrite Hh1; [exact Ha|congruence].
    + unfold w1. now rewrite refreshed_area_next.
    + exists w2. split; [now apply (areas_refreshed_cons _ _ a0 a0')|].
      split; [exact Hlog|]. split; [exact Hra|]. exact Hrun.
Qed.

(** A turn of the loop on a zone whose fetch or update raises. *)
Lemma refresh_zone_raises sia_code r rest tasks w z e :
  heap w !! r = Some (OZone z) ->
  refreshed_zone w sia_code z = Raise e ->
  refresh "zone" sia_code (Some r :: rest) tasks w =
  (Raise e, sent_one (data_url (_api_url (gw w)) "zone" (zone_id z)) w).
Proof.
  intros Hr Hz. unfold refreshed_zone in Hz.
  cbn [refresh].
  rewrite (bind_ok _ _ _ _ _ (entity_id_run _ _ _ Hr)). cbn [obj_id].
  unfold bind at 1. rewrite get_data_run. unfold next_body.
  destruct (normalize _ _ _) as [data|e']; cbn [rbind] in Hz;
    [|now injection Hz as ->].
  destruct (zone_update _ _ _) as [st|e'] eqn:Hu; cbn [rbind] in Hz; [discriminate|].
  injection Hz as ->.
  unfold bind at 1, entity_update.
  rewrite (bind_ok _ _ _ _ _ (deref_run r (sent_one _ w) _ Hr)).
  unfold bind, lift. now rewrite Hu.
Qed.

(** C1, as the code has it: a push message whose code is in the Area set
    (resp. the Zone set) and whose address is no key of the area registry
    (resp. the zone registry) makes the router raise [AttributeError].  The
    debug line is all it logs: no error is reported, and the exception goes
    to the caller.  The store, the registries and the scheduled callbacks are
    as they were. *)
Theorem unregistered_id_raises data spc_id sia_code k w :
  push_message data spc_id sia_code ->
  hash_key spc_id = Ok k ->
  (py_in sia_code Area_SUPPORTED_SIA_CODES = true /\
   dict_get (_areas (gw w)) k = None) \/
  (py_in sia_code Area_SUPPORTED_SIA_CODES = false /\
   py_in sia_code Zone_SUPPORTED_SIA_CODES = true /\
   dict_get (_zones (gw w)) k = None) ->
  _async_ws_handler data w =
    (Raise AttributeError, logged_one (DebugSiaCode sia_code spc_id) w) /\
  List.filter is_error (logged (snd (_async_ws_handler data w))) =
    List.filter is_error (logged w).
Proof.
  intros Hm Hk Hc.
  assert (Hrun : _async_ws_handler data w =
            (Raise AttributeError, logged_one (DebugSiaCode sia_code spc_id) w)).
  { rewrite (ws_handler_run _ _ _ _ Hm). now apply (dispatch_unregistered _ _ k). }
  split; [exact Hrun|]. rewrite Hrun. cbn [snd logged logged_one].
  rewrite List.filter_app. cbn. apply app_nil_r.
Qed.

(** C5, amended: a push message with a code of the Area set and a
    registered address makes the router send one request, the fetch of the
    area registered under it.  When that fetch returns and [update] does not
    raise, exactly that area is replaced by the area updated with the fetched
    data and the triggering code, one callback on it is scheduled when a
    callback is configured (none otherwise), and every other object of the
    store is as it was.  When the fetch or [update] raises, the exception
    reaches the caller: nothing is updated and no callback is scheduled. *)
Theorem registered_area_refreshed data spc_id sia_code k r a w :
  push_message data spc_id sia_code ->
  py_in sia_code Area_SUPPORTED_SIA_CODES = true ->
  hash_key spc_id = Ok k ->
  dict_get (_areas (gw w)) k = Some r ->
  heap w !! r = Some (OArea a) ->
  match refreshed_area w sia_code 0 a with
  | Ok a' =>
      _async_ws_handler data w =
        (Ok (Some (callback_tasks (gw w) [r])),
         {| gw := gw w;
            heap := <[r := OArea a']> (heap w);
            net := net w;
            sent := sent w ++ [data_url (_api_url (gw w)) "area" (area_id a)];
            logged := logged w ++ [DebugSiaCode sia_code spc_id];
            scheduled := scheduled w ++ callback_tasks (gw w) [r] |}) /\
      (forall r', r' <> r ->
         heap (snd (_async_ws_handler data w)) !! r' = heap w !! r')
  | Raise e =>
      _async_ws_handler data w =
        (Raise e,
         {| gw := gw w;
            heap := heap w;
            net := net w;
            sent := sent w ++ [data_url (_api_url (gw w)) "area" (area_id a)];
            logged := logged w ++ [DebugSiaCode sia_code spc_id];
            scheduled := scheduled w |})
  end /\
  callback_tasks (gw w) [r] =
    match _async_callback (gw w) with
    | Some cb => [mkTask cb r]
    | None => []
    end.
Proof.
  intros Hm Hc Hk Hr Ha.
  assert (Hrun : _async_ws_handler data w =
            (tasks <- refresh "area" sia_code [Some r] [] ;; ret (Some tasks))
              (logged_one (DebugSiaCode sia_code spc_id) w)).
  { rewrite (ws_handler_run _ _ _ _ Hm). unfold dispatch.
    rewrite (bind_ok _ _ _ _ _ (classify_area _ _ _ _ Hc Hk)).
    cbn [gw logged_one]. now rewrite Hr. }
  set (w0 := logged_one (DebugSiaCode sia_code spc_id) w) in Hrun.
  split.
  - change (refreshed_area w sia_code 0 a) with (refreshed_area w0 sia_code 0 a).
    destruct (refreshed_area w0 sia_code 0 a) as [a'|e] eqn:Ha'.
    + assert (Hrun' : _async_ws_handler data w =
        (Ok (Some (callback_tasks (gw w) [r])),
         {| gw := gw w;
            heap := <[r := OArea a']> (heap w);
            net := net w;
            sent := sent w ++ [data_url (_api_url (gw w)) "area" (area_id a)];
            logged := logged w ++ [DebugSiaCode sia_code spc_id];
            scheduled := scheduled w ++ callback_tasks (gw w) [r] |})).
      { rewrite Hrun. unfold bind at 1.
        rewrite (refresh_area_step sia_code r [] [] w0 a a' Ha Ha'). reflexivity. }
      split; [exact Hrun'|].
      intros r' Hne. rewrite Hrun'. cbn. now apply list_lookup_insert_ne.
    + rewrite Hrun. unfold bind at 1.
      now rewrite (refresh_area_raises sia_code r [] [] w0 a e Ha Ha').
  - unfold callback_tasks. now destruct (_async_callback (gw w)).
Qed.

(** C4, amended: a push message whose code is ['CL'] or ['OP'] (and in
    neither supported set) makes the router go through the areas of the
    registry, in registry order and whatever the address the message carries;
    the registry holds distinct objects, as loads leave it.  When the fetch
    and the update of every area come through, every area stands updated
    with its fetched data and the code, one request per area was sent, and
    nothing else in the store changes; one callback per area is scheduled
    when a callback is configured, none when there is none.  (With an empty
    registry the router logs the unregistered-id error and returns nothing.)
    When the fetch or the update of an area raises, the exception reaches the
    caller: the areas before it stand updated and their callbacks are
    scheduled, that area is as it was, and no area after it is fetched. *)
Theorem user_mode_change_refreshes_all_areas data spc_id sia_code w :
  push_message data spc_id sia_code ->
  sia_code = PStr "CL" \/ sia_code = PStr "OP" ->
  py_in sia_code Area_SUPPORTED_SIA_CODES = false ->
  py_in sia_code Zone_SUPPORTED_SIA_CODES = false ->
  NoDup (dict_values (_areas (gw w))) ->
  (areas_refreshable sia_code (dict_values (_areas (gw w))) w ->
   exists res w',
     _async_ws_handler data w = (Ok res, w') /\
     res = match dict_values (_areas (gw w)) with
           | [] => None
           | refs => Some (callback_tasks (gw w) refs)
           end /\
     logged w' = logged w ++ DebugSiaCode sia_code spc_id ::
                   match dict_values (_areas (gw w)) with
                   | [] => [ErrorUnregistered spc_id]
                   | _ => []
                   end /\
     areas_refreshed sia_code (dict_values (_areas (gw w))) w w') /\
  (forall refs r a rest e,
     dict_values (_areas (gw w)) = refs ++ r :: rest ->
     areas_refreshable sia_code refs w ->
     heap w !! r = Some (OArea a) ->
     refreshed_area w sia_code (length refs) a = Raise e ->
     exists w1,
       _async_ws_handler data w =
         (Raise e, sent_one (data_url (_api_url (gw w)) "area" (area_id a)) w1) /\
       areas_refreshed sia_code refs
         (logged_one (DebugSiaCode sia_code spc_id) w) w1 /\
       logged w1 = logged w ++ [DebugSiaCode sia_code spc_id] /\
       heap w1 !! r = Some (OArea a)).
Proof.
  intros Hm Hcode Ha Hz Hnd.
  assert (Hclop : py_in sia_code ["CL"; "OP"] = true)
    by (destruct Hcode as [-> | ->]; reflexivity).
  rewrite (ws_handler_run _ _ _ _ Hm).
  set (w0 := logged_one (DebugSiaCode sia_code spc_id) w).
  unfold dispatch.
  rewrite (bind_ok _ _ _ _ _ (classify_user_mode_change _ _ _ Ha Hz Hclop)).
  change (gw w0) with (gw w). split.
  - intros Hok.
    destruct (refresh_all_areas sia_code (dict_values (_areas (gw w))) [] w0 Hnd Hok)
      as (w' & Hrun & Hlog & Hw').
    change (gw w0) with (gw w) in Hrun.
    destruct (dict_values (_areas (gw w))) as [|r refs] eqn:Hrefs.
    + cbn [map]. eexists _, _. split; [reflexivity|].
      split; [reflexivity|]. split.
      * cbn. now rewrite <- app_assoc.
      * cbn in Hrun. injection Hrun as _ <-. exact Hw'.
    + cbn [map] in *. unfold bind at 1. rewrite Hrun.
      eexists _, _. split; [reflexivity|].
      split; [reflexivity|]. split; [|exact Hw'].
      rewrite Hlog. cbn. reflexivity.
  - intros refs r a rest e Hvals Hok Hra He.
    rewrite Hvals in Hnd |- *.
    apply NoDup_app in Hnd as (Hnd1 & Hdis & Hnd2).
    assert (Hr : r ∉ refs).
    { intros Hin. apply (Hdis r Hin). apply elem_of_cons. now left. }
    destruct (refresh_aborts sia_code r a rest e refs [] w0 Hnd1 Hr Hok Hra He)
      as (w1 & Hw1 & Hlog & Hra1 & Hrun).
    assert (Hcons : map Some (refs ++ r :: rest) <> [])
      by (destruct refs; discriminate).
    destruct (map Some (refs ++ r :: rest)) as [|x l] eqn:Hl; [congruence|].
    unfold bind at 1. rewrite Hrun.
    exists w1. split; [reflexivity|]. split; [exact Hw1|].
    split; [exact Hlog|exact Hra1].
Qed.

(** A push message with a code of the Zone set (and not of the Area set)
    and a registered address makes the router send one request, the fetch of
    the zone registered under it.  When that fetch returns and [update] does
    not raise, exactly that zone is replaced by the zone updated with the
    fetched data and the code, and one callback on it is scheduled when a
    callback is configured.  When the fetch or [update] raises, the exception
    reaches the caller: nothing is updated and no callback is scheduled. *)
Theorem registered_zone_refreshed data spc_id sia_code k r z w :
  push_message data spc_id sia_code ->
  py_in sia_code Area_SUPPORTED_SIA_CODES = false ->
  py_in sia_code Zone_SUPPORTED_SIA_CODES = true ->
  hash_key spc_id = Ok k ->
  dict_get (_zones (gw w)) k = Some r ->
  heap w !! r = Some (OZone z) ->
  match refreshed_zone w sia_code z with
  | Ok z' =>
      _async_ws_handler data w =
        (Ok (Some (callback_tasks (gw w) [r])),
         {| gw := gw w;
            heap := <[r := OZone z']> (heap w);
            net := net w;
            sent := sent w ++ [data_url (_api_url (gw w)) "zone" (zone_id z)];
            logged := logged w ++ [DebugSiaCode sia_code spc_id];
            scheduled := scheduled w ++ callback_tasks (gw w) [r] |})
  | Raise e =>
      _async_ws_handler data w =
        (Raise e,
         {| gw := gw w;
            heap := heap w;
            net := net w;
            sent := sent w ++ [data_url (_api_url (gw w)) "zone" (zone_id z)];
            logged := logged w ++ [DebugSiaCode sia_code spc_id];
            scheduled := scheduled w |})
  end.
Proof.
  intros Hm Ha Hc Hk Hr Hz.
  assert (Hrun : _async_ws_handler data w =
            (tasks <- refresh "zone" sia_code [Some r] [] ;; ret (Some tasks))
              (logged_one (DebugSiaCode sia_code spc_id) w)).
  { rewrite (ws_handler_run _ _ _ _ Hm). unfold dispatch.
    rewrite (bind_ok _ _ _ _ _ (classify_zone _ _ _ _ Ha Hc Hk)).
    cbn [gw logged_one]. now rewrite Hr. }
  set (w0 := logged_one (DebugSiaCode sia_code spc_id) w) in Hrun.
  change (refreshed_zone w sia_code z) with (refreshed_zone w0 sia_code z).
  destruct (refreshed_zone w0 sia_code z) as [z'|e] eqn:Hz';
    rewrite Hrun; clear Hrun; unfold bind at 1.
  2: { now rewrite (refresh_zone_raises sia_code r [] [] w0 z e Hz Hz'). }
  unfold refreshed_zone, rbind in Hz'.
  destruct (normalize _ _ _) as [data'|] eqn:Hn; [|discriminate].
  destruct (zone_update _ _ _) as [st|] eqn:Hu; [|discriminate].
  injection Hz' as <-.
  cbn [refresh].
  rewrite (bind_ok _ _ _ _ _ (entity_id_run r w0 _ Hz)). cbn [obj_id].
  unfold bind at 1. rewrite get_data_run. unfold next_body. rewrite Hn.
  unfold bind at 1.
  rewrite (entity_update_zone r data' sia_code (sent_one _ w0) z st Hz Hu).
  unfold bind at 1, get_gw. cbn [gw set_heap sent_one w0 logged_one].
  unfold callback_tasks.
  destruct (_async_callback (gw w)) as [cb|]; cbn; [reflexivity|].
  now rewrite !app_nil_r.
Qed.

(** A push message whose code is in neither supported set and is neither
    ['CL'] nor ['OP'] is logged at debug level and dropped: nothing is
    fetched, nothing is updated, no callback is scheduled, and no error is
    logged. *)
Theorem unsupported_code_ignored data spc_id sia_code w :
  push_message data spc_id sia_code ->
  py_in sia_code Area_SUPPORTED_SIA_CODES = false ->
  py_in sia_code Zone_SUPPORTED_SIA_CODES = false ->
  py_in sia_code ["CL"; "OP"] = false ->
  _async_ws_handler data w =
    (Ok None,
     logged_one (DebugNotInterested sia_code)
       (logged_one (DebugSiaCode sia_code spc_id) w)).
Proof.
  intros Hm Ha Hz Hc. rewrite (ws_handler_run _ _ _ _ Hm).
  unfold dispatch, classify, bind, get_gw. now rewrite Ha, Hz, Hc.
Qed.

(** [change_mode] with a member of [AreaMode] sends one [PUT] to
    [spc/area/{area_id}/{command}], with the command token of the mode, and
    returns what the request returns.  The area id is the raw id given, the
    id of the [Area] object given, or, for an object that is no [Area], that
    object itself as [format] shows it. *)
Theorem change_mode_sends_command area m id w :
  match area with
  | AreaRaw v => v = id
  | AreaObj r =>
      exists o, heap w !! r = Some o /\
                id = match o with
                     | OArea a => area_id a
                     | OZone z => PStr (zone_str r z)
                     end
  end ->
  change_mode area (IsMode m) w =
    (Ok (net w (length (sent w))
           (mkRequest PUT (_api_url (gw w)) "spc/area/{area_id}/{command}"
              [id; PStr (AREA_MODE_COMMAND_MAP m)])),
     sent_one (mkRequest PUT (_api_url (gw w)) "spc/area/{area_id}/{command}"
                 [id; PStr (AREA_MODE_COMMAND_MAP m)]) w) /\
  AREA_MODE_COMMAND_MAP m ∈ ["unset"; "set_a"; "set_b"; "set"].
Proof.
  intros Harea. split.
  - unfold change_mode. destruct area as [r|v].
    + destruct Harea as (o & Hr & ->).
      destruct o as [a|z];
        rewrite (bind_ok _ _ _ _ _
                   (bind_ok _ _ _ _ _ (deref_run _ _ _ Hr)));
        reflexivity.
    + subst v. reflexivity.
  - destruct m; cbn; repeat (apply elem_of_cons; (now left) || right).
Qed.

End RouterProperties.

Lemma registered_zone_refreshed_witness :
  fst (@_async_ws_handler sample_entities (sia (PInt 1) (PStr "ZO"))
         (loaded_world (Some "cb"))) = Ok (Some [mkTask "cb" 2]) /\
  fst (@_async_ws_handler sample_entities (sia (PInt 1) (PStr "ZO"))
         no_envelope_world) = Raise KeyError.
Proof.
  split.
  - rewrite (@registered_zone_refreshed sample_entities
               (sia (PInt 1) (PStr "ZO")) (PInt 1) (PStr "ZO") (KInt 1) 2
               (mkZone (PInt 1) (PDict [("input", PInt 0)]) 0)
               (loaded_world (Some "cb"))
               (sia_push_message _ _) eq_refl eq_refl eq_refl eq_refl eq_refl).
    reflexivity.
  - rewrite (@registered_zone_refreshed sample_entities
               (sia (PInt 1) (PStr "ZO")) (PInt 1) (PStr "ZO") (KInt 1) 2
               (mkZone (PInt 1) (PDict [("input", PInt 0)]) 0)
               no_envelope_world
               (sia_push_message _ _) eq_refl eq_refl eq_refl eq_refl eq_refl).
    reflexivity.
Defined.

Lemma unsupported_code_ignored_witness :
  fst (@_async_ws_handler sample_entities (sia (PInt 1) (PStr "XX"))
         (loaded_world (Some "cb"))) = Ok None.
Proof.
  rewrite (@unsupported_code_ignored sample_entities
             (sia (PInt 1) (PStr "XX")) (PInt 1) (PStr "XX")
             (loaded_world (Some "cb"))
             (sia_push_message _ _) eq_refl eq_refl eq_refl).
  reflexivity.
Defined.

Lemma change_mode_sends_command_witness :
  sent (snd (@change_mode sample_entities (AreaObj 1) (IsMode PART_SET_A)
               (loaded_world None)))
  = [mkRequest PUT "http://gw/" "spc/area/{area_id}/{command}"
       [PInt 20; PStr "set_a"]] /\
  sent (snd (@change_mode sample_entities (AreaObj 2) (IsMode FULL_SET)
               (loaded_world None)))
  = [mkRequest PUT "http://gw/" "spc/area/{area_id}/{command}"
       [PStr "<pyspcwebgw.zone.Zone object>"; PStr "set"]].
Proof.
  split.
  - rewrite (proj1 (@change_mode_sends_command sample_entities (AreaObj 1)
                      PART_SET_A (PInt 20) (loaded_world None)
                      (ex_intro _ (OArea (mkArea (PInt 20) (PDict [("mode", PInt 0)]) []))
                         (conj eq_refl eq_refl)))).
    reflexivity.
  - rewrite (proj1 (@change_mode_sends_command sample_entities (AreaObj 2)
                      FULL_SET (PStr "<pyspcwebgw.zone.Zone object>")
                      (loaded_world None)
                      (ex_intro _ (OZone (mkZone (PInt 1) (PDict [("input", PInt 0)]) 0))
                         (conj eq_refl eq_refl)))).
    reflexivity.
Defined.

Lemma unregistered_id_raises_witness :
  @_async_ws_handler sample_entities (sia (PInt 99) (PStr "CG"))
    (loaded_world (Some "cb")) =
  (Raise AttributeError,
   logged_one (DebugSiaCode (PStr "CG") (PInt 99)) (loaded_world (Some "cb"))).
Proof.
  apply (proj1 (@unregistered_id_raises sample_entities
                  (sia (PInt 99) (PStr "CG")) (PInt 99) (PStr "CG") (KInt 99)
                  (loaded_world (Some "cb"))
                  (sia_push_message _ _) eq_refl
                  (or_introl (conj eq_refl eq_refl)))).
Defined.

Lemma registered_area_refreshed_witness :
  @_async_ws_handler sample_entities (sia (PInt 20) (PStr "CG"))
    (loaded_world (Some "cb")) =
  (Ok (Some [mkTask "cb" 1]),
   {| gw := gw (loaded_world (Some "cb"));
      heap := [OArea (mkArea (PInt 10) (PDict [("mode", PInt 0)]) [2]);
               OArea (mkArea (PInt 20)
                        (PList [PDict [("mode", PInt 3)]; PStr "CG"]) []);
               OZone (mkZone (PInt 1) (PDict [("input", PInt 0)]) 0)];
      net := net (loaded_world (Some "cb"));
      sent := [mkRequest GET "http://gw/" "spc/{}/{}" [PStr "area"; PInt 20]];
      logged := [DebugSiaCode (PStr "CG") (PInt 20)];
      scheduled := [mkTask "cb" 1] |}).
Proof.
  pose proof (proj1 (@registered_area_refreshed sample_entities
                       (sia (PInt 20) (PStr "CG")) (PInt 20) (PStr "CG") (KInt 20) 1
                       (mkArea (PInt 20) (PDict [("mode", PInt 0)]) [])
                       (loaded_world (Some "cb"))
                       (sia_push_message _ _) eq_refl eq_refl eq_refl eq_refl)) as H.
  exact (proj1 H).
Defined.

(** C5, as the code has it: the body the gateway answers has no [data]
    envelope; the fetch of the registered area raises [KeyError], which
    reaches the caller: the area is not updated and no callback is
    scheduled, though one is configured. *)
Lemma registered_area_fetch_raises :
  dict_get (_areas (gw no_envelope_world)) (KInt 20) = Some 1 /\
  _async_callback (gw no_envelope_world) = Some "cb" /\
  @_async_ws_handler sample_entities (sia (PInt 20) (PStr "CG"))
    no_envelope_world =
  (Raise KeyError,
   {| gw := gw no_envelope_world;
      heap := heap no_envelope_world;
      net := net no_envelope_world;
      sent := [mkRequest GET "http://gw/" "spc/{}/{}" [PStr "area"; PInt 20]];
      logged := [DebugSiaCode (PStr "CG") (PInt 20)];
      scheduled := [] |}).
Proof. repeat split; reflexivity. Qed.

(** C4, as the code has it: with no callback configured, a ['CL'] message
    refreshes both registered areas and schedules nothing; and with a
    gateway that answers the second request with a body without envelope,
    the router raises [KeyError] after the first area: the second area is as
    it was. *)
Lemma user_mode_change_without_callback :
  dict_values (_areas (gw (loaded_world None))) = [0; 1] /\
  fst (@_async_ws_handler sample_entities (sia (PInt 3) (PStr "CL"))
         (loaded_world None)) = Ok (Some []) /\
  scheduled (snd (@_async_ws_handler sample_entities (sia (PInt 3) (PStr "CL"))
                    (loaded_world None))) = [] /\
  length (sent (snd (@_async_ws_handler sample_entities
                       (sia (PInt 3) (PStr "CL")) (loaded_world None)))) = 2 /\
  dict_values (_areas (gw flaky_world)) = [0; 1] /\
  fst (@_async_ws_handler sample_entities (sia (PInt 3) (PStr "CL"))
         flaky_world) = Raise KeyError /\
  heap (snd (@_async_ws_handler sample_entities (sia (PInt 3) (PStr "CL"))
               flaky_world)) !! 1 =
    Some (OArea (mkArea (PInt 20) (PDict [("mode", PInt 0)]) [])) /\
  scheduled (snd (@_async_ws_handler sample_entities (sia (PInt 3) (PStr "CL"))
                    flaky_world)) = [mkTask "cb" 0].
Proof. repeat split; reflexivity. Qed.

Lemma user_mode_change_refreshes_all_areas_witness :
  (exists res w',
     @_async_ws_handler sample_entities (sia (PInt 3) (PStr "CL"))
       (loaded_world (Some "cb")) = (Ok res, w') /\
     res = Some [mkTask "cb" 0; mkTask "cb" 1] /\
     scheduled w' = [mkTask "cb" 0; mkTask "cb" 1]) /\
  (exists w1,
     @_async_ws_handler sample_entities (sia (PInt 3) (PStr "CL")) flaky_world =
       (Raise KeyError, sent_one (data_url "http://gw/" "area" (PInt 20)) w1) /\
     scheduled w1 = [mkTask "cb" 0]).
Proof.
  split.
  - destruct (proj1 (@user_mode_change_refreshes_all_areas sample_entities
                (sia (PInt 3) (PStr "CL")) (PInt 3) (PStr "CL")
                (loaded_world (Some "cb"))
                (sia_push_message _ _) (or_introl eq_refl) eq_refl eq_refl
                ltac:(apply NoDup_ListNoDup; repeat constructor; cbn;
                      intuition discriminate)))
      as (res & w' & Hrun & Hres & _ & _ & _ & Hs & _).
    + intros [|[|i]] r Hi; cbn in Hi; try discriminate; injection Hi as <-;
        eexists _, _; split; reflexivity.
    + exists res, w'. repeat split; assumption.
  - destruct (proj2 (@user_mode_change_refreshes_all_areas sample_entities
                (sia (PInt 3) (PStr "CL")) (PInt 3) (PStr "CL") flaky_world
                (sia_push_message _ _) (or_introl eq_refl) eq_refl eq_refl
                ltac:(apply NoDup_ListNoDup; repeat constructor; cbn;
                      intuition discriminate))
              [0] 1 (mkArea (PInt 20) (PDict [("mode", PInt 0)]) []) [] KeyError)
      as (w1 & Hrun & (_ & _ & Hs & _) & _).
    + reflexivity.
    + intros [|i] r Hi; cbn in Hi; try discriminate. injection Hi as <-.
      eexists _, _. split; reflexivity.
    + reflexivity.
    + reflexivity.
    + exists w1. split; [exact Hrun|exact Hs].
Defined.

(** ** The initial load *)

Section LoadProperties.
Context {E : Entities}.

Lemma set_heap_same w : set_heap (heap w) w = w.
Proof. now destruct w. Qed.

Lemma new_Area_run spc_area w :
  new_Area spc_area w =
  match getitem spc_area "id" with
  | Raise e => (Raise e, w)
  | Ok id =>
      match area_init spc_area with
      | Raise e => (Raise e, w)
      | Ok st => (Ok (length (heap w)),
                  set_heap (heap w ++ [OArea (mkArea id st [])]) w)
      end
  end.
Proof.
  unfold new_Area, bind, lift.
  destruct (getitem spc_area "id"); [|reflexivity].
  now destruct (area_init spc_area).
Qed.

Lemma new_Zone_run area spc_zone w :
  new_Zone area spc_zone w =
  match getitem spc_zone "id" with
  | Raise e => (Raise e, w)
  | Ok id =>
      match zone_init spc_zone with
      | Raise e => (Raise e, w)
      | Ok st => (Ok (length (heap w)),
                  set_heap (heap w ++ [OZone (mkZone id st area)]) w)
      end
  end.
Proof.
  unfold new_Zone, bind, lift.
  destruct (getitem spc_zone "id"); [|reflexivity].
  now destruct (zone_init spc_zone).
Qed.

(** The comprehension allocates the planned zones, in order, behind the
    objects already in the store. *)
Lemma zones_of_area_run area spc_area zs : forall w,
  match plan_zones spc_area zs with
  | Ok zl =>
      zones_of_area area spc_area zs w =
      (Ok (seq (length (heap w)) (length zl)),
       set_heap (heap w ++ map (fun z => OZone (mkZone (fst z) (snd z) area)) zl) w)
  | Raise e => fst (zones_of_area area spc_area zs w) = Raise e
  end.
Proof.
  induction zs as [|z rest IH]; intros w.
  - cbn. now rewrite app_nil_r, set_heap_same.
  - cbn [plan_zones zones_of_area].
    destruct (getitem z "area") as [za|e]; cbn [rbind]; [|reflexivity].
    rewrite bind_lift_Ok.
    destruct (getitem spc_area "id") as [ai|e]; cbn [rbind]; [|reflexivity].
    rewrite bind_lift_Ok.
    destruct (py_eq za ai); [|apply IH].
    destruct (getitem z "id") as [id|e] eqn:Hid; cbn [rbind];
      [|unfold bind; now rewrite new_Zone_run, Hid].
    destruct (zone_init z) as [st|e] eqn:Hst; cbn [rbind];
      [|unfold bind; now rewrite new_Zone_run, Hid, Hst].
    specialize (IH (set_heap (heap w ++ [OZone (mkZone id st area)]) w)).
    destruct (plan_zones spc_area rest) as [rs|e]; cbn [rbind];
      unfold bind; rewrite new_Zone_run, Hid, Hst.
    + rewrite IH. unfold ret, set_heap. cbn [heap gw net sent logged scheduled].
      rewrite length_app, Nat.add_1_r, <- app_assoc. reflexivity.
    + destruct (zones_of_area area spc_area rest _) as [[rs|e'] w2];
        cbn in *; congruence.
Qed.

(** The dict comprehension reads the ids of the zones it is given from the
    store. *)
Lemma zone_dict_run ids : forall n acc w,
  (forall i id, ids !! i = Some id ->
     exists o, heap w !! (n + i) = Some o /\ obj_id o = id) ->
  zone_dict (seq n (length ids)) acc w =
  match hash_keys ids with
  | Ok ks => (Ok (dict_update acc (zip ks (seq n (length ks)))), w)
  | Raise e => (Raise e, w)
  end.
Proof.
  induction ids as [|id rest IH]; intros n acc w Hh.
  - reflexivity.
  - simpl length. simpl seq. simpl zone_dict. simpl hash_keys.
    destruct (Hh 0 id eq_refl) as (o & Ho & Hid). rewrite Nat.add_0_r in Ho.
    rewrite (bind_ok _ _ _ _ _ (entity_id_run _ _ _ Ho)), Hid.
    destruct (hash_key id) as [k|e]; cbn [rbind]; [|reflexivity].
    rewrite bind_lift_Ok.
    etransitivity; [apply (IH (S n) (dict_set k n acc) w)|].
    + intros i id' Hi. destruct (Hh (S i) id' Hi) as (o' & Ho' & Hid').
      exists o'. split; [|exact Hid'].
      now replace (S n + i) with (n + S i) by lia.
    + destruct (hash_keys rest) as [ks|e]; reflexivity.
Qed.

Lemma lookup_behind {A B} (f : A -> B) (h : list B) (x : B) (l : list A) i :
  (h ++ x :: map f l) !! (S (length h) + i) = f <$> l !! i.
Proof.
  rewrite lookup_app_r by lia.
  replace (S (length h) + i - length h) with (S i) by lia.
  cbn. change (map f l) with (f <$> l). apply list_lookup_fmap.
Qed.

Lemma set_area_zones_run area refs w a :
  heap w !! area = Some (OArea a) ->
  set_area_zones area refs w =
  (Ok tt, set_heap (<[area := OArea (mkArea (area_id a) (area_state a) refs)]> (heap w)) w).
Proof.
  intros H. unfold set_area_zones.
  now rewrite (bind_ok _ _ _ _ _ (deref_run _ _ _ H)).
Qed.

(** One turn of the load's loop is the installation of the area's plan, and
    raises what the plan raises. *)
Lemma load_area_run zones spc_area w :
  match plan_area zones spc_area with
  | Ok p => load_area zones spc_area w = (Ok tt, install p w)
  | Raise e => fst (load_area zones spc_area w) = Raise e
  end.
Proof.
  unfold plan_area, load_area.
  destruct (getitem spc_area "id") as [id|e] eqn:Hid; cbn [rbind];
    [|unfold bind; now rewrite new_Area_run, Hid].
  destruct (area_init spc_area) as [st|e] eqn:Hst; cbn [rbind];
    [|unfold bind; now rewrite new_Area_run, Hid, Hst].
  assert (Hnew : new_Area spc_area w =
                 (Ok (length (heap w)),
                  set_heap (heap w ++ [OArea (mkArea id st [])]) w))
    by now rewrite new_Area_run, Hid, Hst.
  rewrite (bind_ok _ _ _ _ _ Hnew). clear Hnew.
  set (n := length (heap w)).
  set (w1 := set_heap _ w).
  destruct (py_iter zones) as [zs|e]; cbn [rbind]; [|reflexivity].
  rewrite bind_lift_Ok.
  pose proof (zones_of_area_run n spc_area zs w1) as Hz.
  destruct (plan_zones spc_area zs) as [zl|e]; cbn [rbind].
  2: { unfold bind at 1.
       destruct (zones_of_area n spc_area zs w1) as [[x|e'] w2]; cbn in *; congruence. }
  rewrite (bind_ok _ _ _ _ _ Hz). clear Hz.
  assert (Hlen : length (heap w1) = S n)
    by (unfold w1, n; cbn; rewrite length_app; cbn; lia).
  rewrite Hlen.
  set (f := fun z : pyval * pyval => OZone (mkZone (fst z) (snd z) n)).
  set (w2 := set_heap _ w1).
  assert (Hh2 : heap w2 = heap w ++ OArea (mkArea id st []) :: map f zl)
    by (unfold w2, w1; cbn; now rewrite <- app_assoc).
  assert (Ha : heap w2 !! n = Some (OArea (mkArea id st [])))
    by (rewrite Hh2; now apply list_lookup_middle).
  rewrite (bind_ok _ _ _ _ _ (set_area_zones_run n _ w2 _ Ha)).
  cbn [area_id area_state].
  set (a := mkArea id st (seq (S n) (length zl))).
  set (w3 := set_heap _ w2).
  assert (Hh3 : heap w3 = heap w ++ OArea a :: map f zl).
  { unfold w3. cbn [heap set_heap]. rewrite Hh2.
    replace n with (length (heap w) + 0) by (unfold n; lia).
    now rewrite insert_app_r. }
  assert (Ha3 : heap w3 !! n = Some (OArea a))
    by (rewrite Hh3; now apply list_lookup_middle).
  rewrite (bind_ok _ _ _ _ _ (entity_id_run _ _ _ Ha3)). cbn [obj_id a area_id].
  destruct (hash_key id) as [k|e]; cbn [rbind]; [|reflexivity].
  rewrite bind_lift_Ok.
  set (w4 := set_gw (set_areas (dict_set k n (_areas (gw w3))) (gw w3)) w3).
  assert (Hzd : zone_dict (seq (S n) (length (map fst zl))) [] w4 =
                match hash_keys (map fst zl) with
                | Ok ks => (Ok (dict_update [] (zip ks (seq (S n) (length ks)))), w4)
                | Raise e => (Raise e, w4)
                end).
  { apply zone_dict_run. intros i zid Hi.
    change (map fst zl) with (fst <$> zl) in Hi.
    rewrite list_lookup_fmap in Hi.
    destruct (zl !! i) as [z|] eqn:Hzi; [|discriminate]. injection Hi as <-.
    exists (f z). split; [|reflexivity].
    change (heap w4) with (heap w3). rewrite Hh3.
    unfold n. rewrite lookup_behind, Hzi. reflexivity. }
  rewrite length_map in Hzd.
  destruct (hash_keys (map fst zl)) as [ks|e]; cbn [rbind];
    unfold bind, get_gw, put_gw; cbv beta; unfold w4 in Hzd;
    (destruct (zone_dict _ _ _) as [r w']);
    injection Hzd as -> ->; [|reflexivity].
  f_equal.
  unfold install, plan_zone_dict, plan_objs, w4, set_gw.
  cbn [gw heap net sent logged scheduled ap_id ap_state ap_zones ap_key
       ap_zone_keys].
  fold n. rewrite Hh3. reflexivity.
Qed.

Lemma load_areas_run zones areas : forall w,
  match plan_areas zones areas with
  | Ok ps => load_areas zones areas w = (Ok tt, install_all ps w)
  | Raise e => fst (load_areas zones areas w) = Raise e
  end.
Proof.
  induction areas as [|spc_area rest IH]; intros w; [reflexivity|].
  cbn [plan_areas load_areas].
  pose proof (load_area_run zones spc_area w) as H1.
  destruct (plan_area zones spc_area) as [p|e]; cbn [rbind].
  2: { unfold bind. destruct (load_area zones spc_area w) as [[[]|e'] w'];
         cbn in *; congruence. }
  rewrite (bind_ok _ _ _ _ _ H1).
  specialize (IH (install p w)).
  destruct (plan_areas zones rest) as [ps|e]; cbn [rbind]; exact IH.
Qed.

End LoadProperties.

(** ** Dictionaries *)

Section Dict.
Context {V : Type}.
Implicit Types (d o : dict V) (k : key) (v : V).

Lemma dict_get_set k v d k0 :
  dict_get (dict_set k v d) k0 = if decide (k0 = k) then Some v else dict_get d k0.
Proof.
  induction d as [|[k' v'] d IH]; cbn.
  - reflexivity.
  - destruct (decide (k = k')) as [->|Hne]; cbn.
    + now destruct (decide (k0 = k')).
    + destruct (decide (k0 = k')) as [->|Hne'].
      * destruct (decide (k' = k)); congruence.
      * exact IH.
Qed.

Lemma dict_keys_set_in k v d :
  k ∈ dict_keys d -> dict_keys (dict_set k v d) = dict_keys d.
Proof.
  induction d as [|[k' v'] d IH]; cbn; intros H.
  - now apply elem_of_nil in H.
  - destruct (decide (k = k')) as [->|Hne]; cbn; [reflexivity|].
    f_equal. apply IH. apply elem_of_cons in H as [H|H]; [congruence|exact H].
Qed.

Lemma dict_keys_set_notin k v d :
  k ∉ dict_keys d -> dict_keys (dict_set k v d) = dict_keys d ++ [k].
Proof.
  induction d as [|[k' v'] d IH]; cbn; intros H.
  - reflexivity.
  - apply not_elem_of_cons in H as [Hne H].
    destruct (decide (k = k')); [congruence|]. cbn. f_equal. now apply IH.
Qed.

Lemma dict_get_is_Some d k : is_Some (dict_get d k) <-> k ∈ dict_keys d.
Proof.
  induction d as [|[k' v'] d IH]; cbn.
  - split; [intros [? ?]; discriminate|intros H; now apply elem_of_nil in H].
  - rewrite elem_of_cons. destruct (decide (k = k')) as [->|Hne].
    + split; eauto.
    + rewrite IH. split; [tauto|intros [?|?]; [congruence|assumption]].
Qed.

Lemma dict_get_update d o k :
  dict_get (dict_update d o) k =
  match last_write o k with
  | Some v => Some v
  | None => dict_get d k
  end.
Proof.
  unfold dict_update. revert d.
  induction o as [|[k' v'] o IH]; intros d; cbn; [reflexivity|].
  rewrite IH, dict_get_set.
  destruct (last_write o k); [reflexivity|].
  now destruct (decide (k = k')).
Qed.

Lemma last_write_app (o1 o2 : list (key * V)) k :
  last_write (o1 ++ o2) k =
  match last_write o2 k with
  | Some v => Some v
  | None => last_write o1 k
  end.
Proof.
  induction o1 as [|[k' v'] o1 IH]; cbn.
  - now destruct (last_write o2 k).
  - rewrite IH. now destruct (last_write o2 k).
Qed.

Lemma last_write_is_Some (o : list (key * V)) k :
  is_Some (last_write o k) <-> k ∈ map fst o.
Proof.
  induction o as [|[k' v'] o IH]; cbn.
  - split; [intros [? ?]; discriminate|intros H; now apply elem_of_nil in H].
  - rewrite elem_of_cons, <- IH.
    destruct (last_write o k) as [v|].
    + split; eauto.
    + destruct (decide (k = k')) as [->|Hne].
      * split; eauto.
      * split; [intros [? ?]; discriminate|].
        intros [?|[? ?]]; [congruence|discriminate].
Qed.

(** Writing to keys that are all in the dict leaves its keys as they are. *)
Lemma dict_keys_update_in d o :
  (forall k, k ∈ map fst o -> k ∈ dict_keys d) ->
  dict_keys (dict_update d o) = dict_keys d.
Proof.
  unfold dict_update. revert d.
  induction o as [|[k' v'] o IH]; intros d H; cbn [fold_left fst snd];
    [reflexivity|].
  assert (Hk : k' ∈ dict_keys d) by (apply H; cbn; apply elem_of_cons; now left).
  rewrite IH; [now apply dict_keys_set_in|].
  intros k Hin. rewrite (dict_keys_set_in _ _ _ Hk).
  apply H. cbn. apply elem_of_cons. now right.
Qed.

(** The keys of a dict after writes: those it had, and those written. *)
Lemma dict_keys_update_elem d o k :
  k ∈ dict_keys (dict_update d o) <-> k ∈ dict_keys d \/ k ∈ map fst o.
Proof.
  rewrite <- !dict_get_is_Some, dict_get_update, <- last_write_is_Some.
  destruct (last_write o k) as [v|].
  - split; eauto.
  - split; [tauto|]. intros [?|[? ?]]; [assumption|discriminate].
Qed.

Lemma dict_keys_set_nodup k v d :
  NoDup (dict_keys d) -> NoDup (dict_keys (dict_set k v d)).
Proof.
  intros H. destruct (decide (k ∈ dict_keys d)) as [Hin|Hnin].
  - now rewrite dict_keys_set_in.
  - rewrite dict_keys_set_notin by assumption.
    apply NoDup_app. split; [assumption|]. split.
    + intros x Hx Hx'. apply list_elem_of_singleton in Hx'. congruence.
    + apply NoDup_singleton.
Qed.

Lemma dict_keys_update_nodup d o :
  NoDup (dict_keys d) -> NoDup (dict_keys (dict_update d o)).
Proof.
  unfold dict_update. revert d.
  induction o as [|[k' v'] o IH]; intros d H; cbn [fold_left fst snd];
    [assumption|].
  apply IH. now apply dict_keys_set_nodup.
Qed.

(** In a dict the first entry of a key is its only one. *)
Lemma last_write_dict d k :
  NoDup (dict_keys d) -> last_write d k = dict_get d k.
Proof.
  induction d as [|[k' v'] d IH]; cbn; [reflexivity|].
  intros H. apply NoDup_cons in H as [Hnin H]. rewrite (IH H).
  destruct (decide (k = k')) as [->|Hne].
  - destruct (dict_get d k') as [v|] eqn:Hg; [|reflexivity].
    exfalso. apply Hnin, dict_get_is_Some. rewrite Hg. eauto.
  - now destruct (dict_get d k).
Qed.

(** Two lists zipped with the same keys have their last writes at the same
    place. *)
Lemma last_write_zip {A B : Type} (ks : list key) : forall (xs : list A) (ys : list B) k,
  length xs = length ks -> length ys = length ks ->
  match last_write (zip ks xs) k, last_write (zip ks ys) k with
  | Some x, Some y => exists i, xs !! i = Some x /\ ys !! i = Some y
  | None, None => True
  | _, _ => False
  end.
Proof.
  induction ks as [|k0 ks IH]; intros [|x xs] [|y ys] k Hx Hy;
    try discriminate; cbn; [exact I|].
  injection Hx as Hx. injection Hy as Hy.
  specialize (IH xs ys k Hx Hy).
  destruct (last_write (zip ks xs) k), (last_write (zip ks ys) k);
    try contradiction.
  - destruct IH as (i & H1 & H2). now exists (S i).
  - destruct (decide (k = k0)); [|exact I]. now exists 0.
Qed.

End Dict.

(** ** Views and installed plans *)

Lemma zone_view_app h ext r v :
  zone_view h r = Some v -> zone_view (h ++ ext) r = Some v.
Proof.
  unfold zone_view. intros H.
  destruct (h !! r) as [[a|z]|] eqn:Hr; try discriminate.
  rewrite (lookup_app_l_Some _ _ _ _ Hr).
  destruct (h !! zone_area z) as [[a|z']|] eqn:Ha; try discriminate.
  now rewrite (lookup_app_l_Some _ _ _ _ Ha).
Qed.

Lemma zone_views_app h ext rs vs :
  zone_views h rs = Some vs -> zone_views (h ++ ext) rs = Some vs.
Proof.
  revert vs. induction rs as [|r rs IH]; intros vs; cbn; [trivial|].
  destruct (zone_view h r) as [v|] eqn:Hv; [|discriminate].
  destruct (zone_views h rs) as [vs'|]; [|discriminate].
  intros H. now rewrite (zone_view_app _ ext _ _ Hv), (IH _ eq_refl).
Qed.

Lemma area_view_app h ext r v :
  area_view h r = Some v -> area_view (h ++ ext) r = Some v.
Proof.
  unfold area_view. intros H.
  destruct (h !! r) as [[a|z]|] eqn:Hr; try discriminate.
  rewrite (lookup_app_l_Some _ _ _ _ Hr).
  destruct (zone_views h (area_zones a)) as [vs|] eqn:Hz; [|discriminate].
  now rewrite (zone_views_app _ ext _ _ Hz).
Qed.

Lemma zone_views_seq {A} (g : A -> pyval * pyval * pyval) h (l : list A) : forall b,
  (forall i z, l !! i = Some z -> zone_view h (b + i) = Some (g z)) ->
  zone_views h (seq b (length l)) = Some (map g l).
Proof.
  induction l as [|z l IH]; intros b H; cbn; [reflexivity|].
  pose proof (H 0 z eq_refl) as H0. rewrite Nat.add_0_r in H0. rewrite H0.
  rewrite (IH (S b)); [reflexivity|].
  intros i z' Hi. replace (S b + i) with (b + S i) by lia. now apply H.
Qed.

(** The zones of a plan installed behind [h], as the store shows them. *)
Lemma plan_zone_view h p i z :
  ap_zones p !! i = Some z ->
  zone_view (h ++ plan_objs (length h) p) (S (length h) + i) =
  Some (fst z, snd z, ap_id p).
Proof.
  intros Hi. unfold zone_view, plan_objs.
  rewrite lookup_behind, Hi. cbn.
  now rewrite list_lookup_middle.
Qed.

Lemma plan_area_view_installed h p :
  area_view (h ++ plan_objs (length h) p) (length h) = Some (plan_area_view p).
Proof.
  unfold area_view. unfold plan_objs at 1.
  rewrite list_lookup_middle by reflexivity. cbn [area_zones area_id area_state].
  fold (plan_objs (length h) p).
  rewrite (zone_views_seq (fun z => (fst z, snd z, ap_id p))); [reflexivity|].
  intros i z Hi. now apply plan_zone_view.
Qed.

Lemma install_all_heap ps : forall w,
  exists ext, heap (install_all ps w) = heap w ++ ext.
Proof.
  induction ps as [|p ps IH]; intros w; cbn [install_all].
  - exists []. now rewrite app_nil_r.
  - destruct (IH (install p w)) as (ext & ->). cbn [install heap].
    eexists. now rewrite <- app_assoc.
Qed.

Lemma install_areas_get p w k :
  dict_get (_areas (gw (install p w))) k =
  if decide (k = ap_key p) then Some (length (heap w))
  else dict_get (_areas (gw w)) k.
Proof. cbn. apply dict_get_set. Qed.

Lemma install_zones_get p w k :
  dict_get (_zones (gw (install p w))) k =
  match last_write (zip (ap_zone_keys p)
                      (seq (S (length (heap w))) (length (ap_zone_keys p)))) k with
  | Some r => Some r
  | None => dict_get (_zones (gw w)) k
  end.
Proof.
  cbn. rewrite dict_get_update. unfold plan_zone_dict.
  rewrite last_write_dict by (apply dict_keys_update_nodup; constructor).
  rewrite dict_get_update. cbn [dict_get].
  now destruct (last_write _ k).
Qed.

Lemma last_plan_cons p ps k :
  last_plan (p :: ps) k =
  match last_plan ps k with
  | Some q => Some q
  | None => if decide (k = ap_key p) then Some p else None
  end.
Proof. reflexivity. Qed.

Lemma last_zone_cons p ps k :
  last_zone (p :: ps) k =
  match last_zone ps k with
  | Some v => Some v
  | None => last_write (zip (ap_zone_keys p) (plan_zone_views p)) k
  end.
Proof. unfold last_zone. cbn [map concat]. apply last_write_app. Qed.

(** After the plans [ps] are installed, the area registry holds under each
    key of [ps] a reference made by this installation, to an area that
    reads as the last plan of that key; all other keys are as they were. *)
Lemma install_all_areas ps : forall w k,
  match last_plan ps k with
  | Some p =>
      exists r,
        dict_get (_areas (gw (install_all ps w))) k = Some r /\
        length (heap w) <= r /\
        area_view (heap (install_all ps w)) r = Some (plan_area_view p)
  | None =>
      dict_get (_areas (gw (install_all ps w))) k = dict_get (_areas (gw w)) k
  end.
Proof.
  induction ps as [|p ps IH]; intros w k; [reflexivity|].
  cbn [install_all]. rewrite last_plan_cons.
  specialize (IH (install p w) k).
  destruct (last_plan ps k) as [q|].
  - destruct IH as (r & Hr & Hle & Hv). exists r. repeat split; try assumption.
    cbn [install heap] in Hle. rewrite length_app in Hle. lia.
  - rewrite IH, install_areas_get.
    destruct (decide (k = ap_key p)); [|reflexivity].
    eexists. repeat split; [reflexivity|].
    destruct (install_all_heap ps (install p w)) as (ext & ->).
    apply area_view_app. cbn [install heap]. apply plan_area_view_installed.
Qed.

(** The same of the zone registry. *)
Lemma install_all_zones ps : forall w k,
  Forall (fun p => length (ap_zone_keys p) = length (ap_zones p)) ps ->
  match last_zone ps k with
  | Some v =>
      exists r,
        dict_get (_zones (gw (install_all ps w))) k = Some r /\
        length (heap w) <= r /\
        zone_view (heap (install_all ps w)) r = Some v
  | None =>
      dict_get (_zones (gw (install_all ps w))) k = dict_get (_zones (gw w)) k
  end.
Proof.
  induction ps as [|p ps IH]; intros w k Hwf; [reflexivity|].
  apply Forall_cons in Hwf as [Hp Hwf].
  cbn [install_all]. rewrite last_zone_cons.
  specialize (IH (install p w) k Hwf).
  destruct (last_zone ps k) as [v|].
  - destruct IH as (r & Hr & Hle & Hv). exists r. repeat split; try assumption.
    cbn [install heap] in Hle. rewrite length_app in Hle. lia.
  - rewrite IH, install_zones_get.
    pose proof (last_write_zip (ap_zone_keys p)
                  (seq (S (length (heap w))) (length (ap_zone_keys p)))
                  (plan_zone_views p) k) as Hz.
    rewrite length_seq in Hz. unfold plan_zone_views in Hz at 1.
    rewrite length_map in Hz. specialize (Hz eq_refl (eq_sym Hp)).
    destruct (last_write (zip (ap_zone_keys p) (seq _ _)) k) as [r|],
             (last_write (zip (ap_zone_keys p) (plan_zone_views p)) k) as [v|];
      try contradiction; [|reflexivity].
    destruct Hz as (i & Hi & Hvi).
    apply lookup_seq in Hi as [-> Hlt].
    exists (S (length (heap w)) + i). repeat split; [lia|].
    destruct (install_all_heap ps (install p w)) as (ext & ->).
    apply zone_view_app. cbn [install heap].
    unfold plan_zone_views in Hvi.
    change (map ?f ?l) with (f <$> l) in Hvi.
    rewrite list_lookup_fmap in Hvi.
    destruct (ap_zones p !! i) as [z|] eqn:Hzi; [|discriminate].
    injection Hvi as <-. now apply plan_zone_view.
Qed.

(** ** The load as a whole *)

Section LoadRun.
Context {E : Entities}.

Lemma install_all_frame ps : forall w,
  net (install_all ps w) = net w /\ sent (install_all ps w) = sent w /\
  logged (install_all ps w) = logged w /\
  scheduled (install_all ps w) = scheduled w /\
  _api_url (gw (install_all ps w)) = _api_url (gw w) /\
  _info (gw (install_all ps w)) = _info (gw w) /\
  _async_callback (gw (install_all ps w)) = _async_callback (gw w).
Proof.
  induction ps as [|p ps IH]; intros w; cbn [install_all]; [tauto|].
  destruct (IH (install p w)) as (-> & -> & -> & -> & -> & -> & ->).
  cbn. tauto.
Qed.

Lemma load_run w :
  match load_outcome w with
  | Ok (info, None) => async_load_parameters w = (Ok false, fetched info w)
  | Ok (info, Some ps) =>
      async_load_parameters w = (Ok true, install_all ps (fetched info w))
  | Raise e => fst (async_load_parameters w) = Raise e
  end.
Proof.
  destruct (async_load_parameters w) as [r w'] eqn:Hrun.
  unfold load_outcome, fetch_all, load_body. rewrite Nat.add_0_r.
  unfold async_load_parameters in Hrun.
  unfold bind at 1 in Hrun. rewrite get_data_run in Hrun. unfold next_body in Hrun.
  destruct (normalize "panel" PNone _) as [info|e]; cbn [rbind];
    [|now injection Hrun as <- _].
  unfold bind at 1, get_gw in Hrun. unfold bind at 1, put_gw in Hrun.
  unfold bind at 1 in Hrun. rewrite get_data_run in Hrun. unfold next_body in Hrun.
  cbn [sent sent_one set_gw gw _api_url set_info net] in Hrun.
  rewrite length_app in Hrun. cbn [length] in Hrun.
  destruct (normalize "zone" PNone _) as [zones|e]; cbn [rbind];
    [|now injection Hrun as <- _].
  unfold bind at 1 in Hrun. rewrite get_data_run in Hrun. unfold next_body in Hrun.
  cbn [sent sent_one set_gw gw _api_url set_info net] in Hrun.
  rewrite !length_app in Hrun. cbn [length] in Hrun.
  replace (length (sent w) + 1 + 1) with (length (sent w) + 2) in Hrun by lia.
  destruct (normalize "area" PNone _) as [areas|e]; cbn [rbind];
    [|now injection Hrun as <- _].
  cbn [fst snd].
  match type of Hrun with ?f ?w0 = _ =>
    assert (Hw : w0 = fetched info w)
      by (unfold fetched, sent_one, set_gw; cbn; now rewrite <- !app_assoc);
    rewrite Hw in Hrun; clear Hw
  end.
  destruct (negb (truthy zones) || negb (truthy areas)).
  - now injection Hrun as <- <-.
  - destruct (py_iter areas) as [l|e]; cbn [rbind];
      [|now injection Hrun as <- _].
    rewrite bind_lift_Ok in Hrun.
    pose proof (load_areas_run zones l (fetched info w)) as Hl.
    destruct (plan_areas zones l) as [ps|e]; cbn [rbind].
    + rewrite (bind_ok _ _ _ _ _ Hl) in Hrun. now injection Hrun as <- <-.
    + unfold bind in Hrun.
      destruct (load_areas zones l _) as [[[]|e'] w'']; cbn in *; congruence.
Qed.

End LoadRun.

(** ** What plans hold *)

Lemma hash_keys_length ids : forall ks,
  hash_keys ids = Ok ks -> length ks = length ids.
Proof.
  induction ids as [|id ids IH]; intros ks; cbn.
  - now intros [= <-].
  - destruct (hash_key id) as [k|]; cbn; [|discriminate].
    destruct (hash_keys ids) as [ks'|]; cbn; [|discriminate].
    intros [= <-]. cbn. now rewrite (IH ks' eq_refl).
Qed.

Lemma hash_keys_lookup ids : forall ks i k,
  hash_keys ids = Ok ks -> ks !! i = Some k ->
  exists id, ids !! i = Some id /\ hash_key id = Ok k.
Proof.
  induction ids as [|id ids IH]; intros ks i k; cbn.
  - intros [= <-] Hi. discriminate.
  - destruct (hash_key id) as [k0|] eqn:Hk; cbn; [|discriminate].
    destruct (hash_keys ids) as [ks'|]; cbn; [|discriminate].
    intros [= <-] Hi. destruct i as [|i]; cbn in Hi.
    + injection Hi as <-. now exists id.
    + destruct (IH ks' i k eq_refl Hi) as (id' & H1 & H2). now exists id'.
Qed.

Section PlanFacts.
Context {E : Entities}.

Lemma plan_area_inv zones spc_area p :
  plan_area zones spc_area = Ok p -> plan_of zones spc_area p.
Proof.
  unfold plan_area, plan_of.
  destruct (getitem spc_area "id") as [id|] eqn:Hid; cbn; [|discriminate].
  destruct (area_init spc_area) as [st|] eqn:Hst; cbn; [|discriminate].
  destruct (py_iter zones) as [zs|] eqn:Hzs; cbn; [|discriminate].
  destruct (plan_zones spc_area zs) as [zl|] eqn:Hzl; cbn; [|discriminate].
  destruct (hash_key id) as [k|] eqn:Hk; cbn; [|discriminate].
  destruct (hash_keys (map fst zl)) as [ks|] eqn:Hks; cbn; [|discriminate].
  intros [= <-]. cbn. do 4 (split; [first [assumption|reflexivity]|]).
  now exists zs.
Qed.

Lemma plan_areas_inv zones areas : forall ps,
  plan_areas zones areas = Ok ps -> Forall2 (plan_of zones) areas ps.
Proof.
  induction areas as [|a areas IH]; intros ps; cbn.
  - intros [= <-]. constructor.
  - destruct (plan_area zones a) as [p|] eqn:Hp; cbn; [|discriminate].
    destruct (plan_areas zones areas) as [ps'|]; cbn; [|discriminate].
    intros [= <-]. constructor; [now apply plan_area_inv|now apply IH].
Qed.

Lemma plan_of_lengths zones areas ps :
  Forall2 (plan_of zones) areas ps ->
  Forall (fun p => length (ap_zone_keys p) = length (ap_zones p)) ps.
Proof.
  induction 1 as [|a p areas ps (_ & _ & _ & Hks & _) _ IH]; constructor;
    [|exact IH].
  rewrite (hash_keys_length _ _ Hks). apply length_map.
Qed.

End PlanFacts.

Lemma last_plan_is_Some ps k :
  is_Some (last_plan ps k) <-> k ∈ map ap_key ps.
Proof.
  unfold last_plan. rewrite last_write_is_Some, map_map. reflexivity.
Qed.

Lemma last_zone_is_Some ps k :
  Forall (fun p => length (ap_zone_keys p) = length (ap_zones p)) ps ->
  is_Some (last_zone ps k) <-> exists p, p ∈ ps /\ k ∈ ap_zone_keys p.
Proof.
  intros Hwf. unfold last_zone. rewrite last_write_is_Some.
  induction Hwf as [|p ps Hp Hwf IH]; cbn [map concat].
  - split; [intros H; now apply elem_of_nil in H|].
    intros (p & Hp & _). now apply elem_of_nil in Hp.
  - rewrite map_app, elem_of_app, IH.
    assert (Hz : map fst (zip (ap_zone_keys p) (plan_zone_views p)) = ap_zone_keys p).
    { apply fst_zip. unfold plan_zone_views. rewrite length_map. lia. }
    rewrite Hz. split.
    + intros [H|(q & Hq & H)]; [exists p|exists q]; split; try assumption.
      * apply elem_of_cons. now left.
      * apply elem_of_cons. now right.
    + intros (q & Hq & H). apply elem_of_cons in Hq as [->|Hq]; [now left|].
      right. now exists q.
Qed.

(** Installing plans whose keys are all registered leaves the keys of the
    registries, and their order, as they are. *)
Lemma install_all_area_keys ps : forall w,
  (forall p, p ∈ ps -> ap_key p ∈ dict_keys (_areas (gw w))) ->
  dict_keys (_areas (gw (install_all ps w))) = dict_keys (_areas (gw w)).
Proof.
  induction ps as [|p ps IH]; intros w H; cbn [install_all]; [reflexivity|].
  assert (Hk : dict_keys (_areas (gw (install p w))) = dict_keys (_areas (gw w))).
  { cbn. apply dict_keys_set_in, H, elem_of_cons. now left. }
  rewrite IH; [exact Hk|].
  intros q Hq. rewrite Hk. apply H, elem_of_cons. now right.
Qed.

Lemma install_all_zone_keys ps : forall w,
  (forall p k, p ∈ ps -> k ∈ ap_zone_keys p -> k ∈ dict_keys (_zones (gw w))) ->
  dict_keys (_zones (gw (install_all ps w))) = dict_keys (_zones (gw w)).
Proof.
  induction ps as [|p ps IH]; intros w H; cbn [install_all]; [reflexivity|].
  assert (Hk : dict_keys (_zones (gw (install p w))) = dict_keys (_zones (gw w))).
  { cbn. apply dict_keys_update_in. intros k Hin.
    change (map fst ?d) with (dict_keys d) in Hin. unfold plan_zone_dict in Hin.
    apply dict_keys_update_elem in Hin as [Hin|Hin];
      [now apply elem_of_nil in Hin|].
    apply (H p); [apply elem_of_cons; now left|].
    change (map fst ?l) with (l.*1) in Hin.
    rewrite fst_zip in Hin by (rewrite length_seq; lia). exact Hin. }
  rewrite IH; [exact Hk|].
  intros q k Hq Hin. rewrite Hk. apply (H q); [|exact Hin].
  apply elem_of_cons. now right.
Qed.

(** ** Loading twice *)

Lemma area_view_inv h r v :
  area_view h r = Some v ->
  exists a, h !! r = Some (OArea a) /\ area_id a = fst (fst v).
Proof.
  unfold area_view. destruct (h !! r) as [[a|z]|]; try discriminate.
  destruct (zone_views h (area_zones a)); [|discriminate].
  intros [= <-]. now exists a.
Qed.

Lemma zone_view_inv h r v :
  zone_view h r = Some v ->
  exists z, h !! r = Some (OZone z) /\ zone_id z = fst (fst v).
Proof.
  unfold zone_view. destruct (h !! r) as [[a|z]|]; try discriminate.
  destruct (h !! zone_area z) as [[a|z']|]; try discriminate.
  intros [= <-]. now exists z.
Qed.

Lemma area_view_lt h r v : area_view h r = Some v -> r < length h.
Proof.
  intros H. apply area_view_inv in H as (a & Ha & _).
  now apply lookup_lt_Some in Ha.
Qed.

Lemma zone_view_lt h r v : zone_view h r = Some v -> r < length h.
Proof.
  intros H. apply zone_view_inv in H as (z & Hz & _).
  now apply lookup_lt_Some in Hz.
Qed.

(** Plans installed a second time, over what their first installation left:
    every key keeps its place and reads as before; under a key of the plans
    stands a new object, under any other key the object that stood there
    before the first installation. *)
Lemma reinstall_areas ps wa wb :
  (forall k r, dict_get (_areas (gw wa)) k = Some r ->
     is_Some (area_view (heap wa) r)) ->
  _areas (gw wb) = _areas (gw (install_all ps wa)) ->
  heap wb = heap (install_all ps wa) ->
  areas_view (install_all ps wb) = areas_view (install_all ps wa) /\
  (forall k r,
     dict_get (_areas (gw (install_all ps wb))) k = Some r ->
     (length (heap wb) <= r \/
      (r < length (heap wa) /\ dict_get (_areas (gw wa)) k = Some r)) /\
     is_Some (area_view (heap (install_all ps wb)) r)).
Proof.
  intros Hwf Hb Hh.
  destruct (install_all_heap ps wa) as (ea & Hea).
  destruct (install_all_heap ps wb) as (eb & Heb).
  assert (Hold : forall k r, dict_get (_areas (gw wa)) k = Some r ->
            exists v, area_view (heap (install_all ps wa)) r = Some v /\
                      area_view (heap (install_all ps wb)) r = Some v /\
                      r < length (heap wa)).
  { intros k r Hr. destruct (Hwf k r Hr) as [v Hv]. exists v.
    rewrite Heb, Hh, Hea. repeat split.
    - now apply area_view_app.
    - now apply area_view_app, area_view_app.
    - eapply area_view_lt, Hv. }
  assert (Hget : forall k,
    match last_plan ps k with
    | Some p =>
        (exists r, dict_get (_areas (gw (install_all ps wa))) k = Some r /\
                   area_view (heap (install_all ps wa)) r = Some (plan_area_view p)) /\
        (exists r, dict_get (_areas (gw (install_all ps wb))) k = Some r /\
                   length (heap wb) <= r /\
                   area_view (heap (install_all ps wb)) r = Some (plan_area_view p))
    | None =>
        dict_get (_areas (gw (install_all ps wa))) k = dict_get (_areas (gw wa)) k /\
        dict_get (_areas (gw (install_all ps wb))) k = dict_get (_areas (gw wa)) k
    end).
  { intros k. pose proof (install_all_areas ps wa k) as H1.
    pose proof (install_all_areas ps wb k) as H2.
    destruct (last_plan ps k) as [p|].
    - destruct H1 as (r1 & ? & ? & ?). split; eauto.
    - rewrite H2, Hb. now split. }
  assert (Hkeys : dict_keys (_areas (gw (install_all ps wb))) =
                  dict_keys (_areas (gw (install_all ps wa)))).
  { rewrite install_all_area_keys; [now rewrite Hb|].
    intros p Hp. rewrite Hb. apply dict_get_is_Some.
    specialize (Hget (ap_key p)).
    destruct (last_plan ps (ap_key p)) as [q|] eqn:Hq.
    - destruct Hget as [(r & -> & _) _]. eauto.
    - assert (Hs : is_Some (last_plan ps (ap_key p))).
      { apply last_plan_is_Some. apply list_elem_of_In, in_map, list_elem_of_In, Hp. }
      rewrite Hq in Hs. destruct Hs as [? ?]. discriminate. }
  split.
  - unfold areas_view. rewrite Hkeys. apply map_ext. intros k. f_equal.
    specialize (Hget k). destruct (last_plan ps k) as [p|].
    + destruct Hget as [(r1 & -> & ->) (r2 & -> & _ & ->)]. reflexivity.
    + destruct Hget as [-> ->].
      destruct (dict_get (_areas (gw wa)) k) as [r|] eqn:Hr; [|reflexivity].
      destruct (Hold k r Hr) as (v & -> & -> & _). reflexivity.
  - intros k r Hr. specialize (Hget k). destruct (last_plan ps k) as [p|].
    + destruct Hget as [_ (r2 & Hr2 & Hle & Hv)].
      rewrite Hr in Hr2. injection Hr2 as <-.
      split; [now left|]. rewrite Hv. eauto.
    + destruct Hget as [_ Hn]. rewrite Hr in Hn. symmetry in Hn.
      destruct (Hold k r Hn) as (v & _ & Hv & Hlt).
      split; [right; now split|]. rewrite Hv. eauto.
Qed.

Lemma reinstall_zones ps wa wb :
  Forall (fun p => length (ap_zone_keys p) = length (ap_zones p)) ps ->
  (forall k r, dict_get (_zones (gw wa)) k = Some r ->
     is_Some (zone_view (heap wa) r)) ->
  _zones (gw wb) = _zones (gw (install_all ps wa)) ->
  heap wb = heap (install_all ps wa) ->
  zones_view (install_all ps wb) = zones_view (install_all ps wa) /\
  (forall k r,
     dict_get (_zones (gw (install_all ps wb))) k = Some r ->
     (length (heap wb) <= r \/
      (r < length (heap wa) /\ dict_get (_zones (gw wa)) k = Some r)) /\
     is_Some (zone_view (heap (install_all ps wb)) r)).
Proof.
  intros Hlen Hwf Hb Hh.
  destruct (install_all_heap ps wa) as (ea & Hea).
  destruct (install_all_heap ps wb) as (eb & Heb).
  assert (Hold : forall k r, dict_get (_zones (gw wa)) k = Some r ->
            exists v, zone_view (heap (install_all ps wa)) r = Some v /\
                      zone_view (heap (install_all ps wb)) r = Some v /\
                      r < length (heap wa)).
  { intros k r Hr. destruct (Hwf k r Hr) as [v Hv]. exists v.
    rewrite Heb, Hh, Hea. repeat split.
    - now apply zone_view_app.
    - now apply zone_view_app, zone_view_app.
    - eapply zone_view_lt, Hv. }
  assert (Hget : forall k,
    match last_zone ps k with
    | Some v =>
        (exists r, dict_get (_zones (gw (install_all ps wa))) k = Some r /\
                   zone_view (heap (install_all ps wa)) r = Some v) /\
        (exists r, dict_get (_zones (gw (install_all ps wb))) k = Some r /\
                   length (heap wb) <= r /\
                   zone_view (heap (install_all ps wb)) r = Some v)
    | None =>
        dict_get (_zones (gw (install_all ps wa))) k = dict_get (_zones (gw wa)) k /\
        dict_get (_zones (gw (install_all ps wb))) k = dict_get (_zones (gw wa)) k
    end).
  { intros k. pose proof (install_all_zones ps wa k Hlen) as H1.
    pose proof (install_all_zones ps wb k Hlen) as H2.
    destruct (last_zone ps k) as [v|].
    - destruct H1 as (r1 & ? & ? & ?). split; eauto.
    - rewrite H2, Hb. now split. }
  assert (Hkeys : dict_keys (_zones (gw (install_all ps wb))) =
                  dict_keys (_zones (gw (install_all ps wa)))).
  { rewrite install_all_zone_keys; [now rewrite Hb|].
    intros p k Hp Hk. rewrite Hb. apply dict_get_is_Some.
    specialize (Hget k).
    destruct (last_zone ps k) as [v|] eqn:Hq.
    - destruct Hget as [(r & -> & _) _]. eauto.
    - assert (Hs : is_Some (last_zone ps k))
        by (apply last_zone_is_Some; eauto).
      rewrite Hq in Hs. destruct Hs as [? ?]. discriminate. }
  split.
  - unfold zones_view. rewrite Hkeys. apply map_ext. intros k. f_equal.
    specialize (Hget k). destruct (last_zone ps k) as [v|].
    + destruct Hget as [(r1 & -> & ->) (r2 & -> & _ & ->)]. reflexivity.
    + destruct Hget as [-> ->].
      destruct (dict_get (_zones (gw wa)) k) as [r|] eqn:Hr; [|reflexivity].
      destruct (Hold k r Hr) as (v & -> & -> & _). reflexivity.
  - intros k r Hr. specialize (Hget k). destruct (last_zone ps k) as [v|].
    + destruct Hget as [_ (r2 & Hr2 & Hle & Hv)].
      rewrite Hr in Hr2. injection Hr2 as <-.
      split; [now left|]. rewrite Hv. eauto.
    + destruct Hget as [_ Hn]. rewrite Hr in Hn. symmetry in Hn.
      destruct (Hold k r Hn) as (v & _ & Hv & Hlt).
      split; [right; now split|]. rewrite Hv. eauto.
Qed.

Section LoadTwice.
Context {E : Entities}.

Lemma load_outcome_again w w' :
  net w' = net w ->
  _api_url (gw w') = _api_url (gw w) ->
  length (sent w') = length (sent w) + 3 ->
  load_body 3 "panel" w = load_body 0 "panel" w ->
  load_body 4 "zone" w = load_body 1 "zone" w ->
  load_body 5 "area" w = load_body 2 "area" w ->
  load_outcome w' = load_outcome w.
Proof.
  intros Hn Hu Hs H0 H1 H2.
  assert (Hb : forall i resource,
            load_body i resource w' = load_body (3 + i) resource w).
  { intros i resource. unfold load_body. rewrite Hn, Hu, Hs.
    f_equal. lia. }
  unfold load_outcome, fetch_all. rewrite !Hb. cbn [Nat.add].
  now rewrite H0, H1, H2.
Qed.

(** C9: a second load that is answered as the first was ends as the first
    did, and leaves registries with the same keys in the same order, each
    entity reading as after the first load (id, snapshot, and for an area the
    zones it owns, for a zone the area it refers to).  Every registered
    entity is then an object the second load made, or one that was
    registered before the first load and that neither load replaced: none is
    an object the first load made.  So from registries that were empty
    before the first load, all entities are new objects. *)
Theorem load_twice_same_registry w0 b w1 r2 w2 :
  registry_resolves w0 ->
  load_body 3 "panel" w0 = load_body 0 "panel" w0 ->
  load_body 4 "zone" w0 = load_body 1 "zone" w0 ->
  load_body 5 "area" w0 = load_body 2 "area" w0 ->
  async_load_parameters w0 = (Ok b, w1) ->
  async_load_parameters w1 = (r2, w2) ->
  r2 = Ok b /\
  _info (gw w2) = _info (gw w1) /\
  areas_view w2 = areas_view w1 /\
  zones_view w2 = zones_view w1 /\
  (forall k r, dict_get (_areas (gw w2)) k = Some r ->
     (length (heap w1) <= r \/
      (r < length (heap w0) /\ dict_get (_areas (gw w0)) k = Some r)) /\
     is_Some (area_view (heap w2) r)) /\
  (forall k r, dict_get (_zones (gw w2)) k = Some r ->
     (length (heap w1) <= r \/
      (r < length (heap w0) /\ dict_get (_zones (gw w0)) k = Some r)) /\
     is_Some (zone_view (heap w2) r)) /\
  (_areas (gw w0) = [] ->
   forall k r, dict_get (_areas (gw w2)) k = Some r -> length (heap w1) <= r) /\
  (_zones (gw w0) = [] ->
   forall k r, dict_get (_zones (gw w2)) k = Some r -> length (heap w1) <= r).
Proof.
  intros [Hwa Hwz] H0 H1 H2 Hrun1 Hrun2.
  pose proof (load_run w0) as L0. rewrite Hrun1 in L0.
  pose proof (load_run w1) as L1. rewrite Hrun2 in L1.
  assert (Hmain :
    r2 = Ok b /\ _info (gw w2) = _info (gw w1) /\
    areas_view w2 = areas_view w1 /\ zones_view w2 = zones_view w1 /\
    (forall k r, dict_get (_areas (gw w2)) k = Some r ->
       (length (heap w1) <= r \/
        (r < length (heap w0) /\ dict_get (_areas (gw w0)) k = Some r)) /\
       is_Some (area_view (heap w2) r)) /\
    (forall k r, dict_get (_zones (gw w2)) k = Some r ->
       (length (heap w1) <= r \/
        (r < length (heap w0) /\ dict_get (_zones (gw w0)) k = Some r)) /\
       is_Some (zone_view (heap w2) r))).
  { destruct (load_outcome w0) as [[info [ps|]]|e] eqn:Hout; [| |discriminate].
    - (* the first load installed [ps] *)
      injection L0 as -> ->.
      set (wa := fetched info w0) in *.
      destruct (install_all_frame ps wa) as (Hn & Hs & _ & _ & Hu & Hi & _).
      rewrite (load_outcome_again w0 (install_all ps wa)), Hout in L1;
        try assumption;
        [|rewrite Hs; unfold wa; cbn; rewrite length_app; reflexivity].
      injection L1 as -> ->.
      set (wb := fetched info (install_all ps wa)).
      destruct (install_all_frame ps wb) as (_ & _ & _ & _ & _ & Hi' & _).
      assert (Hlen : Forall (fun p => length (ap_zone_keys p) = length (ap_zones p)) ps).
      { unfold load_outcome in Hout.
        destruct (fetch_all w0) as [f|]; cbn in Hout; [|discriminate].
        destruct (negb (truthy (snd (fst f))) || negb (truthy (snd f)));
          [discriminate|].
        destruct (py_iter (snd f)) as [l|]; cbn in Hout; [|discriminate].
        destruct (plan_areas (snd (fst f)) l) as [ps'|] eqn:Hps; cbn in Hout;
          [|discriminate].
        injection Hout as _ <-.
        eapply plan_of_lengths, plan_areas_inv, Hps. }
      destruct (reinstall_areas ps wa wb Hwa) as [Hav Haf]; [reflexivity..|].
      destruct (reinstall_zones ps wa wb Hlen Hwz) as [Hzv Hzf]; [reflexivity..|].
      split; [reflexivity|]. split; [now rewrite Hi', Hi|].
      split; [exact Hav|]. split; [exact Hzv|]. split; [exact Haf|exact Hzf].
    - (* the first load failed *)
      injection L0 as -> ->.
      rewrite (load_outcome_again w0 (fetched info w0)), Hout in L1;
        try assumption; try reflexivity;
        [|cbn; rewrite length_app; reflexivity].
      injection L1 as -> ->.
      split; [reflexivity|]. split; [reflexivity|].
      split; [reflexivity|]. split; [reflexivity|]. split.
      + intros k r Hr. cbn in Hr. destruct (Hwa k r Hr) as [v Hv].
        split; [right; split; [eapply area_view_lt, Hv|exact Hr]|].
        cbn. rewrite Hv. eauto.
      + intros k r Hr. cbn in Hr. destruct (Hwz k r Hr) as [v Hv].
        split; [right; split; [eapply zone_view_lt, Hv|exact Hr]|].
        cbn. rewrite Hv. eauto. }
  destruct Hmain as (Hr & Hi & Hav & Hzv & Haf & Hzf).
  repeat (split; [assumption|]). split.
  - intros Hempty k r Hk. destruct (Haf k r Hk) as [[Hle|[_ Hold]] _]; [exact Hle|].
    rewrite Hempty in Hold. discriminate.
  - intros Hempty k r Hk. destruct (Hzf k r Hk) as [[Hle|[_ Hold]] _]; [exact Hle|].
    rewrite Hempty in Hold. discriminate.
Qed.

End LoadTwice.

(** ** What a load that succeeds registers *)

Lemma last_write_elem {V} (o : list (key * V)) k v :
  last_write o k = Some v -> (k, v) ∈ o.
Proof.
  induction o as [|[k' v'] o IH]; cbn; [discriminate|].
  destruct (last_write o k) as [v0|].
  - intros [= ->]. apply elem_of_cons. right. now apply IH.
  - destruct (decide (k = k')) as [->|]; [|discriminate].
    intros [= ->]. apply elem_of_cons. now left.
Qed.

Lemma elem_of_concat_map {A B} (f : A -> list B) (l : list A) x :
  x ∈ concat (map f l) -> exists a, a ∈ l /\ x ∈ f a.
Proof.
  induction l as [|a l IH]; cbn; intros H.
  - now apply elem_of_nil in H.
  - apply elem_of_app in H as [H|H].
    + exists a. split; [apply elem_of_cons; now left|exact H].
    + destruct (IH H) as (a' & Ha' & Hx). exists a'. split; [|exact Hx].
      apply elem_of_cons. now right.
Qed.

Lemma hash_keys_elem ids : forall ks id k,
  hash_keys ids = Ok ks -> id ∈ ids -> hash_key id = Ok k -> k ∈ ks.
Proof.
  induction ids as [|id0 ids IH]; intros ks id k; cbn.
  - intros _ H. now apply elem_of_nil in H.
  - destruct (hash_key id0) as [k0|] eqn:Hk0; cbn; [|discriminate].
    destruct (hash_keys ids) as [ks'|]; cbn; [|discriminate].
    intros [= <-] Hin Hk. apply elem_of_cons in Hin as [->|Hin].
    + apply elem_of_cons. left. congruence.
    + apply elem_of_cons. right. now apply (IH ks' id k).
Qed.

Section Populate.
Context {E : Entities}.

Lemma plan_zones_ok spc_area ai zl :
  getitem spc_area "id" = Ok ai ->
  forallb wf_zone zl = true ->
  exists zs ks, plan_zones spc_area zl = Ok zs /\ hash_keys (map fst zs) = Ok ks.
Proof.
  intros Hai. induction zl as [|z zl IH]; cbn [forallb plan_zones]; intros Hwf.
  - now exists [], [].
  - apply andb_prop in Hwf as [Hz Hwf].
    destruct (IH Hwf) as (zs & ks & Hzs & Hks).
    unfold wf_zone in Hz.
    apply andb_prop in Hz as [Hz Hst]. apply andb_prop in Hz as [Hza Hid].
    destruct (getitem z "area") as [za|]; [|discriminate]. rewrite Hai. cbn [rbind].
    destruct (py_eq za ai); [|now exists zs, ks].
    destruct (getitem z "id") as [zid|]; [|discriminate]. cbn [rbind] in *.
    destruct (hash_key zid) as [k|] eqn:Hk; [|discriminate].
    destruct (zone_init z) as [st|]; [|discriminate]. rewrite Hzs. cbn [rbind].
    exists ((zid, st) :: zs), (k :: ks). split; [reflexivity|].
    cbn. now rewrite Hk, Hks.
Qed.

Lemma plan_areas_ok zl al :
  forallb wf_zone zl = true -> forallb wf_area al = true ->
  exists ps, plan_areas (PList zl) al = Ok ps.
Proof.
  intros Hz. induction al as [|a al IH]; cbn [forallb plan_areas]; intros Ha.
  - now exists [].
  - apply andb_prop in Ha as [Ha Hal]. destruct (IH Hal) as (ps & ->).
    unfold wf_area in Ha. apply andb_prop in Ha as [Hid Hst].
    unfold plan_area.
    destruct (getitem a "id") as [id|] eqn:Hai; [|discriminate]. cbn [rbind] in *.
    destruct (area_init a) as [st|]; [|discriminate]. cbn [rbind py_iter].
    destruct (plan_zones_ok a id zl Hai Hz) as (zs & ks & -> & Hks).
    destruct (hash_key id) as [k|]; [|discriminate]. cbn [rbind].
    rewrite Hks. cbn [rbind]. eauto.
Qed.

(** A zone of the list whose [area] equals the area's id is among the
    zones the plan keeps. *)
Lemma plan_zones_elem spc_area ai zl : forall zs z za zid,
  getitem spc_area "id" = Ok ai ->
  plan_zones spc_area zl = Ok zs ->
  z ∈ zl -> getitem z "area" = Ok za -> py_eq za ai = true ->
  getitem z "id" = Ok zid ->
  zid ∈ map fst zs.
Proof.
  induction zl as [|z0 zl IH]; intros zs z za zid Hai Hp Hin Hza Heq Hid.
  - now apply elem_of_nil in Hin.
  - cbn [plan_zones] in Hp. rewrite Hai in Hp.
    destruct (getitem z0 "area") as [za0|] eqn:Hza0; cbn [rbind] in Hp;
      [|discriminate].
    apply elem_of_cons in Hin as [->|Hin].
    + rewrite Hza in Hza0. injection Hza0 as <-. rewrite Heq, Hid in Hp.
      cbn [rbind] in Hp.
      destruct (zone_init z0) as [st|]; cbn [rbind] in Hp; [|discriminate].
      destruct (plan_zones spc_area zl) as [zs'|]; cbn [rbind] in Hp;
        [|discriminate].
      injection Hp as <-. cbn. apply elem_of_cons. now left.
    + destruct (py_eq za0 ai).
      * destruct (getitem z0 "id") as [zid0|]; cbn [rbind] in Hp; [|discriminate].
        destruct (zone_init z0) as [st|]; cbn [rbind] in Hp; [|discriminate].
        destruct (plan_zones spc_area zl) as [zs'|] eqn:Hzs; cbn [rbind] in Hp;
          [|discriminate].
        injection Hp as <-. cbn. apply elem_of_cons. right.
        now apply (IH zs' z za zid).
      * now apply (IH zs z za zid).
Qed.

End Populate.

Section LoadClaims.
Context {E : Entities}.

Lemma load_outcome_plans w info zl al ps :
  fetch_all w = Ok (info, PList zl, PList al) ->
  zl <> [] -> al <> [] ->
  plan_areas (PList zl) al = Ok ps ->
  async_load_parameters w = (Ok true, install_all ps (fetched info w)).
Proof.
  intros Hf Hz Ha Hps. pose proof (load_run w) as H.
  unfold load_outcome in H. rewrite Hf in H. cbn [rbind fst snd py_iter] in H.
  destruct zl; [congruence|]. destruct al; [congruence|].
  cbn [truthy negb orb] in H. now rewrite Hps in H.
Qed.

(** C3: when the zone list or the area list of a load comes back empty or
    absent, the load returns [False] and leaves the registries and the store
    as they were, so empty on an initial load; when both are lists, not
    empty, of records a load goes through, it returns [True], every area
    record is registered under its id as an [Area] of that id, and every
    zone record whose [area] is the id of an area record is registered
    under its id as a [Zone] of that id. *)
Theorem load_fails_or_populates w info zones areas :
  fetch_all w = Ok (info, zones, areas) ->
  (truthy zones = false \/ truthy areas = false ->
   async_load_parameters w = (Ok false, fetched info w) /\
   _areas (gw (fetched info w)) = _areas (gw w) /\
   _zones (gw (fetched info w)) = _zones (gw w) /\
   heap (fetched info w) = heap w /\
   (_areas (gw w) = [] -> _zones (gw w) = [] ->
    _areas (gw (snd (async_load_parameters w))) = [] /\
    _zones (gw (snd (async_load_parameters w))) = [])) /\
  (forall zl al,
     zones = PList zl -> areas = PList al -> zl <> [] -> al <> [] ->
     forallb wf_zone zl = true -> forallb wf_area al = true ->
     exists w',
       async_load_parameters w = (Ok true, w') /\
       (forall a id k,
          a ∈ al -> getitem a "id" = Ok id -> hash_key id = Ok k ->
          exists r o,
            dict_get (_areas (gw w')) k = Some r /\
            heap w' !! r = Some (OArea o) /\ hash_key (area_id o) = Ok k) /\
       (forall z a za ai zid k,
          z ∈ zl -> a ∈ al ->
          getitem z "area" = Ok za -> getitem a "id" = Ok ai ->
          py_eq za ai = true ->
          getitem z "id" = Ok zid -> hash_key zid = Ok k ->
          exists r o,
            dict_get (_zones (gw w')) k = Some r /\
            heap w' !! r = Some (OZone o) /\ hash_key (zone_id o) = Ok k)).
Proof.
  intros Hf. split.
  - intros Hfalsy.
    assert (Hrun : async_load_parameters w = (Ok false, fetched info w)).
    { pose proof (load_run w) as H. unfold load_outcome in H.
      rewrite Hf in H. cbn [rbind fst snd] in H.
      assert (Hb : negb (truthy zones) || negb (truthy areas) = true)
        by (destruct Hfalsy as [-> | ->]; cbn; [reflexivity|apply orb_true_r]).
      now rewrite Hb in H. }
    repeat split; try reflexivity; try exact Hrun; rewrite Hrun; assumption.
  - intros zl al -> -> Hzl Hal Hwz Hwa.
    destruct (plan_areas_ok zl al Hwz Hwa) as (ps & Hps).
    exists (install_all ps (fetched info w)).
    split; [now apply (load_outcome_plans w info zl al ps)|].
    pose proof (plan_areas_inv _ _ _ Hps) as Hof.
    pose proof (plan_of_lengths _ _ _ Hof) as Hlen.
    split.
    + intros a id k Ha Hid Hk.
      apply list_elem_of_lookup in Ha as (i & Hi).
      destruct (Forall2_lookup_l _ _ _ _ _ Hof Hi) as (p & Hp & Hpa & _ & Hpk & _).
      assert (ap_id p = id) by congruence. subst id.
      assert (ap_key p = k) by congruence. subst k.
      pose proof (install_all_areas ps (fetched info w) (ap_key p)) as Hin.
      destruct (last_plan ps (ap_key p)) as [q|] eqn:Hq.
      * destruct Hin as (r & Hr & _ & Hv).
        apply area_view_inv in Hv as (o & Ho & Hoid). cbn in Hoid.
        exists r, o. repeat split; try assumption.
        apply last_write_elem in Hq.
        apply list_elem_of_In, in_map_iff in Hq as (q' & [= Hkq ->] & Hq').
        apply list_elem_of_In, list_elem_of_lookup in Hq' as (j & Hj).
        destruct (Forall2_lookup_r _ _ _ _ _ Hof Hj) as (a' & _ & _ & _ & Hqk & _).
        rewrite Hoid, Hqk. now rewrite Hkq.
      * assert (Hs : is_Some (last_plan ps (ap_key p))).
        { apply last_plan_is_Some. apply list_elem_of_In, in_map, list_elem_of_In.
          eapply list_elem_of_lookup_2, Hp. }
        rewrite Hq in Hs. destruct Hs as [? ?]. discriminate.
    + intros z a za ai zid k Hz Ha Hza Hai Heq Hzid Hk.
      apply list_elem_of_lookup in Ha as (i & Hi).
      destruct (Forall2_lookup_l _ _ _ _ _ Hof Hi)
        as (p & Hp & _ & _ & _ & Hpks & zs & Hzs & Hpz).
      injection Hzs as <-.
      pose proof (plan_zones_elem a ai zl _ z za zid Hai Hpz Hz Hza Heq Hzid) as Hzin.
      pose proof (hash_keys_elem _ _ _ _ Hpks Hzin Hk) as Hkin.
      pose proof (install_all_zones ps (fetched info w) k Hlen) as Hin.
      destruct (last_zone ps k) as [v|] eqn:Hq.
      * destruct Hin as (r & Hr & _ & Hv).
        apply zone_view_inv in Hv as (o & Ho & Hoid).
        exists r, o. repeat split; try assumption.
        apply last_write_elem, elem_of_concat_map in Hq as (q & Hq & Hkv).
        apply list_elem_of_lookup in Hkv as (j & Hj).
        apply lookup_zip_with_Some in Hj as (k' & v' & [= <- <-] & Hjk & Hjv).
        apply list_elem_of_lookup in Hq as (m & Hm).
        destruct (Forall2_lookup_r _ _ _ _ _ Hof Hm) as (a' & _ & _ & _ & _ & Hqks & _).
        destruct (hash_keys_lookup _ _ _ _ Hqks Hjk) as (id' & Hid' & Hkid').
        unfold plan_zone_views in Hjv.
        change (map ?f ?l) with (f <$> l) in Hjv.
        change (map ?f ?l) with (f <$> l) in Hid'.
        rewrite list_lookup_fmap in Hjv. rewrite list_lookup_fmap in Hid'.
        destruct (ap_zones q !! j) as [z'|]; [|discriminate].
        injection Hjv as <-. injection Hid' as <-. cbn in Hoid.
        now rewrite Hoid.
      * assert (Hs : is_Some (last_zone ps k)).
        { apply last_zone_is_Some; [exact Hlen|]. exists p. split; [|exact Hkin].
          eapply list_elem_of_lookup_2, Hp. }
        rewrite Hq in Hs. destruct Hs as [? ?]. discriminate.
Qed.

End LoadClaims.

(** C8: a first load that receives zones 1 and 2 of area 10 and area 10
    registers exactly one area, under 10, and the two zones, under 1 and 2;
    the area object owns exactly the two zone objects the zone registry
    holds, in that order, and each of them refers back to the area object. *)
Theorem load_round_trip {E : Entities} w info sa s1 s2 :
  _areas (gw w) = [] -> _zones (gw w) = [] ->
  fetch_all w = Ok (info, PList [zone_1; zone_2], PList [area_10]) ->
  area_init area_10 = Ok sa ->
  zone_init zone_1 = Ok s1 -> zone_init zone_2 = Ok s2 ->
  exists w',
    async_load_parameters w = (Ok true, w') /\
    _areas (gw w') = [(KInt 10, length (heap w))] /\
    _zones (gw w') = [(KInt 1, S (length (heap w)));
                      (KInt 2, S (S (length (heap w))))] /\
    heap w' = heap w ++
      [OArea (mkArea (PInt 10) sa [S (length (heap w)); S (S (length (heap w)))]);
       OZone (mkZone (PInt 1) s1 (length (heap w)));
       OZone (mkZone (PInt 2) s2 (length (heap w)))].
Proof.
  intros Ha Hz Hf Hsa Hs1 Hs2.
  assert (Hps : plan_areas (PList [zone_1; zone_2]) [area_10] =
                Ok [mkAreaPlan (PInt 10) sa [(PInt 1, s1); (PInt 2, s2)]
                      (KInt 10) [KInt 1; KInt 2]]).
  { cbn [plan_areas]. unfold plan_area. cbn [getitem area_10 assoc String.eqb
      Ascii.eqb Bool.eqb rbind]. rewrite Hsa. cbn [rbind py_iter plan_zones].
    change (getitem zone_1 "area") with (Ok (PInt 10)).
    change (getitem zone_2 "area") with (Ok (PInt 10)).
    change (getitem zone_1 "id") with (Ok (PInt 1)).
    change (getitem zone_2 "id") with (Ok (PInt 2)).
    change (getitem area_10 "id") with (Ok (PInt 10)).
    cbn [rbind py_eq Z.eqb Pos.eqb]. rewrite Hs1, Hs2. reflexivity. }
  eexists. split.
  { eapply load_outcome_plans; [exact Hf|discriminate|discriminate|exact Hps]. }
  cbn [install_all install gw heap fetched set_info set_areas set_zones
       _areas _zones ap_key ap_zone_keys ap_zones ap_id ap_state].
  rewrite Ha, Hz. repeat split.
Qed.

Lemma load_round_trip_witness :
  exists w',
    @async_load_parameters sample_entities unloaded_world = (Ok true, w') /\
    _areas (gw w') = [(KInt 10, 0)] /\
    _zones (gw w') = [(KInt 1, 1); (KInt 2, 2)] /\
    heap w' = [OArea (mkArea (PInt 10) area_10 [1; 2]);
               OZone (mkZone (PInt 1) zone_1 0);
               OZone (mkZone (PInt 2) zone_2 0)].
Proof.
  exact (@load_round_trip sample_entities unloaded_world
           (PDict [("type", PStr "SPC")]) area_10 zone_1 zone_2
           eq_refl eq_refl eq_refl eq_refl eq_refl eq_refl).
Defined.

Lemma load_fails_or_populates_witness :
  @async_load_parameters sample_entities
    (fresh_world None (load_answer (PList []) (PList [area_10])))
  = (Ok false,
     fetched (PDict [("type", PStr "SPC")])
       (fresh_world None (load_answer (PList []) (PList [area_10])))) /\
  exists w',
    @async_load_parameters sample_entities unloaded_world = (Ok true, w') /\
    (exists r o, dict_get (_areas (gw w')) (KInt 10) = Some r /\
                 heap w' !! r = Some (OArea o) /\
                 hash_key (area_id o) = Ok (KInt 10)) /\
    (exists r o, dict_get (_zones (gw w')) (KInt 2) = Some r /\
                 heap w' !! r = Some (OZone o) /\
                 hash_key (zone_id o) = Ok (KInt 2)).
Proof.
  split.
  - apply (proj1 (@load_fails_or_populates sample_entities
                    (fresh_world None (load_answer (PList []) (PList [area_10])))
                    (PDict [("type", PStr "SPC")]) (PList []) (PList [area_10])
                    eq_refl)).
    now left.
  - destruct (proj2 (@load_fails_or_populates sample_entities unloaded_world
                       (PDict [("type", PStr "SPC")])
                       (PList [zone_1; zone_2]) (PList [area_10]) eq_refl)
                [zone_1; zone_2] [area_10] eq_refl eq_refl)
      as (w' & Hrun & Hareas & Hzones); try discriminate; try reflexivity.
    exists w'. split; [exact Hrun|]. split.
    + apply (Hareas area_10 (PInt 10)); [|reflexivity|reflexivity].
      apply elem_of_cons. now left.
    + apply (Hzones zone_2 area_10 (PInt 10) (PInt 10) (PInt 2));
        try reflexivity.
      * apply elem_of_cons. right. apply elem_of_cons. now left.
      * apply elem_of_cons. now left.
Defined.

Lemma load_twice_same_registry_witness :
  areas_view loaded_twice = areas_view loaded_once /\
  zones_view loaded_twice = zones_view loaded_once /\
  dict_get (_areas (gw loaded_once)) (KInt 10) = Some 0 /\
  dict_get (_areas (gw loaded_twice)) (KInt 10) = Some 3.
Proof.
  destruct (@load_twice_same_registry sample_entities unloaded_world true
              loaded_once (Ok true) loaded_twice)
    as (_ & _ & Ha & Hz & _); try reflexivity.
  - split; intros k r Hr; discriminate.
  - repeat split; assumption || reflexivity.
Defined.

(** ** The areas a load registers are distinct objects *)

Lemma dict_values_set_elem {V} k (v : V) (d : dict V) x :
  x ∈ dict_values (dict_set k v d) -> x = v \/ x ∈ dict_values d.
Proof.
  induction d as [|[k' v'] d IH]; cbn.
  - intros H. apply list_elem_of_singleton in H. now left.
  - destruct (decide (k = k')); cbn; rewrite !elem_of_cons.
    + intros [->|H]; [now left|right; now right].
    + intros [->|H]; [right; now left|].
      destruct (IH H) as [->|H']; [now left|right; now right].
Qed.

Lemma dict_values_set_nodup {V} k (v : V) (d : dict V) :
  v ∉ dict_values d -> NoDup (dict_values d) ->
  NoDup (dict_values (dict_set k v d)).
Proof.
  induction d as [|[k' v'] d IH]; cbn; intros Hv Hnd.
  - apply NoDup_singleton.
  - apply not_elem_of_cons in Hv as [Hne Hv].
    apply NoDup_cons in Hnd as [Hv' Hnd].
    destruct (decide (k = k')); cbn; apply NoDup_cons.
    + split; assumption.
    + split; [|now apply IH].
      intros Hin. apply dict_values_set_elem in Hin as [->|Hin];
        [congruence|contradiction].
Qed.

(** Installing plans keeps the area references distinct and inside the
    store: each plan registers the address it allocates. *)
Lemma install_all_distinct_areas ps : forall w,
  (forall r, r ∈ dict_values (_areas (gw w)) -> r < length (heap w)) ->
  NoDup (dict_values (_areas (gw w))) ->
  NoDup (dict_values (_areas (gw (install_all ps w)))).
Proof.
  induction ps as [|p ps IH]; intros w Hlt Hnd; cbn [install_all]; [exact Hnd|].
  apply IH.
  - intros r Hr. cbn in Hr. cbn [install heap]. rewrite length_app.
    apply dict_values_set_elem in Hr as [->|Hr]; [cbn; lia|].
    specialize (Hlt r Hr). lia.
  - cbn. apply dict_values_set_nodup; [|exact Hnd].
    intros Hin. specialize (Hlt _ Hin). lia.
Qed.

(** After a first load that succeeds, no two keys of the area registry
    hold the same object. *)
Theorem load_registers_distinct_areas {E : Entities} w w' :
  _areas (gw w) = [] ->
  async_load_parameters w = (Ok true, w') ->
  NoDup (dict_values (_areas (gw w'))).
Proof.
  intros Ha Hrun. pose proof (load_run w) as H. rewrite Hrun in H.
  destruct (load_outcome w) as [[info [ps|]]|e]; [|discriminate|discriminate].
  injection H as ->.
  apply install_all_distinct_areas; cbn; rewrite Ha; cbn.
  - intros r Hr. now apply elem_of_nil in Hr.
  - constructor.
Qed.

Lemma load_registers_distinct_areas_witness :
  dict_values (_areas (gw two_area_loaded)) = [0; 3] /\
  NoDup (dict_values (_areas (gw two_area_loaded))).
Proof.
  split; [reflexivity|].
  apply (@load_registers_distinct_areas sample_entities two_area_world
           two_area_loaded).
  - reflexivity.
  - vm_compute. reflexivity.
Defined.

(** ** More on dictionaries *)

Section DictMore.
Context {V : Type}.
Implicit Types (d o : dict V) (k : key) (v : V).

Lemma dict_keys_set_prefix k v d :
  dict_keys d `prefix_of` dict_keys (dict_set k v d).
Proof.
  destruct (decide (k ∈ dict_keys d)) as [Hin|Hnin].
  - now rewrite dict_keys_set_in.
  - rewrite dict_keys_set_notin by assumption. now apply prefix_app_r.
Qed.

Lemma dict_keys_update_prefix d o :
  dict_keys d `prefix_of` dict_keys (dict_update d o).
Proof.
  unfold dict_update. revert d.
  induction o as [|[k' v'] o IH]; intros d; cbn [fold_left fst snd];
    [reflexivity|].
  etransitivity; [apply (dict_keys_set_prefix k' v')|apply IH].
Qed.

Lemma dict_get_values d k v : dict_get d k = Some v -> v ∈ dict_values d.
Proof.
  induction d as [|[k' v'] d IH]; cbn; [discriminate|].
  destruct (decide (k = k')).
  - intros [= ->]. apply elem_of_cons. now left.
  - intros H. apply elem_of_cons. right. now apply IH.
Qed.

End DictMore.

Lemma install_all_keys_prefix ps : forall w,
  dict_keys (_areas (gw w)) `prefix_of` dict_keys (_areas (gw (install_all ps w))) /\
  dict_keys (_zones (gw w)) `prefix_of` dict_keys (_zones (gw (install_all ps w))).
Proof.
  induction ps as [|p ps IH]; intros w; cbn [install_all]; [split; reflexivity|].
  destruct (IH (install p w)) as [Ha Hz]. split.
  - etransitivity; [|exact Ha]. cbn. apply dict_keys_set_prefix.
  - etransitivity; [|exact Hz]. cbn. apply dict_keys_update_prefix.
Qed.

(** ** More on the load *)

Section LoadMore.
Context {E : Entities}.

Lemma load_ok_inv w b w' :
  async_load_parameters w = (Ok b, w') ->
  exists i zs ars,
    fetch_all w = Ok (i, zs, ars) /\
    if b then
      exists al ps,
        truthy zs = true /\ truthy ars = true /\ py_iter ars = Ok al /\
        plan_areas zs al = Ok ps /\ w' = install_all ps (fetched i w)
    else (truthy zs = false \/ truthy ars = false) /\ w' = fetched i w.
Proof.
  intros Hrun. pose proof (load_run w) as H. rewrite Hrun in H.
  unfold load_outcome in H.
  destruct (fetch_all w) as [[[i zs] ars]|e]; cbn [rbind fst snd] in H;
    [|discriminate].
  exists i, zs, ars. split; [reflexivity|].
  destruct (truthy zs) eqn:Hz, (truthy ars) eqn:Ha; cbn [negb orb] in H;
    try (injection H as -> ->; split; [tauto|reflexivity]).
  destruct (py_iter ars) as [al|e]; cbn [rbind] in H; [|discriminate].
  destruct (plan_areas zs al) as [ps|e] eqn:Hps; cbn [rbind] in H; [|discriminate].
  injection H as -> ->. exists al, ps. repeat split. exact Hps.
Qed.

(** Every zone a plan keeps comes from a record of the list whose [area]
    equals the area's id. *)
Lemma plan_zones_sound spc_area zl : forall zs id st,
  plan_zones spc_area zl = Ok zs -> (id, st) ∈ zs ->
  exists z za ai,
    z ∈ zl /\ getitem z "area" = Ok za /\ getitem spc_area "id" = Ok ai /\
    py_eq za ai = true /\ getitem z "id" = Ok id /\ zone_init z = Ok st.
Proof.
  induction zl as [|z0 zl IH]; intros zs id st Hp Hin.
  - injection Hp as <-. now apply elem_of_nil in Hin.
  - cbn [plan_zones] in Hp.
    destruct (getitem z0 "area") as [za0|] eqn:Hza0; cbn [rbind] in Hp;
      [|discriminate].
    destruct (getitem spc_area "id") as [ai|] eqn:Hai; cbn [rbind] in Hp;
      [|discriminate].
    assert (Hrest : forall zs', plan_zones spc_area zl = Ok zs' -> (id, st) ∈ zs' ->
              exists z za ai0,
                z ∈ z0 :: zl /\ getitem z "area" = Ok za /\ Ok ai = Ok ai0 /\
                py_eq za ai0 = true /\ getitem z "id" = Ok id /\ zone_init z = Ok st).
    { intros zs' Hzs' Hin'. destruct (IH zs' id st Hzs' Hin')
        as (z & za & ai0 & Hz & H1 & H2 & H3 & H4 & H5).
      exists z, za, ai0. repeat split; try assumption.
      apply elem_of_cons. now right. }
    destruct (py_eq za0 ai) eqn:Heq; [|now apply (Hrest zs)].
    destruct (getitem z0 "id") as [zid0|] eqn:Hid0; cbn [rbind] in Hp; [|discriminate].
    destruct (zone_init z0) as [st0|] eqn:Hst0; cbn [rbind] in Hp; [|discriminate].
    destruct (plan_zones spc_area zl) as [zs'|] eqn:Hzs; cbn [rbind] in Hp;
      [|discriminate].
    injection Hp as <-. apply elem_of_cons in Hin as [[= -> ->]|Hin].
    + exists z0, za0, ai. repeat split; try assumption.
      apply elem_of_cons. now left.
    + now apply (Hrest zs').
Qed.

(** The keys of installed plans are the hashes of the ids of area records,
    and of zone records that belong to them. *)
Lemma plan_key_record zs al ps p :
  Forall2 (plan_of zs) al ps -> p ∈ ps ->
  exists a, a ∈ al /\ plan_of zs a p.
Proof.
  intros Hof Hp. apply list_elem_of_lookup in Hp as (i & Hi).
  destruct (Forall2_lookup_r _ _ _ _ _ Hof Hi) as (a & Ha & Hpa).
  exists a. split; [eapply list_elem_of_lookup_2, Ha|exact Hpa].
Qed.

Lemma plan_zone_key_record zs al ps p k :
  Forall2 (plan_of zs) al ps -> p ∈ ps -> k ∈ ap_zone_keys p ->
  exists zl z a za ai zid,
    py_iter zs = Ok zl /\ z ∈ zl /\ a ∈ al /\
    getitem z "area" = Ok za /\ getitem a "id" = Ok ai /\
    py_eq za ai = true /\ getitem z "id" = Ok zid /\ hash_key zid = Ok k.
Proof.
  intros Hof Hp Hk.
  destruct (plan_key_record _ _ _ _ Hof Hp) as (a & Ha & _ & _ & _ & Hks & zl & Hzl & Hpz).
  apply list_elem_of_lookup in Hk as (j & Hj).
  destruct (hash_keys_lookup _ _ _ _ Hks Hj) as (zid & Hzid & Hkz).
  change (map ?f ?l) with (f <$> l) in Hzid. rewrite list_lookup_fmap in Hzid.
  destruct (ap_zones p !! j) as [[zid' st]|] eqn:Hzj; [|discriminate].
  injection Hzid as <-.
  destruct (plan_zones_sound a zl _ zid' st Hpz (list_elem_of_lookup_2 _ _ _ Hzj))
    as (z & za & ai & Hz & H1 & H2 & H3 & H4 & _).
  exists zl, z, a, za, ai, zid'. repeat split; assumption.
Qed.

Lemma plan_zones_ids spc_area ai zl : forall zs,
  getitem spc_area "id" = Ok ai ->
  plan_zones spc_area zl = Ok zs ->
  map fst zs = zone_ids_of ai zl.
Proof.
  intros zs Hai. revert zs.
  induction zl as [|z zl IH]; intros zs Hp.
  - now injection Hp as <-.
  - cbn [plan_zones] in Hp. rewrite Hai in Hp. cbn [zone_ids_of].
    destruct (getitem z "area") as [za|]; cbn [rbind] in Hp; [|discriminate].
    destruct (py_eq za ai).
    + destruct (getitem z "id") as [zid|]; cbn [rbind] in Hp; [|discriminate].
      destruct (zone_init z) as [st|]; cbn [rbind] in Hp; [|discriminate].
      destruct (plan_zones spc_area zl) as [zs'|]; cbn [rbind] in Hp; [|discriminate].
      injection Hp as <-. cbn. now rewrite (IH zs' eq_refl).
    + destruct (getitem z "id"); now apply IH.
Qed.

(** The plan of the last record of a key is the one the registry shows. *)
Lemma last_record_plan zs al1 a al2 ps id k :
  Forall2 (plan_of zs) (al1 ++ a :: al2) ps ->
  getitem a "id" = Ok id -> hash_key id = Ok k ->
  (forall a' id', a' ∈ al2 -> getitem a' "id" = Ok id' -> hash_key id' <> Ok k) ->
  exists p, plan_of zs a p /\ ap_id p = id /\ last_plan ps k = Some p.
Proof.
  intros Hof Hid Hk Hlast.
  apply Forall2_app_inv_l in Hof as (ps1 & ps2' & Hof1 & Hof2 & ->).
  apply Forall2_cons_inv_l in Hof2 as (p & ps2 & Hp & Hof2 & ->).
  exists p. split; [exact Hp|].
  destruct Hp as (Hpid & Hpst & Hpk & _).
  assert (ap_id p = id) by congruence. subst id.
  assert (ap_key p = k) by congruence. subst k.
  split; [reflexivity|].
  unfold last_plan. rewrite map_app, last_write_app. cbn [map].
  change (last_write ((ap_key p, p) :: map (fun q => (ap_key q, q)) ps2) (ap_key p))
    with (last_plan (p :: ps2) (ap_key p)).
  rewrite last_plan_cons.
  destruct (last_plan ps2 (ap_key p)) as [q|] eqn:Hq.
  - exfalso.
    assert (Hs : ap_key p ∈ map ap_key ps2) by (apply last_plan_is_Some; eauto).
    apply list_elem_of_In, in_map_iff in Hs as (q' & Hkq & Hq').
    apply list_elem_of_In in Hq'.
    destruct (plan_key_record _ _ _ _ Hof2 Hq') as (a' & Ha' & Hid' & _ & Hk' & _).
    apply (Hlast a' (ap_id q') Ha' Hid'). now rewrite Hk', Hkq.
  - now destruct (decide (ap_key p = ap_key p)).
Qed.

End LoadMore.

Section LoadTheorems.
Context {E : Entities}.

(** A load that returns sends three requests, in this order: the panel,
    the zone collection, the area collection; it sends none per area or
    zone, logs nothing and schedules no callback. *)
Theorem load_sends_three_fetches w b w' :
  async_load_parameters w = (Ok b, w') ->
  sent w' = sent w ++
    [mkRequest GET (_api_url (gw w)) "spc/{}" [PStr "panel"];
     mkRequest GET (_api_url (gw w)) "spc/{}" [PStr "zone"];
     mkRequest GET (_api_url (gw w)) "spc/{}" [PStr "area"]] /\
  logged w' = logged w /\ scheduled w' = scheduled w.
Proof.
  intros Hrun. apply load_ok_inv in Hrun as (i & zs & ars & _ & H).
  destruct b.
  - destruct H as (al & ps & _ & _ & _ & _ & ->).
    destruct (install_all_frame ps (fetched i w)) as (_ & -> & -> & -> & _).
    repeat split.
  - destruct H as [_ ->]. repeat split.
Qed.

(** Whether a load returns [True] or [False], [info] is then what the
    panel request returned: the load assigns it before it looks at the
    zones and the areas, and does not test it.  When the panel request
    fails, [info] is [False], whatever the load returns. *)
Theorem load_sets_info w b w' :
  async_load_parameters w = (Ok b, w') ->
  normalize "panel" PNone (load_body 0 "panel" w) = Ok (_info (gw w')) /\
  info w' = (Ok (_info (gw w')), w') /\
  (truthy (load_body 0 "panel" w) = false -> _info (gw w') = PBool false).
Proof.
  intros Hrun. apply load_ok_inv in Hrun as (i & zs & ars & Hf & H).
  assert (Hi : _info (gw w') = i).
  { destruct b.
    - destruct H as (al & ps & _ & _ & _ & _ & ->).
      destruct (install_all_frame ps (fetched i w)) as (_ & _ & _ & _ & _ & -> & _).
      reflexivity.
    - now destruct H as [_ ->]. }
  assert (Hn : normalize "panel" PNone (load_body 0 "panel" w) = Ok i).
  { unfold fetch_all in Hf.
    destruct (normalize "panel" PNone _) as [i'|]; cbn [rbind] in Hf; [|discriminate].
    destruct (normalize "zone" PNone _) as [z'|]; cbn [rbind] in Hf; [|discriminate].
    destruct (normalize "area" PNone _) as [a'|]; cbn [rbind] in Hf; [|discriminate].
    now injection Hf as -> _ _. }
  rewrite Hi. split; [exact Hn|]. split.
  - unfold info, bind, get_gw, ret. now rewrite Hi.
  - intros Hfalsy. rewrite (normalize_falsy _ _ _ Hfalsy) in Hn. now injection Hn as <-.
Qed.

(** A load removes nothing: the keys both registries had keep their
    places, the objects of the store stay, and a key that is the id of no
    fetched record keeps the entity it had. *)
Theorem load_keeps_registered w b w' :
  async_load_parameters w = (Ok b, w') ->
  dict_keys (_areas (gw w)) `prefix_of` dict_keys (_areas (gw w')) /\
  dict_keys (_zones (gw w)) `prefix_of` dict_keys (_zones (gw w')) /\
  heap w `prefix_of` heap w' /\
  (b = false ->
   _areas (gw w') = _areas (gw w) /\ _zones (gw w') = _zones (gw w)) /\
  (forall i zs ars al k,
     fetch_all w = Ok (i, zs, ars) -> py_iter ars = Ok al ->
     (forall a id, a ∈ al -> getitem a "id" = Ok id -> hash_key id <> Ok k) ->
     dict_get (_areas (gw w')) k = dict_get (_areas (gw w)) k) /\
  (forall i zs ars zl k,
     fetch_all w = Ok (i, zs, ars) -> py_iter zs = Ok zl ->
     (forall z id, z ∈ zl -> getitem z "id" = Ok id -> hash_key id <> Ok k) ->
     dict_get (_zones (gw w')) k = dict_get (_zones (gw w)) k).
Proof.
  intros Hrun.
  apply load_ok_inv in Hrun as (i & zs & ars & Hf & H).
  destruct b.
  2: { destruct H as [_ ->]. repeat split; reflexivity. }
  destruct H as (al & ps & _ & _ & Hal & Hps & ->).
  pose proof (plan_areas_inv _ _ _ Hps) as Hof.
  pose proof (plan_of_lengths _ _ _ Hof) as Hlen.
  destruct (install_all_keys_prefix ps (fetched i w)) as [Ha Hz].
  split; [exact Ha|]. split; [exact Hz|]. split.
  { destruct (install_all_heap ps (fetched i w)) as (ext & ->).
    now apply prefix_app_r. }
  split; [discriminate|]. split.
  - intros i' zs' ars' al' k Hf' Hal' Hk.
    rewrite Hf in Hf'. injection Hf' as <- <- <-.
    rewrite Hal in Hal'. injection Hal' as <-.
    pose proof (install_all_areas ps (fetched i w) k) as Hin.
    destruct (last_plan ps k) as [q|] eqn:Hq; [exfalso|exact Hin].
    assert (Hs : k ∈ map ap_key ps) by (apply last_plan_is_Some; rewrite Hq; eauto).
    apply list_elem_of_In, in_map_iff in Hs as (p & <- & Hp).
    apply list_elem_of_In in Hp.
    destruct (plan_key_record _ _ _ _ Hof Hp) as (a & Ha' & Hid & _ & Hk' & _).
    exact (Hk a (ap_id p) Ha' Hid Hk').
  - intros i' zs' ars' zl k Hf' Hzl Hk.
    rewrite Hf in Hf'. injection Hf' as <- <- <-.
    pose proof (install_all_zones ps (fetched i w) k Hlen) as Hin.
    destruct (last_zone ps k) as [v|] eqn:Hq; [exfalso|exact Hin].
    assert (Hs : is_Some (last_zone ps k)) by (rewrite Hq; eauto).
    apply (last_zone_is_Some _ _ Hlen) in Hs as (p & Hp & Hkp).
    destruct (plan_zone_key_record _ _ _ _ _ Hof Hp Hkp)
      as (zl' & z & a & za & ai & zid & Hzl' & Hz' & _ & _ & _ & _ & Hzid & Hkz).
    rewrite Hzl in Hzl'. injection Hzl' as <-.
    exact (Hk z zid Hz' Hzid Hkz).
Qed.

(** After a first load that returns [True], every key of the area
    registry is the id of a fetched area record, and every key of the zone
    registry is the id of a fetched zone record whose [area] equals the id
    of a fetched area record: a zone of no listed area is not registered. *)
Theorem load_registers_only_listed w i zl al w' :
  _areas (gw w) = [] -> _zones (gw w) = [] ->
  fetch_all w = Ok (i, PList zl, PList al) ->
  async_load_parameters w = (Ok true, w') ->
  (forall k, k ∈ dict_keys (_areas (gw w')) ->
     exists a id, a ∈ al /\ getitem a "id" = Ok id /\ hash_key id = Ok k) /\
  (forall k, k ∈ dict_keys (_zones (gw w')) ->
     exists z a za ai zid,
       z ∈ zl /\ a ∈ al /\ getitem z "area" = Ok za /\
       getitem a "id" = Ok ai /\ py_eq za ai = true /\
       getitem z "id" = Ok zid /\ hash_key zid = Ok k).
Proof.
  intros Hea Hez Hf Hrun.
  apply load_ok_inv in Hrun as (i' & zs' & ars' & Hf' & al' & ps & _ & _ & Hal & Hps & ->).
  rewrite Hf in Hf'. injection Hf' as <- <- <-. injection Hal as <-.
  pose proof (plan_areas_inv _ _ _ Hps) as Hof.
  pose proof (plan_of_lengths _ _ _ Hof) as Hlen.
  split.
  - intros k Hk. apply dict_get_is_Some in Hk as [r Hr].
    pose proof (install_all_areas ps (fetched i w) k) as Hin.
    destruct (last_plan ps k) as [q|] eqn:Hq.
    + assert (Hs : k ∈ map ap_key ps) by (apply last_plan_is_Some; rewrite Hq; eauto).
      apply list_elem_of_In, in_map_iff in Hs as (p & <- & Hp).
      apply list_elem_of_In in Hp.
      destruct (plan_key_record _ _ _ _ Hof Hp) as (a & Ha' & Hid & _ & Hk' & _).
      now exists a, (ap_id p).
    + rewrite Hin in Hr. cbn in Hr. rewrite Hea in Hr. discriminate.
  - intros k Hk. apply dict_get_is_Some in Hk as [r Hr].
    pose proof (install_all_zones ps (fetched i w) k Hlen) as Hin.
    destruct (last_zone ps k) as [v|] eqn:Hq.
    + assert (Hs : is_Some (last_zone ps k)) by (rewrite Hq; eauto).
      apply (last_zone_is_Some _ _ Hlen) in Hs as (p & Hp & Hkp).
      destruct (plan_zone_key_record _ _ _ _ _ Hof Hp Hkp)
        as (zl' & z & a & za & ai & zid & Hzl' & H1 & H2 & H3 & H4 & H5 & H6 & H7).
      injection Hzl' as <-.
      now exists z, a, za, ai, zid.
    + rewrite Hin in Hr. cbn in Hr. rewrite Hez in Hr. discriminate.
Qed.

End LoadTheorems.

Lemma zone_owned_app h ext r : zone_owned h r -> zone_owned (h ++ ext) r.
Proof.
  intros (z & a & Hz & Ha & Hin). exists z, a.
  split; [now apply lookup_app_l_Some|]. split; [now apply lookup_app_l_Some|exact Hin].
Qed.

Lemma install_all_zones_owned ps : forall w k r,
  Forall (fun p => length (ap_zone_keys p) = length (ap_zones p)) ps ->
  dict_get (_zones (gw (install_all ps w))) k = Some r ->
  zone_owned (heap (install_all ps w)) r \/ dict_get (_zones (gw w)) k = Some r.
Proof.
  induction ps as [|p ps IH]; intros w k r Hwf Hr; [now right|].
  apply Forall_cons in Hwf as [Hp Hwf]. cbn [install_all] in *.
  destruct (IH (install p w) k r Hwf Hr) as [Ho|Hr']; [now left|].
  rewrite install_zones_get in Hr'.
  destruct (last_write _ k) as [r0|] eqn:Hlw; [|now right].
  injection Hr' as ->. left.
  destruct (install_all_heap ps (install p w)) as (ext & ->).
  apply zone_owned_app. cbn [install heap].
  apply last_write_elem, list_elem_of_lookup in Hlw as (j & Hj).
  apply lookup_zip_with_Some in Hj as (k' & r' & [= <- <-] & _ & Hjr).
  apply lookup_seq in Hjr as [-> Hlt]. rewrite Hp in Hlt.
  destruct (lookup_lt_is_Some_2 _ _ Hlt) as [z Hz].
  unfold zone_owned, plan_objs.
  eexists _, _. split; [|split].
  - rewrite lookup_behind, Hz. reflexivity.
  - cbn [zone_area]. now apply list_lookup_middle.
  - cbn [area_zones]. apply elem_of_seq. lia.
Qed.

Lemma area_view_inv_state h r v :
  area_view h r = Some v ->
  exists a, h !! r = Some (OArea a) /\ area_id a = fst (fst v) /\
            area_state a = snd (fst v).
Proof.
  unfold area_view. destruct (h !! r) as [[a|z]|]; try discriminate.
  destruct (zone_views h (area_zones a)); [|discriminate].
  intros [= <-]. now exists a.
Qed.

Section LoadTheorems2.
Context {E : Entities}.

Lemma load_fetch_run w i zs ars :
  fetch_all w = Ok (i, zs, ars) ->
  async_load_parameters w =
  (if negb (truthy zs) || negb (truthy ars) then ret false
   else l <- lift (py_iter ars) ;; load_areas zs l ;;; ret true) (fetched i w).
Proof.
  unfold fetch_all, load_body. rewrite Nat.add_0_r. intros Hf.
  destruct (normalize "panel" PNone _) as [i'|] eqn:Hi; cbn [rbind] in Hf; [|discriminate].
  destruct (normalize "zone" PNone _) as [z'|] eqn:Hz; cbn [rbind] in Hf; [|discriminate].
  destruct (normalize "area" PNone _) as [a'|] eqn:Ha; cbn [rbind] in Hf; [|discriminate].
  injection Hf as -> -> ->.
  unfold async_load_parameters.
  unfold bind at 1. rewrite get_data_run. unfold next_body. rewrite Hi.
  unfold bind at 1, get_gw. unfold bind at 1, put_gw.
  unfold bind at 1. rewrite get_data_run. unfold next_body.
  cbn [sent sent_one set_gw gw _api_url set_info net].
  rewrite length_app. cbn [length]. rewrite Hz.
  unfold bind at 1. rewrite get_data_run. unfold next_body.
  cbn [sent sent_one set_gw gw _api_url set_info net].
  rewrite !length_app. cbn [length].
  replace (length (sent w) + 1 + 1) with (length (sent w) + 2) by lia.
  rewrite Ha. f_equal.
  unfold fetched, sent_one, set_gw; cbn. now rewrite <- !app_assoc.
Qed.

Lemma load_areas_stops zs al bad rest e : forall w ps,
  plan_areas zs al = Ok ps ->
  getitem bad "id" = Raise e ->
  load_areas zs (al ++ bad :: rest) w = (Raise e, install_all ps w).
Proof.
  induction al as [|a al IH]; intros w ps Hps Hbad.
  - injection Hps as <-. cbn [app load_areas install_all].
    unfold bind at 1, load_area. unfold bind at 1. now rewrite new_Area_run, Hbad.
  - cbn [plan_areas] in Hps.
    pose proof (load_area_run zs a w) as H1.
    destruct (plan_area zs a) as [p|]; cbn [rbind] in Hps; [|discriminate].
    destruct (plan_areas zs al) as [ps'|] eqn:Hps'; cbn [rbind] in Hps; [|discriminate].
    injection Hps as <-. cbn [app load_areas install_all].
    rewrite (bind_ok _ _ _ _ _ H1). now apply IH.
Qed.

(** An area record, as its plan registers it. *)
Lemma install_all_registers_area zs al ps w a id k :
  Forall2 (plan_of zs) al ps ->
  a ∈ al -> getitem a "id" = Ok id -> hash_key id = Ok k ->
  exists r o,
    dict_get (_areas (gw (install_all ps w))) k = Some r /\
    heap (install_all ps w) !! r = Some (OArea o) /\
    hash_key (area_id o) = Ok k.
Proof.
  intros Hof Ha Hid Hk.
  apply list_elem_of_lookup in Ha as (j & Hj).
  destruct (Forall2_lookup_l _ _ _ _ _ Hof Hj) as (p & Hp & Hpa & _ & Hpk & _).
  assert (ap_id p = id) by congruence. subst id.
  assert (ap_key p = k) by congruence. subst k.
  pose proof (install_all_areas ps w (ap_key p)) as Hin.
  destruct (last_plan ps (ap_key p)) as [q|] eqn:Hq.
  - destruct Hin as (r & Hr & _ & Hv).
    apply area_view_inv in Hv as (o & Ho & Hoid). cbn in Hoid.
    exists r, o. repeat split; try assumption.
    assert (Hs : ap_key p ∈ map ap_key ps) by (apply last_plan_is_Some; eauto).
    apply last_write_elem in Hq.
    apply list_elem_of_In, in_map_iff in Hq as (q' & [= Hkq ->] & Hq').
    apply list_elem_of_In in Hq'.
    destruct (plan_key_record _ _ _ _ Hof Hq') as (a' & _ & _ & _ & Hqk & _).
    rewrite Hoid, Hqk. now rewrite Hkq.
  - assert (Hs : is_Some (last_plan ps (ap_key p))).
    { apply last_plan_is_Some. apply list_elem_of_In, in_map, list_elem_of_In.
      eapply list_elem_of_lookup_2, Hp. }
    rewrite Hq in Hs. destruct Hs as [? ?]. discriminate.
Qed.

(** An area record without an [id] makes the load raise when its turn
    comes: the areas before it in the list, and their zones, are registered
    by then and stay so; the records after it are not looked at. *)
Theorem load_stops_at_bad_record w i zl al bad rest e :
  fetch_all w = Ok (i, PList zl, PList (al ++ bad :: rest)) ->
  zl <> [] ->
  forallb wf_zone zl = true -> forallb wf_area al = true ->
  getitem bad "id" = Raise e ->
  exists w',
    async_load_parameters w = (Raise e, w') /\
    (forall a id k,
       a ∈ al -> getitem a "id" = Ok id -> hash_key id = Ok k ->
       exists r o,
         dict_get (_areas (gw w')) k = Some r /\
         heap w' !! r = Some (OArea o) /\ hash_key (area_id o) = Ok k) /\
    (forall k,
       k ∈ dict_keys (_areas (gw w')) ->
       k ∈ dict_keys (_areas (gw w)) \/
       exists a id, a ∈ al /\ getitem a "id" = Ok id /\ hash_key id = Ok k).
Proof.
  intros Hf Hzl Hwz Hwa Hbad.
  destruct (plan_areas_ok zl al Hwz Hwa) as (ps & Hps).
  pose proof (plan_areas_inv _ _ _ Hps) as Hof.
  exists (install_all ps (fetched i w)). split; [|split].
  - rewrite (load_fetch_run _ _ _ _ Hf).
    assert (Hz : truthy (PList zl) = true) by now destruct zl.
    assert (Ht : truthy (PList (al ++ bad :: rest)) = true) by now destruct al.
    rewrite Hz, Ht. cbn [negb orb py_iter]. rewrite bind_lift_Ok.
    unfold bind. now rewrite (load_areas_stops _ al bad rest e _ ps Hps Hbad).
  - intros a id k. now apply install_all_registers_area with (zs := PList zl) (al := al).
  - intros k Hk. apply dict_get_is_Some in Hk as [r Hr].
    pose proof (install_all_areas ps (fetched i w) k) as Hin.
    destruct (last_plan ps k) as [q|] eqn:Hq.
    + right.
      assert (Hs : k ∈ map ap_key ps) by (apply last_plan_is_Some; rewrite Hq; eauto).
      apply list_elem_of_In, in_map_iff in Hs as (p & <- & Hp).
      apply list_elem_of_In in Hp.
      destruct (plan_key_record _ _ _ _ Hof Hp) as (a & Ha' & Hid & _ & Hk' & _).
      now exists a, (ap_id p).
    + left. apply dict_get_is_Some. rewrite Hin in Hr. cbn in Hr. eauto.
Qed.

(** Every zone a load registers is among the [zones] of the area it refers
    back to; so after a load from an empty zone registry that holds of every
    registered zone. *)
Theorem load_zones_owned w b w' :
  async_load_parameters w = (Ok b, w') ->
  (forall k r, dict_get (_zones (gw w')) k = Some r ->
     zone_owned (heap w') r \/ dict_get (_zones (gw w)) k = Some r) /\
  (_zones (gw w) = [] ->
   forall k r, dict_get (_zones (gw w')) k = Some r -> zone_owned (heap w') r).
Proof.
  intros Hrun.
  assert (H : forall k r, dict_get (_zones (gw w')) k = Some r ->
            zone_owned (heap w') r \/ dict_get (_zones (gw w)) k = Some r).
  { apply load_ok_inv in Hrun as (i & zs & ars & _ & H). destruct b.
    - destruct H as (al & ps & _ & _ & _ & Hps & ->). intros k r Hr.
      apply (install_all_zones_owned ps (fetched i w) k r); [|exact Hr].
      eapply plan_of_lengths, plan_areas_inv, Hps.
    - destruct H as [_ ->]. intros k r Hr. now right. }
  split; [exact H|]. intros Hempty k r Hr.
  destruct (H k r Hr) as [Ho|Hold]; [exact Ho|].
  rewrite Hempty in Hold. discriminate.
Qed.

(** When several area records have the same id, the registry holds the
    area made from the last of them, an object made by this load. *)
Theorem load_last_record_wins w i zs al1 a al2 id k w' :
  fetch_all w = Ok (i, zs, PList (al1 ++ a :: al2)) ->
  async_load_parameters w = (Ok true, w') ->
  getitem a "id" = Ok id -> hash_key id = Ok k ->
  (forall a' id', a' ∈ al2 -> getitem a' "id" = Ok id' -> hash_key id' <> Ok k) ->
  exists r o,
    dict_get (_areas (gw w')) k = Some r /\
    heap w' !! r = Some (OArea o) /\
    area_id o = id /\ area_init a = Ok (area_state o) /\
    length (heap w) <= r.
Proof.
  intros Hf Hrun Hid Hk Hlast.
  apply load_ok_inv in Hrun as (i' & zs' & ars' & Hf' & al' & ps & _ & _ & Hal & Hps & ->).
  rewrite Hf in Hf'. injection Hf' as <- <- <-. injection Hal as <-.
  pose proof (plan_areas_inv _ _ _ Hps) as Hof.
  destruct (last_record_plan _ _ _ _ _ _ _ Hof Hid Hk Hlast)
    as (p & (_ & Hpst & _) & <- & Hlp).
  pose proof (install_all_areas ps (fetched i w) k) as Hin.
  rewrite Hlp in Hin. destruct Hin as (r & Hr & Hle & Hv).
  apply area_view_inv_state in Hv as (o & Ho & Hoid & Host). cbn in Hoid, Host.
  exists r, o. repeat split; try assumption. now rewrite Host.
Qed.

End LoadTheorems2.

(** ** What the router keeps *)

Section Preserves.
Variable R : world -> world -> Prop.
Hypothesis R_refl : forall w, R w w.
Hypothesis R_trans : forall w1 w2 w3, R w1 w2 -> R w2 w3 -> R w1 w3.

Lemma preserves_ret {A} (a : A) : preserves R (ret a).
Proof. intros w. apply R_refl. Qed.

Lemma preserves_raise {A} e : preserves R (@raise A e).
Proof. intros w. apply R_refl. Qed.

Lemma preserves_lift {A} (r : result A) : preserves R (lift r).
Proof. intros w. apply R_refl. Qed.

Lemma preserves_get_gw : preserves R get_gw.
Proof. intros w. apply R_refl. Qed.

Lemma preserves_deref r : preserves R (deref r).
Proof. intros w. unfold deref. destruct (heap w !! r); apply R_refl. Qed.

Lemma preserves_bind {A B} (m : M A) (f : A -> M B) :
  preserves R m -> (forall a, preserves R (f a)) -> preserves R (bind m f).
Proof.
  intros Hm Hf w. unfold bind. specialize (Hm w).
  destruct (m w) as [[a|e] w1]; cbn [snd] in *; [|exact Hm].
  eapply R_trans; [exact Hm|apply Hf].
Qed.

Lemma preserves_entity_id r : preserves R (entity_id r).
Proof.
  apply preserves_bind; [apply preserves_deref|]. intros o. apply preserves_ret.
Qed.

End Preserves.

Lemma same_registry_refl w : same_registry w w.
Proof. repeat split. Qed.

Lemma same_registry_trans w1 w2 w3 :
  same_registry w1 w2 -> same_registry w2 w3 -> same_registry w1 w3.
Proof. unfold same_registry. intuition congruence. Qed.

Lemma same_log_refl w : same_log w w.
Proof. reflexivity. Qed.

Lemma same_log_trans w1 w2 w3 : same_log w1 w2 -> same_log w2 w3 -> same_log w1 w3.
Proof. unfold same_log. congruence. Qed.

Lemma obj_frame_insert h r o o' :
  h !! r = Some o -> obj_frame o' = obj_frame o ->
  map obj_frame (<[r := o']> h) = map obj_frame h.
Proof.
  intros Hr Ho. change (map obj_frame ?l) with (obj_frame <$> l).
  rewrite list_fmap_insert, Ho. apply list_insert_id.
  now rewrite list_lookup_fmap, Hr.
Qed.

Section RouterFrame.
Context {E : Entities}.

Lemma get_data_same_registry resource id :
  preserves same_registry (_async_get_data resource id).
Proof. intros w. rewrite get_data_run. repeat split. Qed.

Lemma get_data_same_log resource id :
  preserves same_log (_async_get_data resource id).
Proof. intros w. rewrite get_data_run. reflexivity. Qed.

Lemma entity_update_same_registry r data sia_code :
  preserves same_registry (entity_update r data sia_code).
Proof.
  intros w. destruct (entity_update_sent r data sia_code w) as (_ & _ & _ & Hg & Hn).
  split; [exact Hg|]. split; [exact Hn|].
  unfold entity_update, bind, deref.
  destruct (heap w !! r) as [[a|z]|] eqn:Hr; cbn; [| |reflexivity].
  - unfold lift. destruct (area_update _ _ _); cbn; [|reflexivity].
    now apply (obj_frame_insert _ _ (OArea a)).
  - unfold lift. destruct (zone_update _ _ _); cbn; [|reflexivity].
    now apply (obj_frame_insert _ _ (OZone z)).
Qed.

Lemma entity_update_same_log r data sia_code :
  preserves same_log (entity_update r data sia_code).
Proof. intros w. apply (entity_update_sent r data sia_code w). Qed.

Lemma refresh_same_registry resource sia_code entities : forall tasks,
  preserves same_registry (refresh resource sia_code entities tasks).
Proof.
  pose proof same_registry_refl as Hr. pose proof same_registry_trans as Ht.
  induction entities as [|[r|] rest IH]; intros tasks; cbn [refresh].
  - now apply preserves_ret.
  - apply preserves_bind; [assumption|now apply preserves_entity_id|]. intros id.
    apply preserves_bind; [assumption|apply get_data_same_registry|]. intros data.
    apply preserves_bind; [assumption|apply entity_update_same_registry|]. intros _.
    apply preserves_bind; [assumption|now apply preserves_get_gw|]. intros g.
    apply preserves_bind; [assumption| |intros tasks'; apply IH].
    destruct (_async_callback g); [|now apply preserves_ret].
    apply preserves_bind; [assumption| |intros t; now apply preserves_ret].
    intros w. repeat split.
  - now apply preserves_raise.
Qed.

Lemma refresh_same_log resource sia_code entities : forall tasks,
  preserves same_log (refresh resource sia_code entities tasks).
Proof.
  pose proof same_log_refl as Hr. pose proof same_log_trans as Ht.
  induction entities as [|[r|] rest IH]; intros tasks; cbn [refresh].
  - now apply preserves_ret.
  - apply preserves_bind; [assumption|now apply preserves_entity_id|]. intros id.
    apply preserves_bind; [assumption|apply get_data_same_log|]. intros data.
    apply preserves_bind; [assumption|apply entity_update_same_log|]. intros _.
    apply preserves_bind; [assumption|now apply preserves_get_gw|]. intros g.
    apply preserves_bind; [assumption| |intros tasks'; apply IH].
    destruct (_async_callback g); [|now apply preserves_ret].
    apply preserves_bind; [assumption| |intros t; now apply preserves_ret].
    intros w. reflexivity.
  - now apply preserves_raise.
Qed.

Lemma log_same_registry e : preserves same_registry (log e).
Proof. intros w. repeat split. Qed.

Lemma registry_get_preserves R d spc_id :
  (forall w, R w w) -> preserves R (registry_get d spc_id).
Proof.
  intros Hr w. unfold registry_get, bind, lift, ret.
  destruct (hash_key spc_id); apply Hr.
Qed.

Lemma classify_same_registry spc_id sia_code :
  preserves same_registry (classify spc_id sia_code).
Proof.
  pose proof same_registry_refl as Hr. pose proof same_registry_trans as Ht.
  unfold classify.
  apply preserves_bind; [assumption|now apply preserves_get_gw|]. intros g.
  destruct (py_in sia_code Area_SUPPORTED_SIA_CODES).
  { apply preserves_bind; [assumption|now apply registry_get_preserves|].
    intros e. now apply preserves_ret. }
  destruct (py_in sia_code Zone_SUPPORTED_SIA_CODES).
  { apply preserves_bind; [assumption|now apply registry_get_preserves|].
    intros e. now apply preserves_ret. }
  destruct (py_in sia_code ["CL"; "OP"]); [now apply preserves_ret|].
  apply preserves_bind; [assumption|apply log_same_registry|].
  intros _. now apply preserves_ret.
Qed.

Lemma ws_handler_same_registry data :
  preserves same_registry (_async_ws_handler data).
Proof.
  pose proof same_registry_refl as Hr. pose proof same_registry_trans as Ht.
  unfold _async_ws_handler.
  do 4 (apply preserves_bind; [assumption|now apply preserves_lift|]; intros ?).
  apply preserves_bind; [assumption|apply log_same_registry|]. intros _.
  unfold dispatch.
  apply preserves_bind; [assumption|apply classify_same_registry|].
  intros [[entities resource]|]; [|now apply preserves_ret].
  destruct entities as [|e rest].
  - apply preserves_bind; [assumption|apply log_same_registry|].
    intros _. now apply preserves_ret.
  - apply preserves_bind; [assumption|apply refresh_same_registry|].
    intros tasks. now apply preserves_ret.
Qed.

(** Whatever the message and however its handling ends, the router
    leaves the gateway object as it was: [info], the two registries and their
    keys; it makes no object, and no entity changes its class, its id, the
    zones it owns or the area it refers to. *)
Theorem router_keeps_registry data w :
  gw (snd (_async_ws_handler data w)) = gw w /\
  fst (areas (snd (_async_ws_handler data w))) = fst (areas w) /\
  fst (zones (snd (_async_ws_handler data w))) = fst (zones w) /\
  fst (info (snd (_async_ws_handler data w))) = fst (info w) /\
  length (heap (snd (_async_ws_handler data w))) = length (heap w) /\
  (forall r, obj_frame <$> heap (snd (_async_ws_handler data w)) !! r =
             obj_frame <$> heap w !! r).
Proof.
  destruct (ws_handler_same_registry data w) as (Hg & _ & Hh).
  split; [exact Hg|].
  unfold areas, zones, info, bind, get_gw, ret. cbn [fst]. rewrite Hg.
  do 3 (split; [reflexivity|]). split.
  - rewrite <- (length_map obj_frame), Hh. apply length_map.
  - intros r. rewrite <- !list_lookup_fmap.
    change (obj_frame <$> ?l) with (map obj_frame l). now rewrite Hh.
Qed.

End RouterFrame.

(** ** What the router logs and returns *)

Section RouterMore.
Context {E : Entities}.

Lemma snd_bind_ret {A B} (m : M A) (f : A -> B) w :
  snd (bind m (fun a => ret (f a)) w) = snd (m w).
Proof. unfold bind. now destruct (m w) as [[a|e] w1]. Qed.

Lemma classify_unhashable spc_id sia_code e w :
  py_in sia_code Area_SUPPORTED_SIA_CODES
    || py_in sia_code Zone_SUPPORTED_SIA_CODES = true ->
  hash_key spc_id = Raise e ->
  dispatch spc_id sia_code w = (Raise e, w).
Proof.
  intros Hc Hk. unfold dispatch, classify, bind, get_gw, registry_get, lift.
  rewrite Hk.
  destruct (py_in sia_code Area_SUPPORTED_SIA_CODES); [reflexivity|].
  cbn [orb] in Hc. now rewrite Hc.
Qed.

Lemma dispatch_logged spc_id sia_code w :
  logged (snd (dispatch spc_id sia_code w)) =
  logged w ++ router_log (gw w) spc_id sia_code.
Proof.
  unfold router_log.
  destruct (py_in sia_code Area_SUPPORTED_SIA_CODES) eqn:Ha.
  { rewrite app_nil_r. destruct (hash_key spc_id) as [k|e] eqn:Hk.
    - unfold dispatch. rewrite (bind_ok _ _ _ _ _ (classify_area _ _ _ _ Ha Hk)).
      cbv beta iota. rewrite (snd_bind_ret _ Some). apply refresh_same_log.
    - rewrite (classify_unhashable _ _ e); [reflexivity| |exact Hk].
      now rewrite Ha. }
  destruct (py_in sia_code Zone_SUPPORTED_SIA_CODES) eqn:Hz.
  { rewrite app_nil_r. destruct (hash_key spc_id) as [k|e] eqn:Hk.
    - unfold dispatch. rewrite (bind_ok _ _ _ _ _ (classify_zone _ _ _ _ Ha Hz Hk)).
      cbv beta iota. rewrite (snd_bind_ret _ Some). apply refresh_same_log.
    - rewrite (classify_unhashable _ _ e); [reflexivity| |exact Hk].
      rewrite Hz. apply orb_true_r. }
  destruct (py_in sia_code ["CL"; "OP"]) eqn:Hc.
  - unfold dispatch.
    rewrite (bind_ok _ _ _ _ _ (classify_user_mode_change _ _ _ Ha Hz Hc)).
    unfold dict_values. destruct (_areas (gw w)) as [|[k r] d]; [reflexivity|].
    rewrite app_nil_r. cbn [map]. cbv beta iota.
    rewrite (snd_bind_ret _ Some). apply refresh_same_log.
  - unfold dispatch, classify, bind, get_gw. now rewrite Ha, Hz, Hc.
Qed.

(** What the router logs for a push message, however its handling ends:
    the debug line, then nothing for a code of the Area or the Zone set, the
    unregistered-id error for ['CL'] or ['OP'] with an empty area registry,
    and the not-interested debug line for any other code.  So the error is
    logged in that one case only. *)
Theorem router_logs data spc_id sia_code w :
  push_message data spc_id sia_code ->
  logged (snd (_async_ws_handler data w)) =
    logged w ++ DebugSiaCode sia_code spc_id :: router_log (gw w) spc_id sia_code /\
  (ErrorUnregistered spc_id ∈ router_log (gw w) spc_id sia_code <->
   py_in sia_code Area_SUPPORTED_SIA_CODES = false /\
   py_in sia_code Zone_SUPPORTED_SIA_CODES = false /\
   py_in sia_code ["CL"; "OP"] = true /\ _areas (gw w) = []).
Proof.
  intros Hm. split.
  - rewrite (ws_handler_run _ _ _ _ Hm), dispatch_logged. cbn [logged logged_one gw].
    now rewrite <- app_assoc.
  - unfold router_log.
    destruct (py_in sia_code Area_SUPPORTED_SIA_CODES);
      [split; [intros H; now apply elem_of_nil in H|intros (? & _); discriminate]|].
    destruct (py_in sia_code Zone_SUPPORTED_SIA_CODES);
      [split; [intros H; now apply elem_of_nil in H|intros (_ & ? & _); discriminate]|].
    destruct (py_in sia_code ["CL"; "OP"]).
    + destruct (_areas (gw w)).
      * split; [tauto|]. intros _. apply elem_of_cons. now left.
      * split; [intros H; now apply elem_of_nil in H|intros (_ & _ & _ & ?); discriminate].
    + split; [|intros (_ & _ & ? & _); discriminate].
      intros H. apply list_elem_of_singleton in H. discriminate.
Qed.

(** A message without [data], [data.sia], [sia_address] or [sia_code]
    makes the router raise [KeyError] (or [TypeError] where a dict was
    expected) before it logs or fetches anything. *)
Theorem malformed_message_rejected data w :
  (forall spc_id sia_code, ~ push_message data spc_id sia_code) ->
  exists e, (e = KeyError \/ e = TypeError) /\
            _async_ws_handler data w = (Raise e, w).
Proof.
  intros Hno. unfold _async_ws_handler.
  destruct (getitem data "data") as [d|e] eqn:H1;
    [|exists e; split; [eapply getitem_raises, H1|reflexivity]].
  rewrite bind_lift_Ok.
  destruct (getitem d "sia") as [m|e] eqn:H2;
    [|exists e; split; [eapply getitem_raises, H2|reflexivity]].
  rewrite bind_lift_Ok.
  destruct (getitem m "sia_address") as [a|e] eqn:H3;
    [|exists e; split; [eapply getitem_raises, H3|reflexivity]].
  rewrite bind_lift_Ok.
  destruct (getitem m "sia_code") as [c|e] eqn:H4;
    [|exists e; split; [eapply getitem_raises, H4|reflexivity]].
  exfalso. apply (Hno a c). now exists d, m.
Qed.

(** A message with a code of the Area or the Zone set whose address is
    a list or a dict makes the registry lookup raise [TypeError], after the
    debug line; nothing is fetched. *)
Theorem unhashable_address_raises data spc_id sia_code w :
  push_message data spc_id sia_code ->
  py_in sia_code Area_SUPPORTED_SIA_CODES
    || py_in sia_code Zone_SUPPORTED_SIA_CODES = true ->
  match spc_id with PList _ | PDict _ => True | _ => False end ->
  _async_ws_handler data w =
    (Raise TypeError, logged_one (DebugSiaCode sia_code spc_id) w).
Proof.
  intros Hm Hc Hid. rewrite (ws_handler_run _ _ _ _ Hm).
  apply classify_unhashable; [exact Hc|].
  destruct spc_id; try contradiction; reflexivity.
Qed.

Lemma data_url_get api_url resource id :
  req_method (data_url api_url resource id) = GET.
Proof. unfold data_url. now destruct (truthy id). Qed.

(** One turn of the loop that comes through. *)
Lemma refresh_cons_ok resource sia_code r rest tasks w tasks' w' :
  refresh resource sia_code (Some r :: rest) tasks w = (Ok tasks', w') ->
  exists o w1,
    heap w !! r = Some o /\
    gw w1 = gw w /\
    sent w1 = sent w ++ [data_url (_api_url (gw w)) resource (obj_id o)] /\
    scheduled w1 = scheduled w ++ callback_tasks (gw w) [r] /\
    refresh resource sia_code rest (tasks ++ callback_tasks (gw w) [r]) w1 =
      (Ok tasks', w').
Proof.
  cbn [refresh]. intros H.
  destruct (heap w !! r) as [o|] eqn:Hr;
    [|unfold bind at 1, entity_id, bind, deref in H; rewrite Hr in H; discriminate].
  rewrite (bind_ok _ _ _ _ _ (entity_id_run _ _ _ Hr)) in H.
  unfold bind at 1 in H. rewrite get_data_run in H.
  destruct (normalize _ _ _) as [data|e]; [|discriminate].
  set (w1 := sent_one _ w) in H.
  destruct (entity_update_sent r data sia_code w1) as (Hs & Hc & _ & Hg & _).
  unfold bind at 1 in H.
  destruct (entity_update r data sia_code w1) as [[[]|e] w2]; [|discriminate].
  cbn [snd] in Hs, Hc, Hg.
  unfold bind at 1, get_gw in H. rewrite Hg in H. cbn [w1 gw sent_one] in H.
  unfold callback_tasks.
  destruct (_async_callback (gw w)) as [cb|].
  - unfold bind at 1 in H. unfold bind at 1, create_task, ret in H.
    eexists o, _. split; [reflexivity|]. split; [|split; [|split; [|exact H]]].
    + exact Hg.
    + cbn. exact Hs.
    + cbn. now rewrite Hc.
  - unfold bind at 1, ret in H.
    exists o, w2. rewrite !app_nil_r. split; [reflexivity|]. split; [exact Hg|].
    split; [exact Hs|]. split; [exact Hc|exact H].
Qed.

Lemma refresh_ok resource sia_code entities : forall tasks w tasks' w',
  refresh resource sia_code entities tasks w = (Ok tasks', w') ->
  exists refs reqs,
    entities = map Some refs /\
    tasks' = tasks ++ callback_tasks (gw w) refs /\
    scheduled w' = scheduled w ++ callback_tasks (gw w) refs /\
    sent w' = sent w ++ reqs /\ length reqs = length refs /\
    Forall (fun q => req_method q = GET) reqs.
Proof.
  induction entities as [|[r|] rest IH]; intros tasks w tasks' w' H.
  - injection H as <- <-. exists [], []. rewrite callback_tasks_nil, !app_nil_r.
    repeat split. constructor.
  - apply refresh_cons_ok in H as (o & w1 & Ho & Hg & Hs & Hc & H).
    apply IH in H as (refs & reqs & -> & -> & Hc' & Hs' & Hlen & Hget).
    exists (r :: refs), (data_url (_api_url (gw w)) resource (obj_id o) :: reqs).
    rewrite Hg in *. rewrite (callback_tasks_cons _ r refs).
    split; [reflexivity|]. split; [now rewrite app_assoc|].
    split; [now rewrite Hc', Hc, app_assoc|].
    split; [now rewrite Hs', Hs, <- app_assoc|].
    split; [cbn; now rewrite Hlen|].
    constructor; [apply data_url_get|exact Hget].
  - discriminate.
Qed.

Lemma ws_handler_ok_inv data res w w' :
  _async_ws_handler data w = (Ok res, w') ->
  exists spc_id sia_code,
    push_message data spc_id sia_code /\
    dispatch spc_id sia_code (logged_one (DebugSiaCode sia_code spc_id) w) =
      (Ok res, w').
Proof.
  unfold _async_ws_handler. intros H.
  destruct (getitem data "data") as [d|e] eqn:H1; [|discriminate].
  rewrite bind_lift_Ok in H.
  destruct (getitem d "sia") as [m|e] eqn:H2; [|discriminate].
  rewrite bind_lift_Ok in H.
  destruct (getitem m "sia_address") as [a|e] eqn:H3; [|discriminate].
  rewrite bind_lift_Ok in H.
  destruct (getitem m "sia_code") as [c|e] eqn:H4; [|discriminate].
  rewrite bind_lift_Ok in H.
  exists a, c. split; [now exists d, m|exact H].
Qed.

Lemma classify_ok_inv spc_id sia_code w target w1 :
  classify spc_id sia_code w = (Ok target, w1) ->
  sent w1 = sent w /\ scheduled w1 = scheduled w /\ heap w1 = heap w /\
  gw w1 = gw w /\
  match target with
  | None => True
  | Some (entities, resource) =>
      w1 = w /\
      forall r, Some r ∈ entities ->
        r ∈ dict_values (_areas (gw w)) \/ r ∈ dict_values (_zones (gw w))
  end.
Proof.
  unfold classify, bind at 1, get_gw.
  destruct (py_in sia_code Area_SUPPORTED_SIA_CODES).
  { unfold registry_get, bind, lift, ret.
    destruct (hash_key spc_id) as [k|]; [|discriminate].
    intros [= <- <-]. repeat split. intros r Hr.
    apply list_elem_of_singleton in Hr. left. eapply dict_get_values. symmetry. exact Hr. }
  destruct (py_in sia_code Zone_SUPPORTED_SIA_CODES).
  { unfold registry_get, bind, lift, ret.
    destruct (hash_key spc_id) as [k|]; [|discriminate].
    intros [= <- <-]. repeat split. intros r Hr.
    apply list_elem_of_singleton in Hr. right. eapply dict_get_values. symmetry. exact Hr. }
  destruct (py_in sia_code ["CL"; "OP"]).
  - intros [= <- <-]. repeat split. intros r Hr. left.
    apply list_elem_of_In, in_map_iff in Hr as (r' & [= ->] & Hr).
    now apply list_elem_of_In.
  - intros [= <- <-]. repeat split.
Qed.

(** When the router returns a list of tasks, these are the tasks it
    scheduled while handling the message, one callback per entity refreshed
    when a callback is configured; each entity is registered, and one [GET]
    per entity was sent.  When it returns [None], nothing was sent,
    scheduled or updated. *)
Theorem router_returns_scheduled data w res w' :
  _async_ws_handler data w = (Ok res, w') ->
  match res with
  | None => sent w' = sent w /\ scheduled w' = scheduled w /\ heap w' = heap w
  | Some tasks =>
      exists refs reqs,
        tasks = callback_tasks (gw w) refs /\
        scheduled w' = scheduled w ++ tasks /\
        sent w' = sent w ++ reqs /\ length reqs = length refs /\
        Forall (fun q => req_method q = GET) reqs /\
        (forall r, r ∈ refs ->
           r ∈ dict_values (_areas (gw w)) \/ r ∈ dict_values (_zones (gw w)))
  end.
Proof.
  intros H. apply ws_handler_ok_inv in H as (spc_id & sia_code & _ & H).
  set (w0 := logged_one (DebugSiaCode sia_code spc_id) w) in H.
  unfold dispatch in H. unfold bind at 1 in H.
  destruct (classify spc_id sia_code w0) as [[target|e] w1] eqn:Hcl; [|discriminate].
  apply classify_ok_inv in Hcl as (Hs & Hc & Hh & Hg & Ht).
  destruct target as [[entities resource]|].
  2: { injection H as <- <-. now rewrite Hs, Hc, Hh. }
  destruct Ht as [-> Hreg].
  destruct entities as [|e rest].
  { injection H as <- <-. repeat split. }
  unfold bind at 1 in H.
  destruct (refresh resource sia_code (e :: rest) [] w0) as [[tasks|e'] w2] eqn:Hrun;
    [|discriminate].
  injection H as <- <-.
  apply refresh_ok in Hrun as (refs & reqs & Hent & -> & Hc' & Hs' & Hlen & Hget).
  exists refs, reqs. cbn [app]. change (gw w0) with (gw w) in *.
  repeat split; try assumption.
  intros r Hr. apply Hreg. rewrite Hent.
  apply list_elem_of_In, in_map, list_elem_of_In, Hr.
Qed.

End RouterMore.

(** ** The stream *)

Lemma ws_clients_app calls more :
  ws_clients (calls ++ more) = ws_clients calls + ws_clients more.
Proof. unfold ws_clients. now rewrite List.filter_app, length_app. Qed.

(** [stop] on a gateway that holds no client (fresh from [__init__], or
    stopped) raises [AttributeError]; after [start], [stop] stops the client
    that [start] made and resets [_websocket], so that a second [stop]
    raises. *)
Theorem stop_needs_start api_url ws_url cb g calls :
  stop (__init__ api_url ws_url cb, calls) = Raise AttributeError /\
  stop (start (g, calls)) =
    Ok (set_websocket false g,
        calls ++ [WsNew (ws_clients calls) (_ws_url g);
                  WsStart (ws_clients calls); WsStop (ws_clients calls)]) /\
  rbind (stop (start (g, calls))) stop = Raise AttributeError.
Proof.
  assert (H : stop (start (g, calls)) =
    Ok (set_websocket false g,
        calls ++ [WsNew (ws_clients calls) (_ws_url g);
                  WsStart (ws_clients calls); WsStop (ws_clients calls)])).
  { unfold stop, start. cbn [fst snd _websocket set_websocket].
    rewrite ws_clients_app. cbn [ws_clients List.filter is_new length].
    replace (ws_clients calls + 1 - 1) with (ws_clients calls) by lia.
    now rewrite <- app_assoc. }
  split; [reflexivity|]. split; [exact H|]. now rewrite H.
Qed.

(** [start] called twice makes two clients and starts both; the [stop]
    that follows stops the second, and the first is left running. *)
Theorem restart_leaves_first_client g calls :
  exists new,
    stop (start (start (g, calls))) = Ok (set_websocket false g, calls ++ new) /\
    WsStart (ws_clients calls) ∈ new /\
    (WsStop (ws_clients calls) ∉ new) /\
    WsStop (S (ws_clients calls)) ∈ new.
Proof.
  exists [WsNew (ws_clients calls) (_ws_url g); WsStart (ws_clients calls);
          WsNew (S (ws_clients calls)) (_ws_url g); WsStart (S (ws_clients calls));
          WsStop (S (ws_clients calls))].
  split; [|split; [|split]].
  - unfold stop, start. cbn [fst snd _websocket set_websocket _ws_url].
    rewrite !ws_clients_app. cbn [ws_clients List.filter is_new length].
    replace (ws_clients calls + 1) with (S (ws_clients calls)) by lia.
    replace (S (ws_clients calls) + 1 - 1) with (S (ws_clients calls)) by lia.
    now rewrite <- !app_assoc.
  - apply elem_of_cons. right. apply elem_of_cons. now left.
  - intros H. repeat (apply elem_of_cons in H as [H|H]; [try discriminate|]).
    + injection H as H. lia.
    + now apply elem_of_nil in H.
  - repeat (apply elem_of_cons; (now left) || right).
Qed.

(** ** A refresh after a load, a refresh without an answer *)

Section RouterCompose.
Context {E : Entities}.

Lemma ws_handler_area data spc_id sia_code k r w :
  push_message data spc_id sia_code ->
  py_in sia_code Area_SUPPORTED_SIA_CODES = true ->
  hash_key spc_id = Ok k ->
  dict_get (_areas (gw w)) k = Some r ->
  _async_ws_handler data w =
  (tasks <- refresh "area" sia_code [Some r] [] ;; ret (Some tasks))
    (logged_one (DebugSiaCode sia_code spc_id) w).
Proof.
  intros Hm Hc Hk Hr. rewrite (ws_handler_run _ _ _ _ Hm). unfold dispatch.
  rewrite (bind_ok _ _ _ _ _ (classify_area _ _ _ _ Hc Hk)).
  cbn [gw logged_one]. now rewrite Hr.
Qed.

(** When the fetch of a refresh returns [False] (the request failed), the
    router calls [update] with [False] all the same: the area holds what
    [update] makes of it and the callback is scheduled, or the exception of
    [update] reaches the caller. *)
Theorem absent_fetch_still_updates data spc_id sia_code k r a w :
  push_message data spc_id sia_code ->
  py_in sia_code Area_SUPPORTED_SIA_CODES = true ->
  hash_key spc_id = Ok k ->
  dict_get (_areas (gw w)) k = Some r ->
  heap w !! r = Some (OArea a) ->
  truthy (next_body "area" (area_id a) w) = false ->
  match area_update (area_state a) (PBool false) sia_code with
  | Ok st =>
      _async_ws_handler data w =
        (Ok (Some (callback_tasks (gw w) [r])),
         {| gw := gw w;
            heap := <[r := OArea (mkArea (area_id a) st (area_zones a))]> (heap w);
            net := net w;
            sent := sent w ++ [data_url (_api_url (gw w)) "area" (area_id a)];
            logged := logged w ++ [DebugSiaCode sia_code spc_id];
            scheduled := scheduled w ++ callback_tasks (gw w) [r] |})
  | Raise e =>
      _async_ws_handler data w =
        (Raise e,
         {| gw := gw w; heap := heap w; net := net w;
            sent := sent w ++ [data_url (_api_url (gw w)) "area" (area_id a)];
            logged := logged w ++ [DebugSiaCode sia_code spc_id];
            scheduled := scheduled w |})
  end.
Proof.
  intros Hm Hc Hk Hr Ha Hfalsy.
  rewrite (ws_handler_area _ _ _ _ _ _ Hm Hc Hk Hr).
  set (w0 := logged_one (DebugSiaCode sia_code spc_id) w).
  assert (Hn : normalize "area" (area_id a) (next_body "area" (area_id a) w0) =
               Ok (PBool false)) by now apply normalize_falsy.
  destruct (area_update (area_state a) (PBool false) sia_code) as [st|e] eqn:Hu.
  - unfold bind at 1.
    rewrite (refresh_area_step sia_code r [] [] w0 a
               (mkArea (area_id a) st (area_zones a)) Ha).
    + reflexivity.
    + unfold refreshed_area. rewrite Nat.add_0_r.
      change (net w0 (length (sent w0)) (data_url (_api_url (gw w0)) "area" (area_id a)))
        with (next_body "area" (area_id a) w0).
      rewrite Hn. cbn [rbind]. now rewrite Hu.
  - unfold bind at 1. cbn [refresh].
    rewrite (bind_ok _ _ _ _ _ (entity_id_run r w0 _ Ha)). cbn [obj_id].
    unfold bind at 1. rewrite get_data_run, Hn.
    unfold bind at 1, entity_update.
    rewrite (bind_ok _ _ _ _ _ (deref_run r (sent_one _ w0) _ Ha)).
    unfold bind, lift. rewrite Hu. reflexivity.
Qed.

(** After a load that returns [True], a push message with a code of the
    Area set and the id of a fetched area record as its address is routed to
    the registered area: one request is sent, the fetch of that area, and
    when fetch and update come through the area holds the result and its
    callback is returned. *)
Theorem loaded_area_is_routed w i zl al w' a id k data spc_id sia_code :
  fetch_all w = Ok (i, PList zl, PList al) ->
  async_load_parameters w = (Ok true, w') ->
  a ∈ al -> getitem a "id" = Ok id -> hash_key id = Ok k ->
  push_message data spc_id sia_code -> hash_key spc_id = Ok k ->
  py_in sia_code Area_SUPPORTED_SIA_CODES = true ->
  exists r o,
    dict_get (_areas (gw w')) k = Some r /\
    heap w' !! r = Some (OArea o) /\ hash_key (area_id o) = Ok k /\
    sent (snd (_async_ws_handler data w')) =
      sent w' ++ [data_url (_api_url (gw w)) "area" (area_id o)] /\
    (forall o', refreshed_area w' sia_code 0 o = Ok o' ->
       fst (_async_ws_handler data w') = Ok (Some (callback_tasks (gw w) [r])) /\
       heap (snd (_async_ws_handler data w')) !! r = Some (OArea o')).
Proof.
  intros Hf Hrun Ha Hid Hk Hm Hk' Hc.
  apply load_ok_inv in Hrun as (i' & zs' & ars' & Hf' & al' & ps & _ & _ & Hal & Hps & ->).
  rewrite Hf in Hf'. injection Hf' as <- <- <-. injection Hal as <-.
  pose proof (plan_areas_inv _ _ _ Hps) as Hof.
  destruct (install_all_registers_area _ _ _ (fetched i w) a id k Hof Ha Hid Hk)
    as (r & o & Hr & Ho & Hko).
  set (w' := install_all ps (fetched i w)) in *.
  destruct (install_all_frame ps (fetched i w)) as (_ & _ & _ & _ & Hu & _ & Hcb).
  fold w' in Hu, Hcb. cbn in Hu, Hcb.
  assert (Hcbt : forall refs, callback_tasks (gw w') refs = callback_tasks (gw w) refs)
    by (intros refs; unfold callback_tasks; now rewrite Hcb).
  exists r, o. repeat (split; [assumption|]).
  rewrite (ws_handler_area _ _ _ _ _ _ Hm Hc Hk' Hr).
  set (w0 := logged_one (DebugSiaCode sia_code spc_id) w'). split.
  - rewrite (snd_bind_ret _ Some).
    rewrite (refresh_one_sent "area" sia_code r (OArea o) [] w0 Ho).
    cbn [w0 sent gw logged_one obj_id]. now rewrite Hu.
  - intros o' Ho'. unfold bind.
    rewrite (refresh_area_step sia_code r [] [] w0 o o' Ho Ho').
    cbn [refresh ret fst snd app area_refreshed heap]. rewrite <- Hcbt. split; [reflexivity|].
    apply list_lookup_insert_eq. now apply lookup_lt_Some in Ho.
Qed.

End RouterCompose.

Section LoadOrder.
Context {E : Entities}.

(** The area a load registers under an id owns, in the order of the zone
    list, one zone for each zone record whose [area] equals that id, and each
    of them refers back to an area of that id. *)
Theorem area_owns_matching_zones w i zl al1 a al2 id k w' :
  fetch_all w = Ok (i, PList zl, PList (al1 ++ a :: al2)) ->
  async_load_parameters w = (Ok true, w') ->
  getitem a "id" = Ok id -> hash_key id = Ok k ->
  (forall a' id', a' ∈ al2 -> getitem a' "id" = Ok id' -> hash_key id' <> Ok k) ->
  exists r st vs,
    dict_get (_areas (gw w')) k = Some r /\
    area_view (heap w') r = Some (id, st, vs) /\
    map (fun v => fst (fst v)) vs = zone_ids_of id zl /\
    Forall (fun v => snd v = id) vs.
Proof.
  intros Hf Hrun Hid Hk Hlast.
  apply load_ok_inv in Hrun as (i' & zs' & ars' & Hf' & al' & ps & _ & _ & Hal & Hps & ->).
  rewrite Hf in Hf'. injection Hf' as <- <- <-. injection Hal as <-.
  pose proof (plan_areas_inv _ _ _ Hps) as Hof.
  destruct (last_record_plan _ _ _ _ _ _ _ Hof Hid Hk Hlast) as (p & Hp & <- & Hlp).
  pose proof (install_all_areas ps (fetched i w) k) as Hin.
  rewrite Hlp in Hin. destruct Hin as (r & Hr & _ & Hv).
  exists r, (ap_state p), (plan_zone_views p).
  split; [exact Hr|]. split; [exact Hv|].
  destruct Hp as (Hpid & _ & _ & _ & zl' & Hzl' & Hpz). injection Hzl' as <-.
  unfold plan_zone_views. split.
  - rewrite map_map. cbn [fst]. now apply (plan_zones_ids a).
  - apply Forall_forall. intros v Hv'.
    apply list_elem_of_In, in_map_iff in Hv' as (z & <- & _). reflexivity.
Qed.

End LoadOrder.

(** ** Before the first load *)

Section Unloaded.
Context {E : Entities}.

(** On a gateway as [__init__] leaves it, no push message fetches,
    updates or schedules anything: a code of the Area or the Zone set raises
    [AttributeError], or [TypeError] when the address is a list or a dict (the
    registry lookup cannot hash it); any other code returns [None]. *)
Theorem unloaded_gateway_fetches_nothing data spc_id sia_code w api_url ws_url cb :
  gw w = __init__ api_url ws_url cb ->
  push_message data spc_id sia_code ->
  fst (_async_ws_handler data w) =
    (if py_in sia_code Area_SUPPORTED_SIA_CODES
        || py_in sia_code Zone_SUPPORTED_SIA_CODES
     then match spc_id with
          | PList _ | PDict _ => Raise TypeError
          | _ => Raise AttributeError
          end
     else Ok None) /\
  sent (snd (_async_ws_handler data w)) = sent w /\
  heap (snd (_async_ws_handler data w)) = heap w /\
  scheduled (snd (_async_ws_handler data w)) = scheduled w.
Proof.
  intros Hg Hm. rewrite (ws_handler_run _ _ _ _ Hm).
  set (w0 := logged_one (DebugSiaCode sia_code spc_id) w).
  assert (Hg0 : gw w0 = __init__ api_url ws_url cb) by exact Hg.
  destruct (py_in sia_code Area_SUPPORTED_SIA_CODES
            || py_in sia_code Zone_SUPPORTED_SIA_CODES) eqn:Hc.
  - destruct (hash_key spc_id) as [k|e] eqn:Hk.
    + rewrite (dispatch_unregistered _ _ k); [|exact Hk|].
      * destruct spc_id; try discriminate; repeat split.
      * rewrite Hg0. cbn [_areas _zones __init__ dict_get].
        destruct (py_in sia_code Area_SUPPORTED_SIA_CODES); [now left|].
        right. now repeat split.
    + rewrite (classify_unhashable _ _ e _ Hc Hk).
      destruct spc_id; try discriminate; injection Hk as <-; repeat split.
  - apply orb_false_elim in Hc as [Ha Hz].
    unfold dispatch, classify, bind, get_gw. rewrite Ha, Hz, Hg0.
    destruct (py_in sia_code ["CL"; "OP"]); repeat split.
Qed.

End Unloaded.

(** ** A refresh of all areas that fails *)

Section RouterAbort.
Context {E : Entities}.

(** When the refresh of one area fails during the refresh of all areas,
    the exception reaches the caller: the areas before it in registry order
    stand refreshed and their callbacks are scheduled, the failing area is
    as it was after its request was sent, and the areas after it are not
    fetched. *)
Theorem user_mode_change_aborts data spc_id sia_code refs r a rest e w :
  push_message data spc_id sia_code ->
  sia_code = PStr "CL" \/ sia_code = PStr "OP" ->
  py_in sia_code Area_SUPPORTED_SIA_CODES = false ->
  py_in sia_code Zone_SUPPORTED_SIA_CODES = false ->
  dict_values (_areas (gw w)) = refs ++ r :: rest ->
  NoDup refs -> r ∉ refs ->
  areas_refreshable sia_code refs w ->
  heap w !! r = Some (OArea a) ->
  refreshed_area w sia_code (length refs) a = Raise e ->
  exists w1,
    _async_ws_handler data w =
      (Raise e, sent_one (data_url (_api_url (gw w)) "area" (area_id a)) w1) /\
    areas_refreshed sia_code refs (logged_one (DebugSiaCode sia_code spc_id) w) w1 /\
    logged w1 = logged w ++ [DebugSiaCode sia_code spc_id] /\
    heap w1 !! r = Some (OArea a).
Proof.
  intros Hm Hcode Ha Hz Hvals Hnd Hr Hok Hra He.
  assert (Hclop : py_in sia_code ["CL"; "OP"] = true)
    by (destruct Hcode as [-> | ->]; reflexivity).
  rewrite (ws_handler_run _ _ _ _ Hm).
  set (w0 := logged_one (DebugSiaCode sia_code spc_id) w).
  unfold dispatch.
  rewrite (bind_ok _ _ _ _ _ (classify_user_mode_change _ _ _ Ha Hz Hclop)).
  change (gw w0) with (gw w). rewrite Hvals.
  destruct (refresh_aborts sia_code r a rest e refs [] w0 Hnd Hr Hok Hra He)
    as (w1 & Hw1 & Hlog & Hra1 & Hrun).
  assert (Hcons : map Some (refs ++ r :: rest) <> [])
    by (destruct refs; discriminate).
  destruct (map Some (refs ++ r :: rest)) as [|x l] eqn:Hl; [congruence|].
  unfold bind at 1. rewrite Hrun.
  exists w1. split; [reflexivity|]. split; [exact Hw1|].
  split; [exact Hlog|exact Hra1].
Qed.

End RouterAbort.

(** ** Runs on the sample worlds *)

Lemma load_sends_three_fetches_witness :
  sent loaded_once =
    [mkRequest GET "http://gw/" "spc/{}" [PStr "panel"];
     mkRequest GET "http://gw/" "spc/{}" [PStr "zone"];
     mkRequest GET "http://gw/" "spc/{}" [PStr "area"]].
Proof.
  apply (proj1 (@load_sends_three_fetches sample_entities unloaded_world true
                  loaded_once ltac:(vm_compute; reflexivity))).
Defined.

Lemma load_sets_info_witness :
  @async_load_parameters sample_entities panel_down_world =
    (Ok true, panel_down_loaded) /\
  _info (gw panel_down_loaded) = PBool false.
Proof.
  assert (H : @async_load_parameters sample_entities panel_down_world =
              (Ok true, panel_down_loaded)) by (vm_compute; reflexivity).
  split; [exact H|].
  apply (proj2 (proj2 (@load_sets_info sample_entities panel_down_world true
                         panel_down_loaded H))).
  reflexivity.
Defined.

Lemma load_keeps_registered_witness :
  dict_get (_areas (gw stale_loaded)) (KInt 20) =
  dict_get (_areas (gw stale_world)) (KInt 20).
Proof.
  apply (proj1 (proj2 (proj2 (proj2 (proj2
           (@load_keeps_registered sample_entities stale_world true stale_loaded
              ltac:(vm_compute; reflexivity))))))
         (PDict [("type", PStr "SPC")]) (PList [zone_1; zone_2])
         (PList [area_10]) [area_10] (KInt 20) eq_refl eq_refl).
  intros a id Hin Hid.
  apply list_elem_of_singleton in Hin. subst a. injection Hid as <-. discriminate.
Defined.

Lemma load_registers_only_listed_witness :
  exists z a za ai zid,
    z ∈ [zone_1; zone_2] /\ a ∈ [area_10] /\ getitem z "area" = Ok za /\
    getitem a "id" = Ok ai /\ py_eq za ai = true /\
    getitem z "id" = Ok zid /\ hash_key zid = Ok (KInt 2).
Proof.
  apply (proj2 (@load_registers_only_listed sample_entities unloaded_world
                  (PDict [("type", PStr "SPC")]) [zone_1; zone_2] [area_10]
                  loaded_once eq_refl eq_refl eq_refl
                  ltac:(vm_compute; reflexivity)) (KInt 2)).
  apply elem_of_cons. right. apply elem_of_cons. now left.
Defined.

Lemma load_stops_at_bad_record_witness :
  exists w',
    @async_load_parameters sample_entities bad_record_world = (Raise KeyError, w') /\
    is_Some (dict_get (_areas (gw w')) (KInt 10)).
Proof.
  destruct (@load_stops_at_bad_record sample_entities bad_record_world
              (PDict [("type", PStr "SPC")]) [zone_1] [area_10]
              (PDict [("name", PStr "Shed")]) [] KeyError eq_refl)
    as (w' & Hrun & Hreg & _); try reflexivity; [discriminate|].
  exists w'. split; [exact Hrun|].
  destruct (Hreg area_10 (PInt 10) (KInt 10)) as (r & o & Hr & _);
    try reflexivity; [apply elem_of_cons; now left|].
  rewrite Hr. eauto.
Defined.

Lemma load_zones_owned_witness : zone_owned (heap loaded_once) 2.
Proof.
  apply (proj2 (@load_zones_owned sample_entities unloaded_world true loaded_once
                  ltac:(vm_compute; reflexivity)) eq_refl (KInt 2) 2).
  reflexivity.
Defined.

Lemma load_last_record_wins_witness :
  exists r o,
    dict_get (_areas (gw twin_loaded)) (KInt 10) = Some r /\
    heap twin_loaded !! r = Some (OArea o) /\
    area_id o = PInt 10 /\ Ok area_10b = Ok (area_state o) /\
    0 <= r.
Proof.
  apply (@load_last_record_wins sample_entities twin_world
           (PDict [("type", PStr "SPC")]) (PList [zone_1; zone_2])
           [area_10] area_10b [] (PInt 10) (KInt 10) twin_loaded
           eq_refl ltac:(vm_compute; reflexivity) eq_refl eq_refl).
  intros a' id' Hin. now apply elem_of_nil in Hin.
Defined.

Lemma area_owns_matching_zones_witness :
  exists r st vs,
    dict_get (_areas (gw loaded_once)) (KInt 10) = Some r /\
    area_view (heap loaded_once) r = Some (PInt 10, st, vs) /\
    map (fun v => fst (fst v)) vs = [PInt 1; PInt 2] /\
    Forall (fun v => snd v = PInt 10) vs.
Proof.
  apply (@area_owns_matching_zones sample_entities unloaded_world
           (PDict [("type", PStr "SPC")]) [zone_1; zone_2]
           [] area_10 [] (PInt 10) (KInt 10) loaded_once
           eq_refl ltac:(vm_compute; reflexivity) eq_refl eq_refl).
  intros a' id' Hin. now apply elem_of_nil in Hin.
Defined.

Lemma router_logs_witness :
  logged (snd (@_async_ws_handler sample_entities (sia (PInt 3) (PStr "CL"))
                 (fresh_world None (PBool false)))) =
  [DebugSiaCode (PStr "CL") (PInt 3); ErrorUnregistered (PInt 3)].
Proof.
  apply (proj1 (@router_logs sample_entities (sia (PInt 3) (PStr "CL")) (PInt 3)
                  (PStr "CL") (fresh_world None (PBool false))
                  (sia_push_message _ _))).
Defined.

Lemma malformed_message_rejected_witness :
  exists e, (e = KeyError \/ e = TypeError) /\
    @_async_ws_handler sample_entities (PDict [("data", PDict [("user", PStr "x")])])
      (loaded_world None) = (Raise e, loaded_world None).
Proof.
  apply (@malformed_message_rejected sample_entities).
  intros spc_id sia_code (d & m & H1 & H2 & _).
  injection H1 as <-. discriminate H2.
Defined.

Lemma unhashable_address_raises_witness :
  @_async_ws_handler sample_entities (sia (PList [PInt 10]) (PStr "CG"))
    (loaded_world None) =
  (Raise TypeError,
   logged_one (DebugSiaCode (PStr "CG") (PList [PInt 10])) (loaded_world None)).
Proof.
  apply (@unhashable_address_raises sample_entities
           (sia (PList [PInt 10]) (PStr "CG")) (PList [PInt 10]) (PStr "CG")
           (loaded_world None) (sia_push_message _ _) eq_refl I).
Defined.

Lemma router_returns_scheduled_witness :
  exists refs reqs,
    [mkTask "cb" 0; mkTask "cb" 1] =
      callback_tasks (gw (loaded_world (Some "cb"))) refs /\
    scheduled (snd (@_async_ws_handler sample_entities (sia (PInt 3) (PStr "CL"))
                      (loaded_world (Some "cb")))) =
      [] ++ [mkTask "cb" 0; mkTask "cb" 1] /\
    sent (snd (@_async_ws_handler sample_entities (sia (PInt 3) (PStr "CL"))
                 (loaded_world (Some "cb")))) = [] ++ reqs /\
    length reqs = length refs /\
    Forall (fun q => req_method q = GET) reqs /\
    (forall r, r ∈ refs ->
       r ∈ dict_values (_areas (gw (loaded_world (Some "cb")))) \/
       r ∈ dict_values (_zones (gw (loaded_world (Some "cb"))))).
Proof.
  apply (@router_returns_scheduled sample_entities (sia (PInt 3) (PStr "CL"))
           (loaded_world (Some "cb")) (Some [mkTask "cb" 0; mkTask "cb" 1])
           (snd (@_async_ws_handler sample_entities (sia (PInt 3) (PStr "CL"))
                   (loaded_world (Some "cb"))))).
  reflexivity.
Defined.

Lemma absent_fetch_still_updates_witness :
  @_async_ws_handler sample_entities (sia (PInt 20) (PStr "CG")) offline_world =
  (Ok (Some [mkTask "cb" 1]),
   {| gw := gw offline_world;
      heap := [OArea (mkArea (PInt 10) (PDict [("mode", PInt 0)]) [2]);
               OArea (mkArea (PInt 20) (PList [PBool false; PStr "CG"]) []);
               OZone (mkZone (PInt 1) (PDict [("input", PInt 0)]) 0)];
      net := net offline_world;
      sent := [mkRequest GET "http://gw/" "spc/{}/{}" [PStr "area"; PInt 20]];
      logged := [DebugSiaCode (PStr "CG") (PInt 20)];
      scheduled := [mkTask "cb" 1] |}).
Proof.
  apply (@absent_fetch_still_updates sample_entities
           (sia (PInt 20) (PStr "CG")) (PInt 20) (PStr "CG") (KInt 20) 1
           (mkArea (PInt 20) (PDict [("mode", PInt 0)]) []) offline_world
           (sia_push_message _ _) eq_refl eq_refl eq_refl eq_refl eq_refl).
Defined.

Lemma loaded_area_is_routed_witness :
  exists r o,
    dict_get (_areas (gw loaded_once)) (KInt 10) = Some r /\
    heap loaded_once !! r = Some (OArea o) /\ hash_key (area_id o) = Ok (KInt 10) /\
    sent (snd (@_async_ws_handler sample_entities (sia (PInt 10) (PStr "CG"))
                 loaded_once)) =
      sent loaded_once ++ [data_url "http://gw/" "area" (area_id o)] /\
    (forall o', @refreshed_area sample_entities loaded_once (PStr "CG") 0 o = Ok o' ->
       fst (@_async_ws_handler sample_entities (sia (PInt 10) (PStr "CG"))
              loaded_once) = Ok (Some [mkTask "cb" r]) /\
       heap (snd (@_async_ws_handler sample_entities (sia (PInt 10) (PStr "CG"))
                    loaded_once)) !! r = Some (OArea o')).
Proof.
  apply (@loaded_area_is_routed sample_entities unloaded_world
           (PDict [("type", PStr "SPC")]) [zone_1; zone_2] [area_10] loaded_once
           area_10 (PInt 10) (KInt 10) (sia (PInt 10) (PStr "CG")) (PInt 10)
           (PStr "CG") eq_refl ltac:(vm_compute; reflexivity)).
  - apply elem_of_cons. now left.
  - reflexivity.
  - reflexivity.
  - apply sia_push_message.
  - reflexivity.
  - reflexivity.
Defined.

Lemma unloaded_gateway_fetches_nothing_witness :
  fst (@_async_ws_handler sample_entities (sia (PInt 10) (PStr "CG"))
         (fresh_world None (PBool false))) = Raise AttributeError /\
  fst (@_async_ws_handler sample_entities (sia (PList [PInt 10]) (PStr "CG"))
         (fresh_world None (PBool false))) = Raise TypeError /\
  fst (@_async_ws_handler sample_entities (sia (PInt 10) (PStr "OP"))
         (fresh_world None (PBool false))) = Ok None.
Proof.
  split; [|split].
  - apply (proj1 (@unloaded_gateway_fetches_nothing sample_entities
                    (sia (PInt 10) (PStr "CG")) (PInt 10) (PStr "CG")
                    (fresh_world None (PBool false)) "http://gw/" "ws://gw/" None
                    eq_refl (sia_push_message _ _))).
  - apply (proj1 (@unloaded_gateway_fetches_nothing sample_entities
                    (sia (PList [PInt 10]) (PStr "CG")) (PList [PInt 10]) (PStr "CG")
                    (fresh_world None (PBool false)) "http://gw/" "ws://gw/" None
                    eq_refl (sia_push_message _ _))).
  - apply (proj1 (@unloaded_gateway_fetches_nothing sample_entities
                    (sia (PInt 10) (PStr "OP")) (PInt 10) (PStr "OP")
                    (fresh_world None (PBool false)) "http://gw/" "ws://gw/" None
                    eq_refl (sia_push_message _ _))).
Defined.

Lemma user_mode_change_aborts_witness :
  exists w1,
    @_async_ws_handler sample_entities (sia (PInt 3) (PStr "CL")) flaky_world =
      (Raise KeyError,
       sent_one (data_url "http://gw/" "area" (PInt 20)) w1) /\
    heap w1 !! 0 =
      Some (OArea (mkArea (PInt 10) (PList [PDict [("mode", PInt 3)]; PStr "CL"]) [2])) /\
    heap w1 !! 1 = Some (OArea (mkArea (PInt 20) (PDict [("mode", PInt 0)]) [])) /\
    scheduled w1 = [mkTask "cb" 0].
Proof.
  destruct (@user_mode_change_aborts sample_entities
              (sia (PInt 3) (PStr "CL")) (PInt 3) (PStr "CL") [0] 1
              (mkArea (PInt 20) (PDict [("mode", PInt 0)]) []) [] KeyError
              flaky_world)
    as (w1 & Hrun & Hw1 & _ & Hr).
  - apply sia_push_message.
  - now left.
  - reflexivity.
  - reflexivity.
  - reflexivity.
  - apply NoDup_singleton.
  - intros H. apply list_elem_of_singleton in H. discriminate.
  - intros [|i] r Hi; cbn in Hi; try discriminate. injection Hi as <-.
    eexists _, _. split; reflexivity.
  - reflexivity.
  - reflexivity.
  - exists w1. split; [exact Hrun|].
    destruct Hw1 as (_ & _ & Hs & _ & Hup & _). split; [|split].
    + apply (Hup 0 0 (mkArea (PInt 10) (PDict [("mode", PInt 0)]) [2])); reflexivity.
    + exact Hr.
    + exact Hs.
Defined.

(** ** The registries stay consistent *)

Lemma obj_frame_lookup h h' r o :
  map obj_frame h' = map obj_frame h -> h !! r = Some o ->
  exists o', h' !! r = Some o' /\ obj_frame o' = obj_frame o.
Proof.
  intros Hf Hr.
  assert (H : (obj_frame <$> h') !! r = Some (obj_frame o)).
  { change (obj_frame <$> h') with (map obj_frame h'). rewrite Hf.
    change (map obj_frame h) with (obj_frame <$> h).
    now rewrite list_lookup_fmap, Hr. }
  rewrite list_lookup_fmap in H.
  destruct (h' !! r) as [o'|]; [|discriminate]. injection H as H. now exists o'.
Qed.

Lemma same_registry_consistent w w' :
  same_registry w w' -> registry_consistent w -> registry_consistent w'.
Proof.
  intros (Hg & _ & Hf) [Ha Hz]. rewrite <- Hg in Ha, Hz. split.
  - intros k r Hr. destruct (Ha k r Hr) as (a & Hh & Hk).
    destruct (obj_frame_lookup _ _ _ _ Hf Hh) as (o' & Ho' & Hfr).
    destruct o' as [a'|z']; [|discriminate]. injection Hfr as Hid _.
    exists a'. split; [exact Ho'|]. now rewrite Hid.
  - intros k r Hr. destruct (Hz k r Hr) as (z & Hh & Hk).
    destruct (obj_frame_lookup _ _ _ _ Hf Hh) as (o' & Ho' & Hfr).
    destruct o' as [a'|z']; [discriminate|]. injection Hfr as Hid _.
    exists z'. split; [exact Ho'|]. now rewrite Hid.
Qed.

Section Consistent.
Context {E : Entities}.

Lemma install_all_consistent zs al ps w :
  Forall2 (plan_of zs) al ps ->
  registry_consistent w -> registry_consistent (install_all ps w).
Proof.
  intros Hof [Ha Hz].
  pose proof (plan_of_lengths _ _ _ Hof) as Hlen.
  destruct (install_all_heap ps w) as (ext & Hext).
  split.
  - intros k r Hr. pose proof (install_all_areas ps w k) as Hin.
    destruct (last_plan ps k) as [p|] eqn:Hp.
    + destruct Hin as (r' & Hr' & _ & Hv). rewrite Hr in Hr'. injection Hr' as <-.
      apply area_view_inv in Hv as (a & Hh & Hid). cbn in Hid.
      exists a. split; [exact Hh|]. rewrite Hid.
      apply last_write_elem in Hp.
      apply list_elem_of_In, in_map_iff in Hp as (p' & [= Hk ->] & Hp').
      apply list_elem_of_In in Hp'.
      destruct (plan_key_record _ _ _ _ Hof Hp') as (a0 & _ & _ & _ & Hpk & _).
      now rewrite Hpk, Hk.
    + rewrite Hin in Hr. destruct (Ha k r Hr) as (a & Hh & Hk).
      exists a. split; [|exact Hk]. rewrite Hext. now apply lookup_app_l_Some.
  - intros k r Hr. pose proof (install_all_zones ps w k Hlen) as Hin.
    destruct (last_zone ps k) as [v|] eqn:Hq.
    + destruct Hin as (r' & Hr' & _ & Hv). rewrite Hr in Hr'. injection Hr' as <-.
      apply zone_view_inv in Hv as (z & Hh & Hid).
      exists z. split; [exact Hh|]. rewrite Hid.
      apply last_write_elem, elem_of_concat_map in Hq as (q & Hq & Hkv).
      apply list_elem_of_lookup in Hkv as (j & Hj).
      apply lookup_zip_with_Some in Hj as (k' & v' & [= <- <-] & Hjk & Hjv).
      destruct (plan_key_record _ _ _ _ Hof Hq) as (a0 & _ & _ & _ & _ & Hqks & _).
      destruct (hash_keys_lookup _ _ _ _ Hqks Hjk) as (id' & Hid' & Hkid').
      unfold plan_zone_views in Hjv.
      change (map ?f ?l) with (f <$> l) in Hjv.
      change (map ?f ?l) with (f <$> l) in Hid'.
      rewrite list_lookup_fmap in Hjv. rewrite list_lookup_fmap in Hid'.
      destruct (ap_zones q !! j) as [z'|]; [|discriminate].
      injection Hjv as <-. injection Hid' as <-. exact Hkid'.
    + rewrite Hin in Hr. destruct (Hz k r Hr) as (z & Hh & Hk).
      exists z. split; [|exact Hk]. rewrite Hext. now apply lookup_app_l_Some.
Qed.

(** The registries stay consistent: on a gateway as [__init__] leaves it
    every key leads to an entity of its class with that id (there is none),
    and a load that returns, the handling of a message however it ends, and
    [change_mode] all keep it so. *)
Theorem registry_stays_consistent w :
  (forall api_url ws_url cb,
     gw w = __init__ api_url ws_url cb -> registry_consistent w) /\
  (registry_consistent w ->
   (forall b w', async_load_parameters w = (Ok b, w') -> registry_consistent w') /\
   (forall data, registry_consistent (snd (_async_ws_handler data w))) /\
   (forall area new_mode,
      registry_consistent (snd (change_mode area new_mode w)))).
Proof.
  split.
  { intros api_url ws_url cb Hg.
    split; intros k r Hr; rewrite Hg in Hr; discriminate. }
  intros Hc. split; [|split].
  - intros b w' Hrun. apply load_ok_inv in Hrun as (i & zs & ars & _ & H).
    destruct b.
    + destruct H as (al & ps & _ & _ & _ & Hps & ->).
      apply (install_all_consistent zs al); [now apply plan_areas_inv|exact Hc].
    + destruct H as [_ ->]. exact Hc.
  - intros data. eapply same_registry_consistent; [|exact Hc].
    apply ws_handler_same_registry.
  - intros area new_mode. eapply same_registry_consistent; [|exact Hc].
    unfold change_mode. destruct new_mode as [m|v]; [|apply same_registry_refl].
    destruct area as [r|v]; unfold bind, deref, get_gw, ret, raise, async_request.
    + destruct (heap w !! r) as [[a|z]|]; repeat split.
    + repeat split.
Qed.

End Consistent.

Lemma registry_stays_consistent_witness :
  registry_consistent loaded_once /\
  registry_consistent
    (snd (@_async_ws_handler sample_entities (sia (PInt 10) (PStr "CG")) loaded_once)).
Proof.
  assert (H0 : registry_consistent unloaded_world).
  { apply (proj1 (@registry_stays_consistent sample_entities unloaded_world)
             "http://gw/" "ws://gw/" (Some "cb")).
    reflexivity. }
  assert (H1 : registry_consistent loaded_once).
  { apply (proj1 (proj2 (@registry_stays_consistent sample_entities unloaded_world)
                    H0) true).
    vm_compute. reflexivity. }
  split; [exact H1|].
  apply (proj1 (proj2 (proj2 (@registry_stays_consistent sample_entities loaded_once)
                         H1))).
Defined.
